(** * production_planner.py: the reservation and requirement engine

    A shallow embedding of class [ProductionPlanner]
    (src/production_planner.py) and the properties its specification
    states about it.

    - Quantities are Python floats: binary64, Rocq's primitive [float];
      a numeric cell is the float of its value.
    - Python dictionaries keyed by strings whose iteration order does not
      influence a computed value ([stock_data], [reserved_materials], the
      dictionaries of a requirement report, a DataFrame row, an order
      snapshot) are [gmap string _]; [selected_orders], whose key order
      drives the order of the float additions, is an insertion-ordered
      association list.
    - The two sheets are what [pd.read_excel] returned, the orders sheet
      with its column of order numbers; the ledger file
      [reservations.json] is the document it holds ([json.dump] followed
      by [json.load] gives the document back), or no file, or a file
      [json.load] cannot parse. Whether a write of the file works is an
      input of the operation that writes.
    - Python built-ins the code calls ([str] and [float] on cell values,
      [datetime.isoformat], [datetime.fromisoformat]) are the fields of
      the class [PyLib].
    - A Python [str] is held as its UTF-8 encoding; whitespace is what
      [str.isspace] holds for, in that encoding (module [PyStr]). *)

From Stdlib Require Import Floats ZArith Ascii String List.
From Stdlib Require Import DecimalString DecimalN.
From stdpp Require Import gmap strings list fin_maps.

Open Scope string_scope.

(** ** Binary64 facts used by the ledger arithmetic *)

Module F64.

Definition zero : float := 0%float.

(** Python's [max(0, x)]: [max] keeps its first argument unless a later
    one is strictly greater. *)
Definition max0 (x : float) : float :=
  if (zero <? x)%float then x else zero.

(** The sign bit is clear, or the value is NaN. *)
Definition sf_unsigned (x : spec_float) : bool :=
  match x with
  | S754_zero s | S754_infinity s | S754_finite s _ _ => negb s
  | S754_nan => true
  end.

Definition unsigned (x : float) : bool := sf_unsigned (Prim2SF x).

End F64.

(** ** Python strings: [str.strip()] and [str.split()] *)

Module PyStr.

(** A Python [str] is held as its UTF-8 encoding, one [ascii] a byte.
    The characters [str.isspace] holds for, which [strip] and [split] go
    by, in that encoding: U+0009..U+000D, U+001C..U+0020, U+0085, U+00A0,
    U+1680, U+2000..U+200A, U+2028, U+2029, U+202F, U+205F and U+3000. *)
Definition WHITESPACE : list (list ascii) :=
  (map (fun c => [c])
       ["009"; "010"; "011"; "012"; "013";
        "028"; "029"; "030"; "031"; "032"]
   ++ [["194"; "133"]; ["194"; "160"]; ["225"; "154"; "128"]]
   ++ map (fun c => ["226"; "128"; c])
          ["128"; "129"; "130"; "131"; "132"; "133"; "134"; "135"; "136";
           "137"; "138"; "168"; "169"; "175"]
   ++ [["226"; "129"; "159"]; ["227"; "128"; "128"]])%char%list.

Definition is_space (w : list ascii) : bool := bool_decide (w ∈ WHITESPACE).

(** A character as far as whitespace goes: a whitespace character, or
    one byte of another character. *)
Inductive char :=
  | Space (w : list ascii)
  | Other (c : ascii).

(** The characters of a [str]. *)
Fixpoint chars (l : list ascii) : list char :=
  match l with
  | [] => []
  | c :: l1 =>
      if is_space [c] then Space [c] :: chars l1
      else
        match l1 with
        | d :: l2 =>
            if is_space [c; d] then Space [c; d] :: chars l2
            else
              match l2 with
              | e :: l3 =>
                  if is_space [c; d; e] then Space [c; d; e] :: chars l3
                  else Other c :: chars l1
              | [] => Other c :: chars l1
              end
        | [] => Other c :: chars l1
        end
  end.

Definition bytes (x : char) : list ascii :=
  match x with Space w => w | Other c => [c] end.

(** The [str] of a list of characters. *)
Definition encode (xs : list char) : list ascii := flat_map bytes xs.

Definition space (x : char) : bool :=
  match x with Space _ => true | Other _ => false end.

Fixpoint lstrip_chars (l : list char) : list char :=
  match l with
  | x :: l' => if space x then lstrip_chars l' else l
  | [] => []
  end.

Definition strip_chars (l : list char) : list char :=
  rev (lstrip_chars (rev (lstrip_chars l))).

(** The characters of a string, and the string of a list of
    characters. *)
Definition text (s : string) : list char := chars (list_ascii_of_string s).

Definition of_text (xs : list char) : string :=
  string_of_list_ascii (encode xs).

(** [s.strip()] *)
Definition strip (s : string) : string := of_text (strip_chars (text s)).

(** [cur] is the token being read, reversed. *)
Fixpoint split_chars (cur l : list char) : list (list char) :=
  match l with
  | [] => match cur with [] => [] | _ => [rev cur] end
  | x :: l' =>
      if space x
      then match cur with
           | [] => split_chars [] l'
           | _ => rev cur :: split_chars [] l'
           end
      else split_chars (x :: cur) l'
  end.

(** [s.split()]: the maximal runs of non-whitespace characters. *)
Definition split (s : string) : list string :=
  map of_text (split_chars [] (text s)).

(** The first character of a text, and the rest of the text. *)
Definition first_char (l : list ascii) : option (char * list ascii) :=
  match l with
  | [] => None
  | c :: l1 =>
      if is_space [c] then Some (Space [c], l1)
      else
        match l1 with
        | d :: l2 =>
            if is_space [c; d] then Some (Space [c; d], l2)
            else
              match l2 with
              | e :: l3 =>
                  if is_space [c; d; e] then Some (Space [c; d; e], l3)
                  else Some (Other c, l1)
              | [] => Some (Other c, l1)
              end
        | [] => Some (Other c, l1)
        end
  end.

(** The characters are those [chars] reads from their text. *)
Fixpoint canonical (xs : list char) : Prop :=
  match xs with
  | [] => True
  | x :: xs' =>
      first_char (bytes x ++ encode xs') = Some (x, encode xs')
      /\ canonical xs'
  end.

(** *** Trimming and tokens, said without the scans *)

Definition spaces (l : list char) : Prop := Forall (fun x => space x = true) l.

Definition spaceless (l : list char) : Prop :=
  Forall (fun x => space x = false) l.

(** Nothing, or whitespace, is next to a run on the side of [x]. *)
Definition boundary (x : option char) : Prop :=
  forall y, x = Some y -> space y = true.

(** Whitespace is not at the end of a text on the side of [x]. *)
Definition inner (x : option char) : Prop :=
  forall y, x = Some y -> space y = false.

(** [mid] is [l] without the whitespace it starts and ends with. *)
Definition trimmed (l mid : list char) : Prop :=
  exists lead trail,
    l = (lead ++ mid ++ trail)%list /\ spaces lead /\ spaces trail /\
    inner (head mid) /\ inner (last mid).

(** [run] is one of the whitespace-separated tokens of [l]: a run of
    characters that are no whitespace, not empty, with whitespace or
    nothing before it and after it. *)
Definition token_of (l run : list char) : Prop :=
  run <> [] /\ spaceless run /\
  exists before after,
    l = (before ++ run ++ after)%list /\
    boundary (last before) /\ boundary (head after).

End PyStr.

(** ** Python built-ins the planner calls *)

(** What the code takes from Python itself: [str(x)] of a float and of a
    [datetime], [float(s)] of a string ([None] where Python raises
    [ValueError]), [datetime.isoformat] and [datetime.fromisoformat]
    ([None] where Python raises [ValueError]). *)
Class PyLib := {
  datetime : Type;
  str_of_float : float -> string;
  str_of_datetime : datetime -> string;
  float_of_text : string -> option float;
  isoformat : datetime -> string;
  fromisoformat : string -> option datetime;
}.

(** [fromisoformat] is documented as the inverse of [isoformat], and it
    rejects the empty string. *)
Class PyLibLaws (py : PyLib) : Prop := {
  fromisoformat_isoformat : forall d, fromisoformat (isoformat d) = Some d;
  fromisoformat_empty : fromisoformat "" = None;
}.

(** Column labels and dictionary keys of the source. *)
Definition ORDERS_NUMBER : string := "Номер заказа".
Definition MATERIAL : string := "Материал".
Definition ON_HAND : string := "На складе".
Definition SHIPMENT_DATE : string := "Дата отгрузки".
Definition NO_ORDERS_SELECTED : string := "Не выбраны заказы".

Inductive exn := KeyError | ValueError | TypeError.

(** The messages the code prints. *)
Inductive event :=
  | EvSelected (n : nat)
  | EvSaved
  | EvSaveFailed
  | EvLoaded (n : nat)
  | EvLoadFailed
  | EvFileRemoved
  | EvRemoveFailed.

(** How the attempt to write [reservations.json] goes: it works, [open]
    raises, or the write raises after the file was truncated. *)
Inductive io_outcome := IoOk | IoOpenFails | IoWriteFails.

(** *** Insertion-ordered dictionaries *)

Fixpoint dict_set {A} (k : string) (v : A) (d : list (string * A))
  : list (string * A) :=
  match d with
  | [] => [(k, v)]
  | (k', v') :: d' =>
      if decide (k' = k) then (k, v) :: d' else (k', v') :: dict_set k v d'
  end.

Fixpoint dict_get {A} (k : string) (d : list (string * A)) : option A :=
  match d with
  | [] => None
  | (k', v') :: d' => if decide (k' = k) then Some v' else dict_get k d'
  end.

Definition dict_keys {A} (d : list (string * A)) : list string := map fst d.

Section Planner.
Context {py : PyLib}.

(** ** Values, sheets and the planner object *)

(** A spreadsheet cell or a field of an order snapshot. A blank cell is
    the float NaN, as pandas reads it. *)
Inductive value :=
  | VNone
  | VNum (f : float)
  | VText (s : string)
  | VDate (d : datetime).

(** [pd.notna(x)] *)
Definition notna (x : value) : bool :=
  match x with
  | VNone => false
  | VNum f => negb (is_nan f)
  | VText _ | VDate _ => true
  end.

(** [str(x)] *)
Definition py_str (x : value) : string :=
  match x with
  | VNone => "None"
  | VNum f => str_of_float f
  | VText s => s
  | VDate d => str_of_datetime d
  end.

(** [float(x)] *)
Definition py_float (x : value) : exn + float :=
  match x with
  | VNum f => inr f
  | VText s =>
      match float_of_text s with Some f => inr f | None => inl ValueError end
  | VNone | VDate _ => inl TypeError
  end.

(** [x != 0] *)
Definition ne_zero (x : value) : bool :=
  match x with
  | VNum f => negb (f =? F64.zero)%float
  | VNone | VText _ | VDate _ => true
  end.

(** [bool(x)] *)
Definition truthy (x : value) : bool :=
  match x with
  | VNone => false
  | VNum f => negb (f =? F64.zero)%float
  | VText s => negb (String.eqb s "")
  | VDate _ => true
  end.

(** The sheet [Потребность материалов]: its column labels in order (by
    their [str]), and its rows; a row maps a label to the cell, a label
    it does not hold reads as a blank cell. *)
Record dataframe := {
  columns : list string;
  rows : list (gmap string value);
}.

Definition cell (row : gmap string value) (col : string) : value :=
  default (VNum nan) (row !! col).

(** [df[col].iloc[i]]; [i] is always a row position where the planner
    reads (lemma [all_materials_length] below). *)
Definition iloc (df : dataframe) (col : string) (i : nat) : value :=
  default (VNum nan) ((fun row => cell row col) <$> rows df !! i).

(** A row of the sheet [Заказы]: the cell of column [Номер заказа], which
    the sheet always has, and the other cells. *)
Record order_row := {
  order_number : value;
  order_fields : gmap string value;
}.

(** [row.to_dict()] *)
Definition to_dict (r : order_row) : gmap string value :=
  <[ORDERS_NUMBER := order_number r]> (order_fields r).

Record planner := {
  orders_df : list order_row;
  materials_df : dataframe;
  stock_data : gmap string float;
  reserved_materials : gmap string float;
  selected_orders : list (string * gmap string value);
}.

Definition set_selected_orders (p : planner) sel : planner :=
  {| orders_df := orders_df p; materials_df := materials_df p;
     stock_data := stock_data p; reserved_materials := reserved_materials p;
     selected_orders := sel |}.

Definition set_reserved_materials (p : planner) res : planner :=
  {| orders_df := orders_df p; materials_df := materials_df p;
     stock_data := stock_data p; reserved_materials := res;
     selected_orders := selected_orders p |}.

(** ** [load_data]: the stock index *)

(** [float(stock)] with
    [stock = row['На складе'] if pd.notna(row['На складе']) else 0]. *)
Definition on_hand_float (row : gmap string value) : exn + float :=
  let stock :=
    if notna (cell row ON_HAND) then cell row ON_HAND else VNum F64.zero in
  py_float stock.

(** The loop over [iterrows()]; [has_material] says whether the sheet has
    the column [Материал] ([row['Материал']] raises [KeyError] without). *)
Fixpoint stock_rows (has_material : bool) (rs : list (gmap string value))
    (acc : gmap string float) : exn + gmap string float :=
  match rs with
  | [] => inr acc
  | row :: rs' =>
      if has_material then
        let material := cell row MATERIAL in
        if notna material then
          match on_hand_float row with
          | inr f =>
              stock_rows has_material rs'
                (<[PyStr.strip (py_str material) := f]> acc)
          | inl e => inl e
          end
        else stock_rows has_material rs' acc
      else inl KeyError
  end.

Definition build_stock_data (df : dataframe) : exn + gmap string float :=
  if bool_decide (ON_HAND ∈ columns df)
  then stock_rows (bool_decide (MATERIAL ∈ columns df)) (rows df) ∅
  else inr ∅.

(** [__init__] with [load_data]: an exception of the loop is printed and
    raised again, so no planner is built. *)
Definition load_data (orders : list order_row) (materials : dataframe)
  : exn + planner :=
  match build_stock_data materials with
  | inr stock =>
      inr {| orders_df := orders; materials_df := materials;
             stock_data := stock; reserved_materials := ∅;
             selected_orders := [] |}
  | inl e => inl e
  end.

(** The entry a row puts into the stock index: none for a row without a
    material name. *)
Definition stock_entry (row : gmap string value) : option (string * float) :=
  if notna (cell row MATERIAL) then
    match on_hand_float row with
    | inr f => Some (PyStr.strip (py_str (cell row MATERIAL)), f)
    | inl _ => None
    end
  else None.

(** A row with a material name has an on-hand cell that is blank or that
    [float] accepts. *)
Definition row_converts (row : gmap string value) : Prop :=
  notna (cell row MATERIAL) = true -> exists f, on_hand_float row = inr f.

(** A row with a material name whose on-hand cell [float] rejects. *)
Definition row_rejected (row : gmap string value) : Prop :=
  notna (cell row MATERIAL) = true /\ exists e, on_hand_float row = inl e.

(** ** [select_orders] *)

(** The rows whose order number, as a stripped string, is [order_num_str]:
    [order_data.iloc[0]] when there is one. *)
Definition find_order (orders : list order_row) (order_num_str : string)
  : option order_row :=
  head (List.filter
          (fun r => bool_decide
                      (PyStr.strip (py_str (order_number r)) = order_num_str))
          orders).

Definition select_step (orders : list order_row)
    (shipment_dates : gmap string value)
    (sel : list (string * gmap string value)) (order_num : value) :=
  let order_num_str := PyStr.strip (py_str order_num) in
  match find_order orders order_num_str with
  | Some r =>
      let order_info :=
        <[SHIPMENT_DATE := default VNone (shipment_dates !! order_num_str)]>
          (to_dict r) in
      dict_set order_num_str order_info sel
  | None => sel
  end.

Definition select_orders (p : planner) (order_numbers : list value)
    (shipment_dates : gmap string value) : planner * list event :=
  let sel :=
    fold_left (select_step (orders_df p) shipment_dates) order_numbers [] in
  (set_selected_orders p sel, [EvSelected (length sel)]).

(** ** [calculate_material_requirements] *)

Record balance := {
  current_stock : float;        (* 'Текущий запас' *)
  already_reserved : float;     (* 'Уже зарезервировано' *)
  available_now : float;        (* 'Доступно сейчас' *)
  required_for_selected : float;(* 'Требуется для выбранных' *)
  balance_after : float;        (* 'Остаток после' *)
}.

Record report := {
  material_requirements : gmap string float;
  material_balance : gmap string balance;
  purchase_requirements : gmap string float;
  order_materials : gmap string (gmap string float);
}.

Inductive calc_result :=
  | CalcError (message : string)
  | CalcReport (r : report).

(** [[str(x).strip() for x in materials_df['Материал'] if pd.notna(x)]] *)
Definition all_materials (df : dataframe) : list string :=
  if bool_decide (MATERIAL ∈ columns df)
  then omap (fun row =>
               let x := cell row MATERIAL in
               if notna x then Some (PyStr.strip (py_str x)) else None)
            (rows df)
  else [].

(** [order_num_clean == col_str or order_num_clean in col_str.split()] *)
Definition column_matches (order_num_clean col : string) : bool :=
  let col_str := PyStr.strip col in
  bool_decide (order_num_clean = col_str)
  || bool_decide (order_num_clean ∈ PyStr.split col_str).

Definition order_columns (df : dataframe) (order_num_clean : string)
  : list string :=
  List.filter (column_matches order_num_clean) (columns df).

(** One pass of the loop over [order_columns]. *)
Definition add_value (total : float) (x : value) : float :=
  if notna x && ne_zero x then
    match py_float x with
    | inr f => (total + f)%float
    | inl _ => total
    end
  else total.

Definition total_requirement (df : dataframe) (cols : list string)
    (material_idx : nat) : float :=
  fold_left (fun total col => add_value total (iloc df col material_idx))
            cols F64.zero.

(** [required_materials] and [order_materials] while the loops run. *)
Definition resolution : Type :=
  gmap string float * gmap string (gmap string float).

(** The body of the loop over [enumerate(all_materials)]. *)
Definition material_step (df : dataframe) (order_num : string)
    (cols : list string) (acc : resolution) (im : nat * string)
  : resolution :=
  let '(material_idx, material_name) := im in
  let total := total_requirement df cols material_idx in
  if (F64.zero <? total)%float then
    (<[material_name :=
         (default F64.zero (acc.1 !! material_name) + total)%float]> acc.1,
     <[order_num :=
         <[material_name := total]> (default ∅ (acc.2 !! order_num))]> acc.2)
  else acc.

Definition enumerate {A} (l : list A) : list (nat * A) := imap pair l.

(** The body of the loop over [selected_orders.keys()]. *)
Definition order_step (df : dataframe) (acc : resolution)
    (order_num : string) : resolution :=
  let order_num_clean := PyStr.strip order_num in
  let cols := order_columns df order_num_clean in
  match cols with
  | [] => acc
  | _ => fold_left (material_step df order_num cols)
                   (enumerate (all_materials df)) acc
  end.

Definition resolve (df : dataframe) (order_nums : list string) : resolution :=
  fold_left (order_step df) order_nums (∅, ∅).

Definition balance_of (p : planner) (material : string) (required : float)
  : balance :=
  let current_stock := default F64.zero (stock_data p !! material) in
  let reserved := default F64.zero (reserved_materials p !! material) in
  let available_stock := F64.max0 (current_stock - reserved)%float in
  {| current_stock := current_stock;
     already_reserved := reserved;
     available_now := available_stock;
     required_for_selected := required;
     balance_after := (available_stock - required)%float |}.

Definition purchase_of (p : planner) (material : string) (required : float)
  : option float :=
  let b := balance_after (balance_of p material required) in
  if (b <? F64.zero)%float then Some (abs b) else None.

Definition compute_report (p : planner) : report :=
  let res := resolve (materials_df p) (dict_keys (selected_orders p)) in
  {| material_requirements := res.1;
     material_balance :=
       map_imap (fun m required => Some (balance_of p m required)) res.1;
     purchase_requirements := map_imap (purchase_of p) res.1;
     order_materials := res.2 |}.

Definition calculate_material_requirements (p : planner) : calc_result :=
  match selected_orders p with
  | [] => CalcError NO_ORDERS_SELECTED
  | _ => CalcReport (compute_report p)
  end.

(** ** The ledger file *)

Inductive json :=
  | JNull
  | JNum (f : float)
  | JText (s : string).

(** [json.dump] has no encoding for a [datetime]: [TypeError]. *)
Definition to_json (x : value) : option json :=
  match x with
  | VNone => Some JNull
  | VNum f => Some (JNum f)
  | VText s => Some (JText s)
  | VDate _ => None
  end.

Definition of_json (j : json) : value :=
  match j with
  | JNull => VNone
  | JNum f => VNum f
  | JText s => VText s
  end.

(** The object in [reservations.json]; [load_reservation_data] reads each
    key with [data.get]. *)
Record document := {
  doc_reserved_materials : option (gmap string float);
  doc_selected_orders : option (list (string * gmap string json));
  doc_timestamp : option string;
}.

(** The file when it exists: text [json.load] cannot parse, or a
    document. *)
Inductive stored :=
  | Unreadable
  | Document (d : document).

Definition json_serializable (x : value) : bool :=
  match to_json x with Some _ => true | None => false end.

Definition encode_order (order_info : gmap string value)
  : option (gmap string json) :=
  if bool_decide (map_Forall (fun _ x => json_serializable x = true) order_info)
  then Some (omap to_json order_info)
  else None.

(** The copy of an order snapshot whose shipment date, when it is a
    [datetime], is its ISO string. *)
Definition serializable_order (order_info : gmap string value)
  : gmap string value :=
  match order_info !! SHIPMENT_DATE with
  | Some x =>
      if truthy x then
        match x with
        | VDate d => <[SHIPMENT_DATE := VText (isoformat d)]> order_info
        | _ => order_info
        end
      else order_info
  | None => order_info
  end.

Definition json_dump (reserved : gmap string float)
    (orders : list (string * gmap string value)) (timestamp : string)
  : option document :=
  orders' ← mapM (fun kv => pair kv.1 <$> encode_order kv.2) orders;
  Some {| doc_reserved_materials := Some reserved;
          doc_selected_orders := Some orders';
          doc_timestamp := Some timestamp |}.

(** ** [save_reservation_data] *)

(** [reservation_data] as [json.dump] encodes it; [None] when an order
    snapshot holds a value [json.dump] cannot encode. *)
Definition ledger_document (p : planner) (now : datetime) : option document :=
  let serializable_orders :=
    map (fun kv => (kv.1, serializable_order kv.2)) (selected_orders p) in
  json_dump (reserved_materials p) serializable_orders (isoformat now).

(** An exception of [open] leaves the file as it was; an exception of
    [json.dump], of the encoder or of the write, leaves the truncated
    file with the text written so far, which is no JSON document. *)
Definition save_reservation_data (p : planner) (disk : option stored)
    (io : io_outcome) (now : datetime) : option stored * list event :=
  match io with
  | IoOpenFails => (disk, [EvSaveFailed])
  | IoWriteFails => (Some Unreadable, [EvSaveFailed])
  | IoOk =>
      match ledger_document p now with
      | Some doc => (Some (Document doc), [EvSaved])
      | None => (Some Unreadable, [EvSaveFailed])
      end
  end.

(** ** [load_reservation_data] *)

Definition json_truthy (j : json) : bool := truthy (of_json j).

(** [datetime.fromisoformat] under [try]: [TypeError] for what is not a
    string, [ValueError] for a string that does not parse. *)
Definition restore_date (j : json) : value :=
  match j with
  | JText s =>
      match fromisoformat s with Some d => VDate d | None => VNone end
  | JNull | JNum _ => VNone
  end.

Definition decode_order (info : gmap string json) : gmap string value :=
  let order_info := of_json <$> info in
  match info !! SHIPMENT_DATE with
  | Some j =>
      if json_truthy j then <[SHIPMENT_DATE := restore_date j]> order_info
      else order_info
  | None => order_info
  end.

Definition load_reservation_data (p : planner) (disk : option stored)
  : bool * planner * list event :=
  match disk with
  | None => (false, p, [])
  | Some Unreadable => (false, p, [EvLoadFailed])
  | Some (Document d) =>
      let p1 :=
        set_reserved_materials p (default ∅ (doc_reserved_materials d)) in
      let sel :=
        fold_left (fun sel kv => dict_set kv.1 (decode_order kv.2) sel)
                  (default [] (doc_selected_orders d)) (selected_orders p1) in
      (true, set_selected_orders p1 sel, [EvLoaded (length sel)])
  end.

(** ** [reserve_materials] *)

Inductive reserve_result :=
  | ReserveError (message : string)
  | ReserveSuccess (reserved_orders : list string)
                   (reserved : gmap string float)
                   (requirements : report).

(** [for material, required in ...items():
       reserved_materials[material] += required]
    on a [defaultdict(float)]: each key of [required] once. *)
Definition add_reservations (reserved required : gmap string float)
  : gmap string float :=
  merge (fun r q =>
           match q with
           | Some required => Some (default F64.zero r + required)%float
           | None => r
           end)
        reserved required.

(** What a call leaves behind: the returned dictionary, the planner
    object, the ledger file and the printed messages. *)
Record reserve_outcome := {
  result : reserve_result;
  planner_after : planner;
  disk_after : option stored;
  printed : list event;
}.

Definition reserve_materials (p : planner) (disk : option stored)
    (order_numbers : list value) (shipment_dates : gmap string value)
    (io : io_outcome) (now : datetime) : reserve_outcome :=
  let '(p1, out1) := select_orders p order_numbers shipment_dates in
  match calculate_material_requirements p1 with
  | CalcError message =>
      {| result := ReserveError message; planner_after := p1;
         disk_after := disk; printed := out1 |}
  | CalcReport requirements =>
      let p2 :=
        set_reserved_materials p1
          (add_reservations (reserved_materials p1)
                            (material_requirements requirements)) in
      let '(disk', out2) := save_reservation_data p2 disk io now in
      {| result := ReserveSuccess (dict_keys (selected_orders p2))
                                  (reserved_materials p2) requirements;
         planner_after := p2; disk_after := disk';
         printed := (out1 ++ out2)%list |}
  end.

(** ** [clear_reservations] *)

Definition clear_reservations (p : planner) (disk : option stored)
    (remove_ok : bool) : planner * option stored * list event :=
  let p' := set_selected_orders (set_reserved_materials p ∅) [] in
  match disk with
  | Some _ => if remove_ok then (p', None, [EvFileRemoved])
              else (p', disk, [EvRemoveFailed])
  | None => (p', None, [])
  end.

(** The required quantities of the requirement report for an order list
    on its own: those of the report computed right after selecting it,
    none when nothing is selected. *)
Definition requirements_for (p : planner) (order_numbers : list value)
    (shipment_dates : gmap string value) : gmap string float :=
  match calculate_material_requirements
          (select_orders p order_numbers shipment_dates).1 with
  | CalcReport r => material_requirements r
  | CalcError _ => ∅
  end.

(** Every quantity accumulated so far has its sign bit clear. *)
Definition all_unsigned (acc : resolution) : Prop :=
  map_Forall (fun _ x => F64.unsigned x = true) acc.1.

(** The shipment date that [save_reservation_data] writes. *)
Definition written_shipment_date (x : value) : value :=
  if truthy x then
    match x with VDate d => VText (isoformat d) | _ => x end
  else x.

(** What saving and loading make of the shipment date of a snapshot: a
    [datetime] and [None] come back as they are, a non-empty string is
    parsed ([None] when it does not parse), another truthy value is
    [None]. *)
Definition restored_shipment_date (x : value) : value :=
  if truthy x then
    match x with
    | VDate d => VDate d
    | VText s =>
        match fromisoformat s with Some d => VDate d | None => VNone end
    | VNone | VNum _ => VNone
    end
  else x.

(** Every field of the snapshot but the shipment date has a JSON
    encoding. *)
Definition snapshot_serializable (order_info : gmap string value) : Prop :=
  forall key x,
    order_info !! key = Some x -> key <> SHIPMENT_DATE ->
    json_serializable x = true.

(** The shipment date of the snapshot, when it has one, is a [datetime]
    or [None]. *)
Definition shipment_date_structured (order_info : gmap string value) : Prop :=
  forall x,
    order_info !! SHIPMENT_DATE = Some x ->
    x = VNone \/ exists d, x = VDate d.

End Planner.

(** ** Notions used to state what the operations do *)

Section Notions.
Context {py : PyLib}.

(** The stripped string under which an order number is looked up. *)
Definition order_key (order_num : value) : string :=
  PyStr.strip (py_str order_num).

(** The snapshot [select_orders] stores for a row. *)
Definition snapshot_of (dates : gmap string value) (k : string)
    (r : order_row) : gmap string value :=
  <[SHIPMENT_DATE := default VNone (dates !! k)]> (to_dict r).

(** One more total on the way of a required quantity: a total that is
    not strictly positive is dropped. *)
Definition add_total (required : option float) (total : float)
  : option float :=
  if (F64.zero <? total)%float
  then Some (default F64.zero required + total)%float
  else required.

(** The required quantity the totals of the selected orders add up to,
    in their order. *)
Definition accumulate (totals : list float) : option float :=
  fold_left add_total totals None.

(** The sum of the numeric cells a row has in the given columns. *)
Definition row_total (row : gmap string value) (cols : list string) : float :=
  fold_left (fun total col => add_value total (cell row col)) cols F64.zero.

(** A strictly positive total, or nothing. *)
Definition positive_total (total : float) : option float :=
  if (F64.zero <? total)%float then Some total else None.

(** What the resolver has accumulated is consistent: an order with
    entries is one of [keys] and has matching columns, its entries are
    strictly positive quantities of listed materials that have a required
    quantity, and every required quantity has an entry of some order. *)
Definition resolution_consistent (df : dataframe) (keys : list string)
    (acc : resolution) : Prop :=
  (forall k per,
     acc.2 !! k = Some per ->
     k ∈ keys /\ order_columns df (PyStr.strip k) <> [] /\
     forall m x, per !! m = Some x ->
                 (F64.zero <? x)%float = true /\ m ∈ all_materials df
                 /\ is_Some (acc.1 !! m)) /\
  (forall m, is_Some (acc.1 !! m) ->
             exists k per, acc.2 !! k = Some per /\ is_Some (per !! m)).

(** The entry of an order for a material in [order_materials]. *)
Definition order_entry (om : gmap string (gmap string float))
    (k material : string) : option float :=
  om !! k ≫= (fun per => per !! material).

(** The total of an order for the material of list position [i]. *)
Definition order_total (df : dataframe) (k : string) (i : nat) : float :=
  total_requirement df (order_columns df (PyStr.strip k)) i.

(** Every cell of the orders row has a JSON encoding (no date cell). *)
Definition order_row_serializable (r : order_row) : Prop :=
  json_serializable (order_number r) = true /\
  map_Forall (fun _ x => json_serializable x = true) (order_fields r).

(** Every given shipment date is a [datetime] or [None]. *)
Definition dates_structured (dates : gmap string value) : Prop :=
  map_Forall (fun _ x => x = VNone \/ exists d, x = VDate d) dates.

(** What a load makes of the file. *)
Definition loaded_planner (p : planner) (disk : option stored) : planner :=
  (load_reservation_data p disk).1.2.

(** The name under which a row is listed. *)
Definition material_name (row : gmap string value) : string :=
  PyStr.strip (py_str (cell row MATERIAL)).

End Notions.

(** ** More Python built-ins: the console functions *)

(** [s.lower()], [datetime.strptime(s, '%d.%m.%Y')] ([None] where Python
    raises [ValueError]) and [==] on two [datetime] values. *)
Class PyConsole (py : PyLib) := {
  py_lower : string -> string;
  strptime_dmy : string -> option datetime;
  datetime_eqb : datetime -> datetime -> bool;
}.

(** [prefix] starts [s]. *)
Fixpoint starts_with (prefix s : string) : bool :=
  match prefix, s with
  | EmptyString, _ => true
  | String a prefix', String b s' => Ascii.eqb a b && starts_with prefix' s'
  | String _ _, EmptyString => false
  end.

(** [x in s] for two strings. *)
Fixpoint py_in (x s : string) : bool :=
  starts_with x s
  || match s with
     | EmptyString => false
     | String _ s' => py_in x s'
     end.

(** A keyword of the list occurs in the text. *)
Definition mentions (keywords : list string) (text : string) : Prop :=
  exists x before after,
    x ∈ keywords /\ text = (before ++ x ++ after)%string.

(** ** [estimate_material_price] *)

Section Prices.
Context {py : PyLib} {console : PyConsole py}.

(** [any(x in material_lower for x in keywords)] *)
Definition any_in (keywords : list string) (material_lower : string) : bool :=
  existsb (fun x => py_in x material_lower) keywords.

Definition GLASS : list string := ["стекло"; "glass"].
Definition PROFILE : list string := ["профиль"; "profile"].
Definition ARGON : list string := ["аргон"; "argon"].
Definition SEALANT : list string := ["герметик"; "sealant"].
Definition TAPE : list string := ["лента"; "tape"].
Definition CONNECTOR : list string := ["соединитель"; "connector"].

Definition estimate_material_price (material : string) : Z :=
  let material_lower := py_lower material in
  if any_in GLASS material_lower then 1500
  else if any_in PROFILE material_lower then 800
  else if any_in ARGON material_lower then 200
  else if any_in SEALANT material_lower then 1500
  else if any_in TAPE material_lower then 300
  else if any_in CONNECTOR material_lower then 500
  else 1000.

End Prices.

(** ** [select_orders_menu] *)

Section Menu.
Context {py : PyLib} {console : PyConsole py}.

(** The equality [Series.unique()] goes by: [==], with all NaN alike. *)
Definition value_eqb (x y : value) : bool :=
  match x, y with
  | VNone, VNone => true
  | VNum f, VNum g => (f =? g)%float || (is_nan f && is_nan g)
  | VText s, VText t => String.eqb s t
  | VDate d, VDate e => datetime_eqb d e
  | _, _ => false
  end.

(** [Series.unique()]: the values in the order of their first
    appearance. *)
Fixpoint unique_go (seen l : list value) : list value :=
  match l with
  | [] => []
  | x :: l' =>
      if existsb (value_eqb x) seen then unique_go seen l'
      else x :: unique_go (x :: seen) l'
  end.

Definition unique (l : list value) : list value := unique_go [] l.

(** [[str(x) for x in orders_df['Номер заказа'].unique() if pd.notna(x)]] *)
Definition all_orders (p : planner) : list string :=
  map py_str (List.filter notna (unique (map order_number (orders_df p)))).

(** [cur] is the piece being read, reversed. *)
Fixpoint split_on_chars (sep : ascii) (cur l : list ascii)
  : list (list ascii) :=
  match l with
  | [] => [rev cur]
  | c :: l' =>
      if Ascii.eqb c sep then rev cur :: split_on_chars sep [] l'
      else split_on_chars sep (c :: cur) l'
  end.

(** [s.split(sep)] for a separator of one character. *)
Definition split_on (sep : ascii) (s : string) : list string :=
  map string_of_list_ascii (split_on_chars sep [] (list_ascii_of_string s)).

(** [sep.join(l)] *)
Fixpoint join (sep : string) (l : list string) : string :=
  match l with
  | [] => ""
  | [x] => x
  | x :: l' => x ++ sep ++ join sep l'
  end.

(** [[num.strip() for num in order_input.split(',') if num.strip()]] *)
Definition parse_order_numbers (order_input : string) : list string :=
  omap (fun num =>
          if String.eqb (PyStr.strip num) "" then None
          else Some (PyStr.strip num))
       (split_on "," order_input).

(** [any(str(existing_order).strip() == order_num
         for existing_order in all_orders)] *)
Definition is_valid_order (all : list string) (order_num : string) : bool :=
  existsb (fun existing => bool_decide (PyStr.strip existing = order_num)) all.

(** The lines the menu prints; the prompts of [input] are not among
    them. *)
Inductive menu_line :=
  | LnTitle
  | LnTotal (n : nat)
  | LnExamples
  | LnExample (order : string)
  | LnMore (n : nat)
  | LnNoInput
  | LnNotFound (orders : string)
  | LnNoValidOrder
  | LnDatesTitle
  | LnDatesHint
  | LnBadDate
  | LnPlanner (e : event)
  | LnReserved (orders : nat)
  | LnReservedCount (materials : nat)
  | LnReserveError.

(** The [while True] loop that asks for the shipment date of one order.
    [inputs] are the lines the user types; [input] raises [EOFError]
    when they are used up ([None]). *)
Fixpoint read_shipment_date (inputs : list string)
  : option (value * list string) * list menu_line :=
  match inputs with
  | [] => (None, [])
  | line :: rest =>
      let date_str := PyStr.strip line in
      if String.eqb date_str "" then
        match rest with
        | [] => (None, [])
        | answer :: rest' =>
            let use_default := py_lower (PyStr.strip answer) in
            if String.eqb use_default "y" then (Some (VNone, rest'), [])
            else read_shipment_date rest'
        end
      else
        match strptime_dmy date_str with
        | Some shipment_date => (Some (VDate shipment_date, rest), [])
        | None =>
            let '(r, out) := read_shipment_date rest in (r, LnBadDate :: out)
        end
  end.

(** The loop over [valid_orders]. *)
Fixpoint read_shipment_dates (valid_orders : list string)
    (shipment_dates : gmap string value) (inputs : list string)
  : option (gmap string value * list string) * list menu_line :=
  match valid_orders with
  | [] => (Some (shipment_dates, inputs), [])
  | order_num :: valid' =>
      match read_shipment_date inputs with
      | (Some (x, rest), out) =>
          let '(r, out') :=
            read_shipment_dates valid' (<[order_num := x]> shipment_dates)
                                rest in
          (r, (out ++ out')%list)
      | (None, out) => (None, out)
      end
  end.

(** What a run of the menu leaves: the planner, the ledger file, the
    printed lines, the typed lines not read, and whether it ended in
    [EOFError]. *)
Record menu_outcome := {
  menu_planner : planner;
  menu_disk : option stored;
  menu_lines : list menu_line;
  menu_unread : list string;
  menu_eof : bool;
}.

Definition menu_intro (all : list string) : list menu_line :=
  ([LnTitle; LnTotal (length all); LnExamples]
   ++ map LnExample (take 10 all)
   ++ (if Nat.ltb 10 (length all) then [LnMore (length all - 10)]
       else []))%list.

Definition select_orders_menu (p : planner) (disk : option stored)
    (inputs : list string) (io : io_outcome) (now : datetime)
  : menu_outcome :=
  let all := all_orders p in
  match inputs with
  | [] =>
      {| menu_planner := p; menu_disk := disk; menu_lines := menu_intro all;
         menu_unread := []; menu_eof := true |}
  | line :: rest =>
      let order_input := PyStr.strip line in
      if String.eqb order_input "" then
        {| menu_planner := p; menu_disk := disk;
           menu_lines := (menu_intro all ++ [LnNoInput])%list;
           menu_unread := rest; menu_eof := false |}
      else
        let order_numbers := parse_order_numbers order_input in
        let valid_orders :=
          List.filter (is_valid_order all) order_numbers in
        let invalid_orders :=
          List.filter (fun o => negb (is_valid_order all o)) order_numbers in
        let lines :=
          (menu_intro all
           ++ match invalid_orders with
              | [] => []
              | _ => [LnNotFound (join ", " invalid_orders)]
              end)%list in
        match valid_orders with
        | [] =>
            {| menu_planner := p; menu_disk := disk;
               menu_lines := (lines ++ [LnNoValidOrder])%list;
               menu_unread := rest; menu_eof := false |}
        | _ =>
            match read_shipment_dates valid_orders ∅ rest with
            | (None, out) =>
                {| menu_planner := p; menu_disk := disk;
                   menu_lines :=
                     (lines ++ [LnDatesTitle; LnDatesHint] ++ out)%list;
                   menu_unread := []; menu_eof := true |}
            | (Some (shipment_dates, rest'), out) =>
                let o :=
                  reserve_materials p disk (map VText valid_orders)
                                    shipment_dates io now in
                let report :=
                  match result o with
                  | ReserveSuccess _ reserved _ =>
                      [LnReserved (length valid_orders);
                       LnReservedCount (size reserved)]
                  | ReserveError _ => [LnReserveError]
                  end in
                {| menu_planner := planner_after o;
                   menu_disk := disk_after o;
                   menu_lines :=
                     (lines ++ [LnDatesTitle; LnDatesHint] ++ out
                      ++ map LnPlanner (printed o) ++ report)%list;
                   menu_unread := rest'; menu_eof := false |}
            end
        end
  end.

End Menu.

(** ** The start of [main] *)

Section Session.
Context {py : PyLib}.

(** [ProductionPlanner(excel_file)] followed by
    [planner.load_reservation_data()], once the two sheets are read: an
    exception of [load_data] ends [main]. The result is the planner the
    menu loop starts with and what [load_reservation_data] printed. *)
Definition start_session (orders : list order_row) (df : dataframe)
    (disk : option stored) : exn + planner * list event :=
  match load_data orders df with
  | inr p =>
      let loaded := load_reservation_data p disk in
      inr (loaded.1.2, loaded.2)
  | inl e => inl e
  end.

End Session.

(** ** Sample data *)

Module Example.

(** Two shipment dates, as [strptime] builds them from [25.12.2024] and
    [15.01.2025]. *)
Inductive sample_date := Dec25_2024 | Jan15_2025.

Definition sample_isoformat (d : sample_date) : string :=
  match d with
  | Dec25_2024 => "2024-12-25T00:00:00"
  | Jan15_2025 => "2025-01-15T00:00:00"
  end.

Definition sample_fromisoformat (s : string) : option sample_date :=
  if String.eqb s "2024-12-25T00:00:00" then Some Dec25_2024
  else if String.eqb s "2025-01-15T00:00:00" then Some Jan15_2025
  else None.

Definition sample_str_of_datetime (d : sample_date) : string :=
  match d with
  | Dec25_2024 => "2024-12-25 00:00:00"
  | Jan15_2025 => "2025-01-15 00:00:00"
  end.

(** [float(s)] on the texts of the sample sheets: [abc] and the other
    words are no float literals. *)
Definition sample_float_of_text (s : string) : option float :=
  if String.eqb s "4" then Some 4%float
  else if String.eqb s "2.5" then Some 2.5%float
  else None.

(** [str(x)] of a float; the names and order numbers of the samples are
    text, so the samples never take it. *)
Definition sample_str_of_float (f : float) : string :=
  if is_nan f then "nan" else if (f =? 101)%float then "101.0" else "0.0".

#[export] Instance sample_py : PyLib := {|
  datetime := sample_date;
  str_of_float := sample_str_of_float;
  str_of_datetime := sample_str_of_datetime;
  float_of_text := sample_float_of_text;
  isoformat := sample_isoformat;
  fromisoformat := sample_fromisoformat;
|}.

Definition row_of (cells : list (string * value)) : gmap string value :=
  list_to_map cells.

(** The no-break space U+00A0, as a spreadsheet puts it into a label. *)
Definition NBSP : string := String "194" (String "160" "").

(** The orders sheet: orders 101 and 102. *)
Definition orders : list order_row :=
  [ {| order_number := VText "101";
       order_fields := row_of [("Клиент", VText "Acme")] |};
    {| order_number := VText "102";
       order_fields := row_of [("Клиент", VText "Bolt")] |} ].

(** One material, [glass], 10 on hand; order 101 needs 4 of it and
    order 102 needs 5. *)
Definition glass_sheet : dataframe :=
  {| columns := [MATERIAL; ON_HAND; "101"; "102"];
     rows := [ row_of [(MATERIAL, VText "glass"); (ON_HAND, VNum 10);
                       ("101", VNum 4); ("102", VNum 5)] ] |}.

(** The same with a composite column label. *)
Definition composite_sheet : dataframe :=
  {| columns := [MATERIAL; ON_HAND; "101 102"];
     rows := [ row_of [(MATERIAL, VText "glass"); (ON_HAND, VNum 10);
                       ("101 102", VNum 4)] ] |}.

(** A sheet whose first row has no material name (a heading or spacer
    row of the spreadsheet) and a quantity in the order column. *)
Definition spacer_sheet : dataframe :=
  {| columns := [MATERIAL; ON_HAND; "101"];
     rows := [ row_of [("101", VNum 5)];
               row_of [(MATERIAL, VText "glass"); (ON_HAND, VNum 10);
                       ("101", VNum 7)] ] |}.

(** A sheet whose on-hand cell holds a word. *)
Definition worded_sheet : dataframe :=
  {| columns := [MATERIAL; ON_HAND; "101"];
     rows := [ row_of [(MATERIAL, VText "glass"); (ON_HAND, VText "abc");
                       ("101", VNum 4)] ] |}.

Definition planner_of (sheet : dataframe) (stock reserved : gmap string float)
  : planner :=
  {| orders_df := orders; materials_df := sheet; stock_data := stock;
     reserved_materials := reserved; selected_orders := [] |}.

Definition glass_stock : gmap string float := {[ "glass" := 10%float ]}.

Definition no_dates : gmap string value := ∅.

(** Scenario 2 of the specification: 10 of glass on hand, 8 reserved,
    the selected order 102 needs 5. *)
Definition scenario2 : planner :=
  (select_orders (planner_of glass_sheet glass_stock {[ "glass" := 8%float ]})
                 [VText "102"] no_dates).1.

(** Scenario 3: order 101 against the composite column [101 102]. *)
Definition scenario3 : planner :=
  (select_orders (planner_of composite_sheet glass_stock ∅)
                 [VText "101"] no_dates).1.

(** Order 101 selected on the sheet with the spacer row. *)
Definition spacer_selected : planner :=
  (select_orders (planner_of spacer_sheet glass_stock ∅)
                 [VText "101"] no_dates).1.

(** A ledger with a reservation and a ledger file. *)
Definition busy_planner : planner :=
  planner_of glass_sheet glass_stock {[ "glass" := 8%float ]}.

Definition busy_disk : option stored :=
  Some (Document {| doc_reserved_materials := Some {[ "glass" := 8%float ]};
                    doc_selected_orders := Some [];
                    doc_timestamp := Some "2024-12-01T09:00:00" |}).

Definition fresh_planner : planner := planner_of glass_sheet glass_stock ∅.

(** Order 101 selected with a shipment date, on the busy ledger. *)
Definition dated_planner : planner :=
  (select_orders busy_planner [VText "101"]
                 {[ "101" := VDate Dec25_2024 ]}).1.

(** A ledger file that holds order 102 and 5 of glass; the shipment date
    of the order is no ISO date. *)
Definition stored_102 : document :=
  {| doc_reserved_materials := Some {[ "glass" := 5%float ]};
     doc_selected_orders :=
       Some [("102", list_to_map [(ORDERS_NUMBER, JText "102");
                                  (SHIPMENT_DATE, JText "tomorrow")])];
     doc_timestamp := Some "2024-12-01T09:00:00" |}.

Definition scenario2_balance : balance :=
  {| current_stock := 10; already_reserved := 8; available_now := 2;
     required_for_selected := 5; balance_after := (-3) |}.

(** [s.lower()] on ASCII text. *)
Definition sample_lower (s : string) : string :=
  string_of_list_ascii
    (map (fun c =>
            let n := nat_of_ascii c in
            if (Nat.leb 65 n && Nat.leb n 90)%bool
            then ascii_of_nat (n + 32) else c)
         (list_ascii_of_string s)).

(** [strptime] on the two dates of the samples; the other texts of the
    samples are no dates. *)
Definition sample_strptime (s : string) : option sample_date :=
  if String.eqb s "25.12.2024" then Some Dec25_2024
  else if String.eqb s "15.01.2025" then Some Jan15_2025
  else None.

Definition sample_date_eqb (d e : sample_date) : bool :=
  match d, e with
  | Dec25_2024, Dec25_2024 | Jan15_2025, Jan15_2025 => true
  | _, _ => false
  end.

#[export] Instance sample_console : PyConsole sample_py := {|
  py_lower := sample_lower;
  strptime_dmy := sample_strptime;
  datetime_eqb := sample_date_eqb;
|}.

(** A sheet that lists glass twice, 10 and then 7 on hand, before
    argon. *)
Definition restocked_sheet : dataframe :=
  {| columns := [MATERIAL; ON_HAND; "101"];
     rows := [ row_of [(MATERIAL, VText "glass"); (ON_HAND, VNum 10);
                       ("101", VNum 4)];
               row_of [(MATERIAL, VText "glass"); (ON_HAND, VNum 7)];
               row_of [(MATERIAL, VText "argon"); (ON_HAND, VNum 3)] ] |}.

Definition restocked_row : gmap string value :=
  row_of [(MATERIAL, VText "glass"); (ON_HAND, VNum 7)].

(** Order 102 selected on that sheet, which has a column for order 101
    only; the stock index is the one [load_data] builds from it. *)
Definition unlisted_selected : planner :=
  (select_orders
     (planner_of restocked_sheet
                 {[ "glass" := 7%float; "argon" := 3%float ]} ∅)
     [VText "102"] no_dates).1.

(** Shipment dates for one order. *)
Definition ship_101 : gmap string value := {[ "101" := VDate Dec25_2024 ]}.
Definition ship_102 : gmap string value := {[ "102" := VDate Jan15_2025 ]}.

(** The row of order 102 in the orders sheet. *)
Definition row_102 : order_row :=
  {| order_number := VText "102";
     order_fields := row_of [("Клиент", VText "Bolt")] |}.

(** What a user types into the menu: two known orders and one unknown,
    a wrong date and then a date for the first, no date for the
    second. *)
Definition typed_lines : list string :=
  [" 101, 102 ,555"; "tomorrow"; "25.12.2024"; ""; "Y"].

End Example.

(** ** Facts about binary64 and about strings *)

Module F64Facts.
Import F64.

Lemma Prim2SF_zero : Prim2SF zero = S754_zero false.
Proof. reflexivity. Qed.

Lemma abs_of_negative x : (x <? zero)%float = true -> abs x = (- x)%float.
Proof.
  intros H. apply Prim2SF_inj. rewrite abs_spec, opp_spec.
  rewrite ltb_spec, Prim2SF_zero in H.
  destruct (Prim2SF x) as [s|s| |s m e]; cbn in H |- *; try discriminate;
    destruct s; cbn in H |- *; try discriminate; reflexivity.
Qed.

Lemma add_zero_l x : unsigned x = true -> (zero + x)%float = x.
Proof.
  unfold unsigned. intros H. apply Prim2SF_inj.
  rewrite add_spec, Prim2SF_zero.
  destruct (Prim2SF x) as [s|s| |s m e]; cbn in H |- *; try reflexivity.
  destruct s; [discriminate | reflexivity].
Qed.

Lemma unsigned_zero : unsigned zero = true.
Proof. reflexivity. Qed.

Lemma unsigned_positive t : (zero <? t)%float = true -> unsigned t = true.
Proof.
  unfold unsigned. rewrite ltb_spec, Prim2SF_zero.
  destruct (Prim2SF t) as [s|s| |s m e]; cbn; try discriminate;
    destruct s; cbn; try discriminate; reflexivity.
Qed.

Lemma sf_round_unsigned m e l :
  sf_unsigned (binary_round_aux prec emax false m e l) = true.
Proof.
  unfold binary_round_aux.
  destruct (shr_fexp prec emax m e l) as [r1 e1].
  destruct (shr_fexp _ _ _ _ _) as [r2 e2].
  destruct (shr_m r2); try reflexivity.
  destruct (Z.leb _ _); reflexivity.
Qed.

Lemma sf_add_unsigned x y :
  sf_unsigned x = true -> sf_unsigned y = true ->
  sf_unsigned (SF64add x y) = true.
Proof.
  unfold SF64add.
  destruct x as [[]|[]| |[] mx ex], y as [[]|[]| |[] my ey];
    cbn [sf_unsigned negb]; try discriminate; intros _ _; try reflexivity.
  unfold SFadd. cbn [cond_Zopp].
  rewrite <- Pos2Z.inj_add.
  unfold binary_normalize, binary_round.
  match goal with
  | |- context [let (_, _) := ?a in _] => destruct a as [mz ez]
  end.
  apply sf_round_unsigned.
Qed.

Lemma unsigned_add x y :
  unsigned x = true -> unsigned y = true -> unsigned (x + y)%float = true.
Proof. unfold unsigned. rewrite add_spec. apply sf_add_unsigned. Qed.

End F64Facts.

Module PyStrFacts.
Import PyStr.

Lemma lstrip_chars_idem l : lstrip_chars (lstrip_chars l) = lstrip_chars l.
Proof.
  induction l as [|c l IH]; simpl; [reflexivity|].
  destruct (space c) eqn:E; [exact IH|]. simpl. now rewrite E.
Qed.

Lemma lstrip_chars_snoc l c :
  space c = false ->
  lstrip_chars (l ++ [c])%list = (lstrip_chars l ++ [c])%list.
Proof.
  intros E. induction l as [|d l IH]; simpl.
  - now rewrite E.
  - destruct (space d); [exact IH | reflexivity].
Qed.

(** A list that [lstrip_chars] leaves alone starts with a non-space. *)
Lemma lstrip_chars_fixed_rstrip l :
  lstrip_chars l = l ->
  lstrip_chars (rev (lstrip_chars (rev l))) = rev (lstrip_chars (rev l)).
Proof.
  destruct l as [|c l]; [reflexivity|].
  simpl. destruct (space c) eqn:E.
  - intros H. exfalso.
    assert (Hlen : length (lstrip_chars l) <= length l).
    { clear. induction l as [|d l IH]; simpl; [lia|].
      destruct (space d); simpl; lia. }
    rewrite H in Hlen. simpl in Hlen. lia.
  - intros _. rewrite lstrip_chars_snoc by exact E.
    rewrite rev_app_distr. simpl. now rewrite E.
Qed.

Lemma strip_chars_idem l : strip_chars (strip_chars l) = strip_chars l.
Proof.
  unfold strip_chars.
  rewrite (lstrip_chars_fixed_rstrip (lstrip_chars l))
    by apply lstrip_chars_idem.
  now rewrite rev_involutive, lstrip_chars_idem.
Qed.

(** [chars] reads one character after the other. *)
Lemma chars_first l :
  chars l = match first_char l with
            | Some (x, rest) => x :: chars rest
            | None => []
            end.
Proof.
  destruct l as [|c l1]; [reflexivity|]. cbn [chars first_char].
  destruct (is_space [c]); [reflexivity|].
  destruct l1 as [|d l2]; [reflexivity|].
  destruct (is_space [c; d]); [reflexivity|].
  destruct l2 as [|e l3]; [reflexivity|].
  now destruct (is_space [c; d; e]).
Qed.

Lemma first_char_bytes l x rest :
  first_char l = Some (x, rest) ->
  l = (bytes x ++ rest)%list /\ length rest < length l.
Proof.
  destruct l as [|c [|d [|e l]]]; cbn [first_char];
    repeat case_match; intros [= <- <-]; cbn; (split; [reflexivity|lia]).
Qed.

Lemma encode_cons x xs : encode (x :: xs) = (bytes x ++ encode xs)%list.
Proof. reflexivity. Qed.

Lemma encode_chars l : encode (chars l) = l.
Proof.
  remember (length l) as n eqn:Hn. revert l Hn.
  induction n as [n IH] using lt_wf_ind. intros l ->.
  rewrite chars_first. destruct (first_char l) as [[x rest]|] eqn:Hfirst.
  - apply first_char_bytes in Hfirst as [-> Hlen]. rewrite encode_cons.
    now rewrite (IH (length rest) Hlen rest eq_refl).
  - destruct l as [|c [|d [|e l]]]; [reflexivity|..];
      cbn [first_char] in Hfirst; repeat case_match; discriminate.
Qed.

Lemma chars_canonical l : canonical (chars l).
Proof.
  remember (length l) as n eqn:Hn. revert l Hn.
  induction n as [n IH] using lt_wf_ind. intros l ->.
  rewrite chars_first. destruct (first_char l) as [[x rest]|] eqn:Hfirst;
    [|exact I].
  pose proof Hfirst as Hbytes. apply first_char_bytes in Hbytes as [Hl Hlen].
  cbn [canonical]. rewrite encode_chars. split.
  - now rewrite <- Hl.
  - exact (IH (length rest) Hlen rest eq_refl).
Qed.

Lemma canonical_chars xs : canonical xs -> chars (encode xs) = xs.
Proof.
  induction xs as [|x xs IH]; [reflexivity|]. intros [Hfirst Hxs].
  rewrite encode_cons, chars_first, Hfirst. now rewrite IH.
Qed.

Lemma encode_app xs ys : encode (xs ++ ys) = (encode xs ++ encode ys)%list.
Proof. apply flat_map_app. Qed.

(** What follows a character plays no part in reading it, beyond the
    bytes that were looked at. *)
Lemma first_char_app x r r' :
  first_char (bytes x ++ r ++ r') = Some (x, (r ++ r')%list) ->
  first_char (bytes x ++ r) = Some (x, r).
Proof.
  destruct x as [[|c [|d [|e [|f w]]]]|c];
    destruct r as [|a [|b [|c' r]]]; destruct r' as [|a' [|b' [|c'' r']]];
    cbn; repeat case_match; intros; simplify_eq; try done.
Qed.

Lemma canonical_app xs ys :
  canonical (xs ++ ys) -> canonical xs /\ canonical ys.
Proof.
  induction xs as [|x xs IH]; [now split|].
  cbn [app canonical]. rewrite encode_app. intros [Hfirst Hrest].
  destruct (IH Hrest) as [Hxs Hys]. split; [|exact Hys].
  split; [|exact Hxs]. now apply first_char_app in Hfirst.
Qed.

(** [lstrip_chars] cuts whitespace off the front. *)
Lemma lstrip_chars_cut l :
  exists lead, l = (lead ++ lstrip_chars l)%list /\ spaces lead.
Proof.
  induction l as [|x l (lead & IH & Hlead)];
    [exists []; split; [reflexivity|constructor]|].
  cbn [lstrip_chars]. destruct (space x) eqn:Hx.
  - exists (x :: lead). split; [cbn; congruence|].
    unfold spaces. now constructor.
  - exists []. split; [reflexivity|constructor].
Qed.

Lemma spaces_rev l : spaces l -> spaces (rev l).
Proof. unfold spaces. rewrite !Forall_forall. intros H x Hx.
  apply H. apply list_elem_of_In, in_rev. now apply list_elem_of_In. Qed.

(** [strip_chars] cuts whitespace off both ends. *)
Lemma strip_chars_cut l :
  exists lead trail,
    l = (lead ++ strip_chars l ++ trail)%list /\ spaces lead /\ spaces trail.
Proof.
  destruct (lstrip_chars_cut l) as (lead & Hl & Hlead).
  destruct (lstrip_chars_cut (rev (lstrip_chars l))) as (trail & Hr & Htrail).
  exists lead, (rev trail). split; [|split; [exact Hlead|]].
  - unfold strip_chars. rewrite <- rev_app_distr, <- Hr, rev_involutive.
    exact Hl.
  - now apply spaces_rev.
Qed.

Lemma canonical_strip_chars l : canonical l -> canonical (strip_chars l).
Proof.
  intros Hl. destruct (strip_chars_cut l) as (lead & trail & Hcut & _).
  rewrite Hcut in Hl. apply canonical_app in Hl as [_ Hl].
  now apply canonical_app in Hl as [Hl _].
Qed.

(** The characters of a stripped text are the stripped characters of
    the text. *)
Lemma text_strip s : text (strip s) = strip_chars (text s).
Proof.
  unfold strip, of_text, text. rewrite list_ascii_of_string_of_list_ascii.
  apply canonical_chars, canonical_strip_chars, chars_canonical.
Qed.

Lemma strip_idem s : strip (strip s) = strip s.
Proof.
  unfold strip at 1. rewrite text_strip, strip_chars_idem. reflexivity.
Qed.

(** **** [strip_chars] and [trimmed] *)

Lemma lstrip_chars_spaces l : spaces l -> lstrip_chars l = [].
Proof.
  induction 1 as [|x l Hx _ IH]; [reflexivity|]. cbn. now rewrite Hx.
Qed.

Lemma lstrip_chars_app_spaces lead l :
  spaces lead -> lstrip_chars (lead ++ l) = lstrip_chars l.
Proof.
  induction 1 as [|x lead Hx _ IH]; [reflexivity|]. cbn. now rewrite Hx.
Qed.

Lemma lstrip_chars_inner l : inner (head l) -> lstrip_chars l = l.
Proof.
  destruct l as [|x l]; [reflexivity|]. intros H. cbn.
  now rewrite (H x eq_refl).
Qed.

Lemma lstrip_chars_head l : inner (head (lstrip_chars l)).
Proof.
  induction l as [|x l IH]; [intros y [=]|]. cbn.
  destruct (space x) eqn:Hx; [exact IH|]. intros y [= <-]. exact Hx.
Qed.

Lemma head_rev {A} (l : list A) : head (rev l) = last l.
Proof.
  induction l as [|x l IH] using rev_ind; [reflexivity|].
  rewrite rev_app_distr, last_snoc. reflexivity.
Qed.

Lemma last_rev {A} (l : list A) : last (rev l) = head l.
Proof. rewrite <- head_rev. now rewrite rev_involutive. Qed.

Lemma strip_chars_inner l :
  inner (head l) -> inner (last l) -> strip_chars l = l.
Proof.
  intros Hhead Hlast. unfold strip_chars.
  rewrite (lstrip_chars_inner l) by exact Hhead.
  rewrite lstrip_chars_inner by now rewrite head_rev.
  apply rev_involutive.
Qed.

(** What [strip_chars] leaves is the one trimmed text. *)
Lemma strip_chars_trimmed l mid : strip_chars l = mid <-> trimmed l mid.
Proof.
  split.
  - intros <-. destruct (strip_chars_cut l) as (lead & trail & Hl & H1 & H2).
    exists lead, trail. split; [exact Hl|]. split; [exact H1|].
    split; [exact H2|]. unfold strip_chars. split.
    + rewrite head_rev. intros y Hy.
      pose proof (lstrip_chars_head l) as Hin.
      destruct (lstrip_chars_cut (rev (lstrip_chars l)))
        as (cut & Hcut & Hspaces).
      destruct (lstrip_chars (rev (lstrip_chars l))) as [|z t] eqn:Hz
        using rev_ind; [discriminate|]. clear IHt.
      rewrite last_snoc in Hy. injection Hy as ->.
      apply (f_equal (@rev _)) in Hcut.
      rewrite rev_involutive, rev_app_distr, rev_app_distr in Hcut.
      cbn in Hcut. rewrite Hcut in Hin. exact (Hin y eq_refl).
    + rewrite last_rev. apply lstrip_chars_head.
  - intros (lead & trail & -> & Hlead & Htrail & Hhead & Hlast).
    destruct mid as [|x mid].
    + cbn [app]. unfold strip_chars.
      rewrite lstrip_chars_app_spaces, (lstrip_chars_spaces trail)
        by assumption.
      reflexivity.
    + unfold strip_chars. rewrite lstrip_chars_app_spaces by exact Hlead.
      rewrite (lstrip_chars_inner ((x :: mid) ++ trail))
        by (intros y [= <-]; exact (Hhead x eq_refl)).
      rewrite rev_app_distr.
      rewrite lstrip_chars_app_spaces by now apply spaces_rev.
      rewrite lstrip_chars_inner by now rewrite head_rev.
      apply rev_involutive.
Qed.

(** **** [split_chars] and [token_of] *)

Lemma spaceless_head l : spaceless l -> boundary (head l) -> l = [].
Proof.
  destruct l as [|x l]; [reflexivity|]. intros Hl Hx. exfalso.
  apply Forall_cons in Hl as [Hfalse _].
  specialize (Hx x eq_refl). congruence.
Qed.

Lemma spaceless_last l : spaceless l -> boundary (last l) -> l = [].
Proof.
  destruct l as [|x l _] using rev_ind; [reflexivity|]. intros Hl Hx.
  exfalso. apply Forall_app in Hl as [_ Hl].
  apply Forall_cons in Hl as [Hfalse _].
  specialize (Hx x (last_snoc _ _)). congruence.
Qed.

(** A text without whitespace is its one token. *)
Lemma token_of_spaceless l run :
  spaceless l -> token_of l run <-> l <> [] /\ run = l.
Proof.
  intros Hl. split.
  - intros (Hne & _ & before & after & -> & Hbefore & Hafter).
    apply Forall_app in Hl as [Hb Hl]. apply Forall_app in Hl as [_ Ha].
    rewrite (spaceless_last before Hb Hbefore).
    rewrite (spaceless_head after Ha Hafter).
    cbn. rewrite app_nil_r. now split.
  - intros [Hne ->]. split; [exact Hne|]. split; [exact Hl|].
    exists [], []. cbn. rewrite app_nil_r.
    split; [reflexivity|]. split; intros y [=].
Qed.

(** The tokens of a text with a whitespace character in it are those
    before and those after the character. *)
Lemma token_of_space a x b run :
  space x = true -> spaceless a ->
  token_of (a ++ x :: b) run <-> (a <> [] /\ run = a) \/ token_of b run.
Proof.
  intros Hx Ha. split.
  - intros (Hne & Hrun & before & after & Heq & Hbefore & Hafter).
    apply app_eq_app in Heq as [l [[-> Heq]|[-> Heq]]].
    + apply Forall_app in Ha as [Hb Hl].
      rewrite (spaceless_last before Hb Hbefore) in *. cbn [app] in *.
      clear Hb Hbefore. left.
      apply app_eq_app in Heq as [m [[-> Heq]|[-> Heq]]].
      * destruct m as [|y m].
        { rewrite app_nil_r in *. now split. }
        cbn in Heq. injection Heq as <- _.
        apply Forall_app in Hrun as [_ Hrun].
        apply Forall_cons in Hrun as [Hfalse _]. congruence.
      * apply Forall_app in Hl as [_ Hm].
        destruct m as [|y m]; [rewrite app_nil_r; now split|].
        exfalso. apply Forall_cons in Hm as [Hfalse _].
        rewrite Heq in Hafter. specialize (Hafter y eq_refl). congruence.
    + destruct l as [|y l].
      * exfalso. cbn in Heq. destruct run as [|z run]; [contradiction|].
        injection Heq as <- _. apply Forall_cons in Hrun as [Hfalse _].
        congruence.
      * injection Heq as <- ->. right.
        split; [exact Hne|]. split; [exact Hrun|].
        exists l, after. split; [reflexivity|]. split; [|exact Hafter].
        intros z Hz. apply Hbefore.
        rewrite last_app_cons, last_cons, Hz. reflexivity.
  - intros [[Hne ->]|(Hne & Hrun & before & after & -> & Hbefore & Hafter)].
    + split; [exact Hne|]. split; [exact Ha|].
      exists [], (x :: b). split; [reflexivity|].
      split; [intros y [=] | intros y [= <-]; exact Hx].
    + split; [exact Hne|]. split; [exact Hrun|].
      exists (a ++ x :: before)%list, after.
      split; [now rewrite <- app_assoc|]. split; [|exact Hafter].
      intros y. rewrite last_app_cons, last_cons.
      destruct (last before) as [z|] eqn:Hz.
      * intros [= <-]. now apply Hbefore.
      * intros [= <-]. exact Hx.
Qed.

Lemma split_chars_tokens_from cur l run :
  spaceless cur ->
  run ∈ split_chars cur l <-> token_of (rev cur ++ l) run.
Proof.
  revert cur. induction l as [|x l IH]; intros cur Hcur.
  - rewrite app_nil_r.
    assert (Hrev : spaceless (rev cur)).
    { unfold spaceless. rewrite Forall_forall. intros y Hy.
      unfold spaceless in Hcur. rewrite Forall_forall in Hcur. apply Hcur.
      apply list_elem_of_In, in_rev. now apply list_elem_of_In. }
    rewrite (token_of_spaceless _ _ Hrev). cbn [split_chars].
    destruct cur as [|y cur].
    + split; [intros H; inversion H | intros [H _]; contradiction].
    + rewrite list_elem_of_singleton. split; [|tauto].
      intros ->. split; [|reflexivity].
      cbn. now destruct (rev cur).
  - cbn [split_chars]. destruct (space x) eqn:Hx.
    + assert (Hrev : spaceless (rev cur)).
      { unfold spaceless. rewrite Forall_forall. intros y Hy.
        unfold spaceless in Hcur. rewrite Forall_forall in Hcur. apply Hcur.
        apply list_elem_of_In, in_rev. now apply list_elem_of_In. }
      rewrite (token_of_space _ _ _ _ Hx Hrev).
      specialize (IH [] (Forall_nil_2 _)). cbn [rev app] in IH.
      destruct cur as [|y cur].
      * rewrite IH. split; [now right|].
        intros [[H _]|H]; [contradiction | exact H].
      * rewrite elem_of_cons, IH. split.
        -- intros [->|H]; [left | now right].
           split; [|reflexivity]. cbn. now destruct (rev cur).
        -- intros [[_ ->]|H]; [now left | now right].
    + rewrite IH by (constructor; assumption).
      cbn [rev]. now rewrite <- app_assoc.
Qed.

(** [split_chars] lists the tokens of the text. *)
Lemma split_chars_tokens l run : run ∈ split_chars [] l <-> token_of l run.
Proof. apply (split_chars_tokens_from [] l run). constructor. Qed.

(** **** [strip] and [split] in these words *)

Lemma strip_spec s t :
  strip s = t <-> exists mid, trimmed (text s) mid /\ of_text mid = t.
Proof.
  unfold strip. split.
  - intros <-. exists (strip_chars (text s)).
    split; [now apply strip_chars_trimmed | reflexivity].
  - intros (mid & Hmid & <-). apply strip_chars_trimmed in Hmid.
    now rewrite Hmid.
Qed.

Lemma split_spec s t :
  t ∈ split s <-> exists run, token_of (text s) run /\ of_text run = t.
Proof.
  unfold split. rewrite list_elem_of_fmap. split.
  - intros (run & -> & Hrun). exists run.
    split; [now apply split_chars_tokens | reflexivity].
  - intros (run & Hrun & <-). exists run.
    split; [reflexivity | now apply split_chars_tokens].
Qed.

End PyStrFacts.

(** ** Properties of the planner *)

Section PlannerFacts.
Context {py : PyLib}.

(** *** The resolver *)

Lemma material_step_unsigned df order_num cols acc im :
  all_unsigned acc -> all_unsigned (material_step df order_num cols acc im).
Proof.
  intros Hacc. destruct im as [i name]. unfold material_step.
  destruct (F64.zero <? total_requirement df cols i)%float eqn:Hpos;
    [|exact Hacc].
  unfold all_unsigned. cbn [fst].
  apply map_Forall_insert_2; [|exact Hacc].
  apply F64Facts.unsigned_add.
  - destruct (acc.1 !! name) as [x|] eqn:Hx; cbn.
    + exact (Hacc name x Hx).
    + apply F64Facts.unsigned_zero.
  - now apply F64Facts.unsigned_positive.
Qed.

Lemma fold_left_invariant {A B} (P : A -> Prop) (f : A -> B -> A) l a :
  (forall a b, P a -> P (f a b)) -> P a -> P (fold_left f l a).
Proof.
  intros Hf. revert a. induction l as [|b l IH]; intros a Ha; cbn; auto.
Qed.

Lemma order_step_unsigned df acc order_num :
  all_unsigned acc -> all_unsigned (order_step df acc order_num).
Proof.
  intros Hacc. unfold order_step.
  destruct (order_columns df (PyStr.strip order_num)); [exact Hacc|].
  apply (fold_left_invariant all_unsigned); [|exact Hacc].
  intros a b. apply material_step_unsigned.
Qed.

(** Every required quantity has its sign bit clear: it is a sum of
    strictly positive totals. *)
Lemma resolve_unsigned df order_nums m x :
  (resolve df order_nums).1 !! m = Some x -> F64.unsigned x = true.
Proof.
  intros Hm.
  assert (H : all_unsigned (resolve df order_nums)).
  { unfold resolve. apply (fold_left_invariant all_unsigned).
    - intros a b. apply order_step_unsigned.
    - intros k y Hk. cbn in Hk. now rewrite lookup_empty in Hk. }
  exact (H m x Hm).
Qed.

(** [iloc] is read at the positions of [all_materials], which are row
    positions of the sheet. *)
Lemma all_materials_length df : length (all_materials df) <= length (rows df).
Proof.
  unfold all_materials. destruct (bool_decide _); cbn; [|lia].
  induction (rows df) as [|row rs IH]; cbn; [lia|].
  destruct (notna (cell row MATERIAL)); cbn; lia.
Qed.

(** On a sheet with a name in every row the material list follows the
    rows: list position [i] holds the name of row [i]. *)
Lemma all_materials_aligned df :
  MATERIAL ∈ columns df ->
  Forall (fun row => notna (cell row MATERIAL) = true) (rows df) ->
  all_materials df
  = map (fun row => PyStr.strip (py_str (cell row MATERIAL))) (rows df).
Proof.
  intros Hmat Hrows. unfold all_materials.
  rewrite bool_decide_eq_true_2 by exact Hmat.
  induction Hrows as [|row rs Hrow _ IH]; [reflexivity|].
  cbn. rewrite Hrow. cbn. now rewrite IH.
Qed.

(** *** The report *)

Lemma calculate_report p r :
  calculate_material_requirements p = CalcReport r -> r = compute_report p.
Proof.
  unfold calculate_material_requirements.
  destruct (selected_orders p); [discriminate|]. now intros [= <-].
Qed.

Lemma material_balance_lookup p m :
  material_balance (compute_report p) !! m =
  balance_of p m <$> material_requirements (compute_report p) !! m.
Proof.
  cbn. rewrite map_lookup_imap.
  now destruct (_ !! m).
Qed.

Lemma purchase_requirements_lookup p m :
  purchase_requirements (compute_report p) !! m =
  material_requirements (compute_report p) !! m ≫= purchase_of p m.
Proof. cbn. now rewrite map_lookup_imap. Qed.

(** C1. For a material [m] of the report: available-now is
    [max(0, stock - reserved)], balance-after is available-now minus the
    required quantity, the required quantity is the total the resolver
    accumulated over the selected orders, and [m] is in the purchase
    requirements exactly when its balance-after is negative, with the
    value [- balance_after]. Only materials of the report are in the
    purchase requirements. *)
Theorem requirement_report_balance (p : planner) (r : report) (m : string)
    (b : balance) :
  calculate_material_requirements p = CalcReport r ->
  material_balance r !! m = Some b ->
  let stock := default F64.zero (stock_data p !! m) in
  let reserved := default F64.zero (reserved_materials p !! m) in
  (resolve (materials_df p) (dict_keys (selected_orders p))).1 !! m
    = Some (required_for_selected b) /\
  material_requirements r !! m = Some (required_for_selected b) /\
  current_stock b = stock /\
  already_reserved b = reserved /\
  available_now b = F64.max0 (stock - reserved)%float /\
  balance_after b = (available_now b - required_for_selected b)%float /\
  (is_Some (purchase_requirements r !! m)
     <-> (balance_after b <? F64.zero)%float = true) /\
  (forall x, purchase_requirements r !! m = Some x ->
             x = (- balance_after b)%float) /\
  dom (purchase_requirements r) ⊆ dom (material_balance r).
Proof.
  intros Hr Hb. apply calculate_report in Hr. subst r.
  rewrite material_balance_lookup in Hb.
  destruct (material_requirements (compute_report p) !! m) as [req|] eqn:Hreq;
    [|discriminate].
  cbn in Hb. injection Hb as <-. cbn zeta.
  assert (Hp := purchase_requirements_lookup p m).
  rewrite Hreq in Hp. cbn [mbind option_bind] in Hp.
  unfold purchase_of in Hp.
  repeat split; try (cbn; exact Hreq || reflexivity).
  - rewrite Hp. destruct (_ <? _)%float; intros H; [reflexivity|].
    now destruct H.
  - rewrite Hp. intros ->. eauto.
  - rewrite Hp. intros x. destruct (_ <? _)%float eqn:Hneg; [|discriminate].
    intros [= <-]. now apply F64Facts.abs_of_negative.
  - intros k. rewrite !elem_of_dom.
    rewrite purchase_requirements_lookup, material_balance_lookup.
    destruct (_ !! k); cbn; [eauto|]. now intros [? ?].
Qed.

End PlannerFacts.

Lemma requirement_report_balance_scenario2 :
  calculate_material_requirements Example.scenario2
    = CalcReport (compute_report Example.scenario2) /\
  material_balance (compute_report Example.scenario2) !! "glass"
    = Some Example.scenario2_balance /\
  purchase_requirements (compute_report Example.scenario2) !! "glass"
    = Some 3%float.
Proof.
  assert (H1 : calculate_material_requirements Example.scenario2
               = CalcReport (compute_report Example.scenario2))
    by (vm_compute; reflexivity).
  assert (H2 : material_balance (compute_report Example.scenario2) !! "glass"
               = Some Example.scenario2_balance)
    by (vm_compute; reflexivity).
  destruct (requirement_report_balance Example.scenario2 _ "glass"
              Example.scenario2_balance H1 H2)
    as (_ & _ & _ & _ & _ & _ & Hin & Hval & _).
  split; [exact H1|]. split; [exact H2|].
  destruct (proj2 Hin) as [x Hx]; [vm_compute; reflexivity|].
  rewrite Hx. f_equal. exact (Hval x Hx).
Defined.

(** C2. On the sheet with a spacer row the material list skips the blank
    cell, so [glass], which stands in row 1 with the quantity 7, is the
    material of list position 0 and is charged with the quantity 5 of
    row 0. *)
Theorem blank_material_row_shifts_quantities :
  notna (iloc Example.spacer_sheet MATERIAL 0) = false /\
  iloc Example.spacer_sheet "101" 0 = VNum 5 /\
  iloc Example.spacer_sheet MATERIAL 1 = VText "glass" /\
  iloc Example.spacer_sheet "101" 1 = VNum 7 /\
  enumerate (all_materials Example.spacer_sheet) = [(0, "glass")] /\
  calculate_material_requirements Example.spacer_selected
    = CalcReport (compute_report Example.spacer_selected) /\
  material_requirements (compute_report Example.spacer_selected) !! "glass"
    = Some 5%float.
Proof. repeat split; vm_compute; reflexivity. Qed.

Lemma column_matches_spec (order_id col : string) :
  column_matches order_id col = true <->
  PyStr.strip col = order_id \/ order_id ∈ PyStr.split (PyStr.strip col).
Proof.
  unfold column_matches. rewrite orb_true_iff, !bool_decide_eq_true.
  split; (intros [H|H]; [left; now symmetry | now right]).
Qed.

(** The test of the loop over the columns, in the words of trimming and
    tokens: the label without the whitespace around it is the order id,
    or a whitespace-separated token of it is. *)
Lemma column_matches_tokens (order_id col : string) :
  column_matches order_id col = true <->
  exists label,
    PyStr.trimmed (PyStr.text col) label /\
    (PyStr.of_text label = order_id
     \/ exists run, PyStr.token_of label run
                    /\ PyStr.of_text run = order_id).
Proof.
  rewrite column_matches_spec, PyStrFacts.split_spec, PyStrFacts.text_strip.
  split.
  - intros H. exists (PyStr.strip_chars (PyStr.text col)).
    split; [now apply PyStrFacts.strip_chars_trimmed|]. exact H.
  - intros (label & Hlabel & H).
    apply PyStrFacts.strip_chars_trimmed in Hlabel. subst label.
    exact H.
Qed.

(** C3. For a requested order number, stored by [select_orders] under the
    id [order_id] (its stripped string), a column of the materials sheet
    is among the columns summed for the order exactly when its label,
    without the whitespace it starts and ends with, is [order_id] or has
    [order_id] as one of its whitespace-separated tokens: a run of
    characters that are no whitespace, with whitespace or nothing on
    either side. This is what [strip] and [split] come to; whitespace is
    what [str.isspace] holds for, the no-break space included. The
    order's step of the resolution sums exactly these columns. Order
    [101] matches the column [101 102], whose quantity is in the
    resolution of order [101], and the column whose label has a no-break
    space between the two numbers. *)
Theorem order_column_matching {py : PyLib} (df : dataframe)
    (order_num : value) (col : string) (acc : resolution) :
  let order_id := PyStr.strip (py_str order_num) in
  let matching :=
    List.filter
      (fun c => bool_decide (PyStr.strip c = order_id)
                || bool_decide (order_id ∈ PyStr.split (PyStr.strip c)))
      (columns df) in
  (col ∈ order_columns df (PyStr.strip order_id) <->
     col ∈ columns df /\
     exists label,
       PyStr.trimmed (PyStr.text col) label /\
       (PyStr.of_text label = order_id
        \/ exists run, PyStr.token_of label run
                       /\ PyStr.of_text run = order_id)) /\
  (col ∈ order_columns df (PyStr.strip order_id) <->
     col ∈ columns df /\
     (PyStr.strip col = order_id
      \/ order_id ∈ PyStr.split (PyStr.strip col))) /\
  order_step df acc order_id =
    match matching with
    | [] => acc
    | _ => fold_left (material_step df order_id matching)
                     (enumerate (all_materials df)) acc
    end /\
  order_columns Example.composite_sheet "101" = ["101 102"] /\
  order_materials (compute_report Example.scenario3) !! "101"
    ≫= (fun per_material => per_material !! "glass") = Some 4%float /\
  column_matches "101" ("101" ++ Example.NBSP ++ "102") = true /\
  column_matches "101" (Example.NBSP ++ "101" ++ Example.NBSP) = true /\
  column_matches "101" "1101 1010" = false.
Proof.
  intros order_id matching.
  assert (Hid : PyStr.strip order_id = order_id)
    by apply PyStrFacts.strip_idem.
  split; [|split; [|split; [|split; [|split; [|split; [|split]]]]]].
  - rewrite Hid. unfold order_columns.
    rewrite !list_elem_of_In, filter_In, column_matches_tokens.
    now rewrite <- !list_elem_of_In.
  - rewrite Hid. unfold order_columns.
    rewrite !list_elem_of_In, filter_In, column_matches_spec.
    now rewrite <- !list_elem_of_In.
  - unfold order_step. rewrite Hid. unfold order_columns.
    assert (E : List.filter (column_matches order_id) (columns df) = matching).
    { apply List.filter_ext. intros c. unfold column_matches.
      f_equal. apply bool_decide_ext. split; intros H; now symmetry. }
    now rewrite E.
  - vm_compute. reflexivity.
  - vm_compute. reflexivity.
  - vm_compute. reflexivity.
  - vm_compute. reflexivity.
  - vm_compute. reflexivity.
Qed.

Section ReserveFacts.
Context {py : PyLib}.

Lemma add_reservations_lookup (reserved required : gmap string float) m :
  add_reservations reserved required !! m =
  match required !! m with
  | Some x => Some (default F64.zero (reserved !! m) + x)%float
  | None => reserved !! m
  end.
Proof.
  unfold add_reservations. rewrite lookup_merge.
  destruct (reserved !! m), (required !! m); reflexivity.
Qed.

Lemma add_reservations_empty_r (reserved : gmap string float) :
  add_reservations reserved ∅ = reserved.
Proof.
  apply map_eq. intros m. rewrite add_reservations_lookup.
  now rewrite lookup_empty.
Qed.

Lemma select_orders_nil p dates :
  selected_orders (select_orders p [] dates).1 = [].
Proof. reflexivity. Qed.

(** [reserve_materials] when nothing was selected. *)
Lemma reserve_materials_error p disk order_numbers dates io now :
  selected_orders (select_orders p order_numbers dates).1 = [] ->
  reserve_materials p disk order_numbers dates io now =
  {| result := ReserveError NO_ORDERS_SELECTED;
     planner_after := (select_orders p order_numbers dates).1;
     disk_after := disk;
     printed := (select_orders p order_numbers dates).2 |}.
Proof.
  intros Hsel. unfold reserve_materials.
  destruct (select_orders p order_numbers dates) as [p1 out1] eqn:E.
  cbn [fst snd] in *. unfold calculate_material_requirements.
  now rewrite Hsel.
Qed.

(** [reserve_materials] when some order was selected. *)
Lemma reserve_materials_success p disk order_numbers dates io now :
  selected_orders (select_orders p order_numbers dates).1 <> [] ->
  let p1 := (select_orders p order_numbers dates).1 in
  let p2 :=
    set_reserved_materials p1
      (add_reservations (reserved_materials p)
                        (material_requirements (compute_report p1))) in
  reserve_materials p disk order_numbers dates io now =
  {| result := ReserveSuccess (dict_keys (selected_orders p1))
                              (reserved_materials p2) (compute_report p1);
     planner_after := p2;
     disk_after := (save_reservation_data p2 disk io now).1;
     printed := ((select_orders p order_numbers dates).2
                 ++ (save_reservation_data p2 disk io now).2)%list |}.
Proof.
  intros Hsel. unfold reserve_materials.
  destruct (select_orders p order_numbers dates) as [p1 out1] eqn:E.
  cbn [fst snd] in *. unfold calculate_material_requirements.
  destruct (selected_orders p1) eqn:Hp1; [contradiction|].
  assert (Hres : reserved_materials p1 = reserved_materials p).
  { unfold select_orders in E. now injection E as <- _. }
  rewrite Hres.
  destruct (save_reservation_data _ disk io now). cbn.
  now rewrite Hp1.
Qed.

Lemma requirements_for_unsigned p order_numbers dates m x :
  requirements_for p order_numbers dates !! m = Some x ->
  F64.unsigned x = true.
Proof.
  unfold requirements_for, calculate_material_requirements.
  destruct (selected_orders _).
  - now rewrite lookup_empty.
  - cbn. apply resolve_unsigned.
Qed.

(** The required quantities of an order list depend on the two sheets
    only, not on the ledger. *)
Lemma requirements_for_sheets p p' order_numbers dates :
  orders_df p' = orders_df p -> materials_df p' = materials_df p ->
  requirements_for p' order_numbers dates
  = requirements_for p order_numbers dates.
Proof.
  intros Ho Hm. unfold requirements_for, calculate_material_requirements.
  cbn. rewrite Ho.
  destruct (fold_left _ order_numbers []); [reflexivity|].
  cbn. now rewrite Hm.
Qed.

(** A call adds the required quantities of its report onto the reserved
    amounts it finds. *)
Lemma reserve_materials_reserved p disk order_numbers dates io now :
  reserved_materials
    (planner_after (reserve_materials p disk order_numbers dates io now))
  = add_reservations (reserved_materials p)
                     (requirements_for p order_numbers dates).
Proof.
  destruct (selected_orders (select_orders p order_numbers dates).1) eqn:Hsel.
  - rewrite reserve_materials_error by exact Hsel.
    unfold requirements_for, calculate_material_requirements.
    rewrite Hsel. now rewrite add_reservations_empty_r.
  - rewrite reserve_materials_success by (rewrite Hsel; discriminate).
    unfold requirements_for, calculate_material_requirements.
    now rewrite Hsel.
Qed.

Lemma reserve_materials_sheets p disk order_numbers dates io now :
  let p' := planner_after
              (reserve_materials p disk order_numbers dates io now) in
  orders_df p' = orders_df p /\ materials_df p' = materials_df p.
Proof.
  destruct (selected_orders (select_orders p order_numbers dates).1) eqn:Hsel.
  - rewrite reserve_materials_error by exact Hsel. now split.
  - rewrite reserve_materials_success by (rewrite Hsel; discriminate).
    now split.
Qed.

End ReserveFacts.

Section LedgerFacts.
Context {py : PyLib}.

(** C4. From an empty reservation ledger, [reserve_materials] for an
    order list [A] and then for an order list [B] leaves [reserved]
    equal to the material-wise sum of the required quantities of the
    requirement reports of [A] and of [B]: a material of both has the
    sum of the two quantities, a material of one has that quantity.
    (This holds whether or not the two lists are disjoint.) *)
Theorem reserve_accumulates (p : planner) (disk : option stored)
    (A B : list value) (datesA datesB : gmap string value)
    (ioA ioB : io_outcome) (nowA nowB : datetime) :
  reserved_materials p = ∅ ->
  let first := reserve_materials p disk A datesA ioA nowA in
  let second :=
    reserve_materials (planner_after first) (disk_after first)
                      B datesB ioB nowB in
  reserved_materials (planner_after first) = requirements_for p A datesA /\
  reserved_materials (planner_after second)
  = union_with (fun a b => Some (a + b)%float)
               (requirements_for p A datesA) (requirements_for p B datesB).
Proof.
  intros Hempty first second.
  assert (Hfirst : reserved_materials (planner_after first)
                   = requirements_for p A datesA).
  { unfold first. rewrite reserve_materials_reserved, Hempty.
    apply map_eq. intros m. rewrite add_reservations_lookup, lookup_empty.
    destruct (requirements_for p A datesA !! m) as [a|] eqn:Ha; [|reflexivity].
    cbn. f_equal. apply F64Facts.add_zero_l.
    exact (requirements_for_unsigned _ _ _ _ _ Ha). }
  split; [exact Hfirst|].
  unfold second. rewrite reserve_materials_reserved, Hfirst.
  destruct (reserve_materials_sheets p disk A datesA ioA nowA) as [Ho Hm].
  fold first in Ho, Hm.
  rewrite (requirements_for_sheets p (planner_after first)) by assumption.
  apply map_eq. intros m.
  rewrite add_reservations_lookup, lookup_union_with.
  destruct (requirements_for p A datesA !! m) as [a|],
           (requirements_for p B datesB !! m) as [b|] eqn:Hb; cbn;
    try reflexivity.
  f_equal. apply F64Facts.add_zero_l.
  exact (requirements_for_unsigned _ _ _ _ _ Hb).
Qed.

(** C5. When the order list selects nothing, [reserve_materials] returns
    the error [Не выбраны заказы], the reserved amounts are those of
    before, the ledger file is the one of before, and nothing but the
    message of [select_orders] was printed. *)
Theorem reserve_without_selection (p : planner) (disk : option stored)
    (order_numbers : list value) (dates : gmap string value)
    (io : io_outcome) (now : datetime) :
  selected_orders (select_orders p order_numbers dates).1 = [] ->
  let o := reserve_materials p disk order_numbers dates io now in
  result o = ReserveError NO_ORDERS_SELECTED /\
  reserved_materials (planner_after o) = reserved_materials p /\
  disk_after o = disk /\
  printed o = [EvSelected 0].
Proof.
  intros Hsel o. unfold o.
  rewrite reserve_materials_error by exact Hsel.
  cbn. unfold select_orders in Hsel. cbn in Hsel. now rewrite Hsel.
Qed.

(** C8. When an order is selected and the write of the ledger file
    fails ([open] or the write raises, or an order snapshot cannot be
    encoded), [reserve_materials] still returns success with the updated
    reserved amounts and the report; the planner holds the updated
    amounts; result and planner are those of every other outcome of the
    write; the failure is printed. *)
Theorem reserve_survives_write_failure (p : planner) (disk : option stored)
    (order_numbers : list value) (dates : gmap string value)
    (io : io_outcome) (now : datetime) :
  let o := reserve_materials p disk order_numbers dates io now in
  let p1 := (select_orders p order_numbers dates).1 in
  let updated :=
    add_reservations (reserved_materials p)
                     (material_requirements (compute_report p1)) in
  selected_orders p1 <> [] ->
  io <> IoOk \/ ledger_document (planner_after o) now = None ->
  result o = ReserveSuccess (dict_keys (selected_orders p1)) updated
                            (compute_report p1) /\
  reserved_materials (planner_after o) = updated /\
  selected_orders (planner_after o) = selected_orders p1 /\
  (forall io',
     let o' := reserve_materials p disk order_numbers dates io' now in
     result o' = result o /\ planner_after o' = planner_after o) /\
  printed o = ((select_orders p order_numbers dates).2 ++ [EvSaveFailed])%list.
Proof.
  intros o p1 updated Hsel Hfail. unfold o in *.
  rewrite reserve_materials_success in Hfail |- * by exact Hsel.
  cbn [planner_after] in Hfail.
  split; [reflexivity|]. split; [reflexivity|]. split; [reflexivity|].
  split.
  - intros io'.
    rewrite reserve_materials_success by exact Hsel. now split.
  - cbn [printed]. f_equal. unfold save_reservation_data.
    destruct io; [|reflexivity|reflexivity].
    destruct Hfail as [Hio|Hdoc]; [contradiction|].
    now rewrite Hdoc.
Qed.

(** C9. In a successful call the report of the result is the one
    computed on the ledger as it was before the reservation (its
    already-reserved and available-now figures use the prior amounts),
    and the reserved mapping of the result is the one after it: for a
    material [m] of the report, [reserved[m]] is the prior amount plus
    the required quantity. *)
Theorem reserve_report_uses_prior_ledger (p : planner)
    (disk : option stored) (order_numbers : list value)
    (dates : gmap string value) (io : io_outcome) (now : datetime)
    (ks : list string) (reserved : gmap string float) (r : report)
    (m : string) (b : balance) :
  result (reserve_materials p disk order_numbers dates io now)
    = ReserveSuccess ks reserved r ->
  material_balance r !! m = Some b ->
  let prior := default F64.zero (reserved_materials p !! m) in
  r = compute_report (select_orders p order_numbers dates).1 /\
  already_reserved b = prior /\
  available_now b
    = F64.max0 (default F64.zero (stock_data p !! m) - prior)%float /\
  reserved
    = reserved_materials
        (planner_after (reserve_materials p disk order_numbers dates io now)) /\
  reserved !! m = Some (prior + required_for_selected b)%float.
Proof.
  intros Hres Hb prior.
  destruct (selected_orders (select_orders p order_numbers dates).1) eqn:Hsel.
  { rewrite reserve_materials_error in Hres by exact Hsel. discriminate. }
  assert (Hne : selected_orders (select_orders p order_numbers dates).1 <> [])
    by (rewrite Hsel; discriminate).
  rewrite reserve_materials_success in Hres |- * by exact Hne.
  cbn in Hres. injection Hres as <- <- <-.
  rewrite material_balance_lookup in Hb.
  destruct (material_requirements _ !! m) as [req|] eqn:Hreq; [|discriminate].
  cbn in Hb. injection Hb as <-.
  repeat split.
  cbn. rewrite add_reservations_lookup.
  cbn in Hreq. now rewrite Hreq.
Qed.

End LedgerFacts.

(** Orders 101 and 102, reserved one after the other on a fresh ledger:
    4 + 5 of glass. *)
Lemma reserve_accumulates_glass :
  reserved_materials Example.fresh_planner = ∅ /\
  reserved_materials
    (planner_after
       (reserve_materials
          (planner_after
             (reserve_materials Example.fresh_planner None [VText "101"]
                                Example.no_dates IoOk Example.Dec25_2024))
          (disk_after
             (reserve_materials Example.fresh_planner None [VText "101"]
                                Example.no_dates IoOk Example.Dec25_2024))
          [VText "102"] Example.no_dates IoOk Example.Jan15_2025))
    !! "glass"
  = Some 9%float.
Proof.
  split; [reflexivity|].
  destruct (reserve_accumulates Example.fresh_planner None
              [VText "101"] [VText "102"] Example.no_dates Example.no_dates
              IoOk IoOk Example.Dec25_2024 Example.Jan15_2025 eq_refl)
    as [_ Hsum].
  rewrite Hsum. vm_compute. reflexivity.
Defined.

(** Scenario 5: the empty order list on a ledger with a reservation and a
    ledger file. *)
Lemma reserve_without_selection_empty_list :
  selected_orders
    (select_orders Example.busy_planner [] Example.no_dates).1 = [] /\
  result (reserve_materials Example.busy_planner Example.busy_disk []
                            Example.no_dates IoOk Example.Dec25_2024)
    = ReserveError NO_ORDERS_SELECTED /\
  reserved_materials
    (planner_after
       (reserve_materials Example.busy_planner Example.busy_disk []
                          Example.no_dates IoOk Example.Dec25_2024))
    = {[ "glass" := 8%float ]} /\
  disk_after (reserve_materials Example.busy_planner Example.busy_disk []
                                Example.no_dates IoOk Example.Dec25_2024)
    = Example.busy_disk.
Proof.
  split; [reflexivity|].
  destruct (reserve_without_selection Example.busy_planner Example.busy_disk
              [] Example.no_dates IoOk Example.Dec25_2024 eq_refl)
    as (Hres & Hreserved & Hdisk & _).
  split; [exact Hres|]. split; [exact Hreserved|]. exact Hdisk.
Defined.

(** Order 101 reserved while the write of the ledger file raises. *)
Lemma reserve_survives_write_failure_glass :
  selected_orders
    (select_orders Example.fresh_planner [VText "101"] Example.no_dates).1
    <> [] /\
  reserved_materials
    (planner_after
       (reserve_materials Example.fresh_planner None [VText "101"]
                          Example.no_dates IoWriteFails Example.Dec25_2024))
    !! "glass" = Some 4%float /\
  printed (reserve_materials Example.fresh_planner None [VText "101"]
                             Example.no_dates IoWriteFails Example.Dec25_2024)
    = [EvSelected 1; EvSaveFailed].
Proof.
  assert (Hsel : selected_orders
                   (select_orders Example.fresh_planner [VText "101"]
                                  Example.no_dates).1 <> [])
    by (vm_compute; discriminate).
  assert (Hio : IoWriteFails <> IoOk) by discriminate.
  destruct (reserve_survives_write_failure Example.fresh_planner None
              [VText "101"] Example.no_dates IoWriteFails Example.Dec25_2024
              Hsel (or_introl Hio))
    as (_ & Hreserved & _ & _ & Hprinted).
  split; [exact Hsel|]. split.
  - rewrite Hreserved. vm_compute. reflexivity.
  - rewrite Hprinted. reflexivity.
Defined.

(** Order 102 (5 of glass) reserved on a ledger that holds 8 of glass:
    the report shows 8 reserved and 2 available, the result 13. *)
Lemma reserve_report_uses_prior_ledger_glass :
  result (reserve_materials Example.busy_planner None [VText "102"]
                            Example.no_dates IoOk Example.Dec25_2024)
    = ReserveSuccess ["102"] {[ "glass" := 13%float ]}
                     (compute_report Example.scenario2) /\
  material_balance (compute_report Example.scenario2) !! "glass"
    = Some Example.scenario2_balance /\
  ({[ "glass" := 13%float ]} : gmap string float) !! "glass"
    = Some (8 + 5)%float.
Proof.
  assert (H1 : result (reserve_materials Example.busy_planner None
                         [VText "102"] Example.no_dates IoOk
                         Example.Dec25_2024)
               = ReserveSuccess ["102"] {[ "glass" := 13%float ]}
                                (compute_report Example.scenario2))
    by (vm_compute; reflexivity).
  assert (H2 : material_balance (compute_report Example.scenario2) !! "glass"
               = Some Example.scenario2_balance)
    by (vm_compute; reflexivity).
  destruct (reserve_report_uses_prior_ledger Example.busy_planner None
              [VText "102"] Example.no_dates IoOk Example.Dec25_2024
              _ _ _ "glass" _ H1 H2)
    as (_ & _ & _ & _ & Hsum).
  split; [exact H1|]. split; [exact H2|]. exact Hsum.
Defined.

(** ** Persistence *)

Section DictFacts.
Context {A : Type}.
Implicit Types (d l : list (string * A)).

Lemma dict_get_set_eq k (v : A) d : dict_get k (dict_set k v d) = Some v.
Proof.
  induction d as [|[k' v'] d IH]; cbn.
  - now rewrite decide_True.
  - destruct (decide (k' = k)) as [->|Hne]; cbn.
    + now rewrite decide_True.
    + now rewrite decide_False.
Qed.

Lemma dict_get_set_ne k k' (v : A) d :
  k <> k' -> dict_get k' (dict_set k v d) = dict_get k' d.
Proof.
  intros Hne. induction d as [|[k0 v0] d IH]; cbn.
  - now rewrite decide_False.
  - destruct (decide (k0 = k)) as [->|Hk0]; cbn.
    + now rewrite !decide_False.
    + destruct (decide (k0 = k')); [reflexivity | exact IH].
Qed.

Lemma dict_set_fresh k (v : A) d :
  k ∉ dict_keys d -> dict_set k v d = (d ++ [(k, v)])%list.
Proof.
  induction d as [|[k' v'] d IH]; cbn; [reflexivity|].
  intros Hk. rewrite not_elem_of_cons in Hk. destruct Hk as [Hne Hk].
  rewrite decide_False by congruence. now rewrite IH.
Qed.

(** Keys stored one after the other, all new: they are appended in
    order. *)
Lemma dict_set_all_fresh {B} (f : B -> A) (l : list (string * B)) d :
  NoDup (dict_keys d ++ dict_keys l) ->
  fold_left (fun sel kv => dict_set kv.1 (f kv.2) sel) l d
  = (d ++ map (fun kv => (kv.1, f kv.2)) l)%list.
Proof.
  revert d. induction l as [|[k b] l IH]; intros d Hnd; cbn.
  - now rewrite app_nil_r.
  - cbn in Hnd. apply NoDup_app in Hnd as (Hd & Hdl & Hl).
    rewrite dict_set_fresh.
    2:{ intros Hin. apply (Hdl k Hin). left. }
    rewrite IH.
    + now rewrite <- app_assoc.
    + unfold dict_keys. rewrite map_app. cbn.
      rewrite <- app_assoc. cbn.
      apply NoDup_app. split; [exact Hd|]. split; [exact Hdl|exact Hl].
Qed.

(** A key that is not stored keeps its entry. *)
Lemma dict_get_fold_other {B} (f : B -> A) (l : list (string * B)) d k :
  k ∉ dict_keys l ->
  dict_get k (fold_left (fun sel kv => dict_set kv.1 (f kv.2) sel) l d)
  = dict_get k d.
Proof.
  revert d. induction l as [|[k' b] l IH]; intros d Hk; cbn; [reflexivity|].
  cbn in Hk. rewrite not_elem_of_cons in Hk. destruct Hk as [Hne Hk].
  rewrite IH by exact Hk. apply dict_get_set_ne. congruence.
Qed.

End DictFacts.

(** C10. A load that finds a document replaces the reserved mapping by
    the persisted one (empty when the document has none) and stores the
    persisted orders into the selected orders key by key: an order that
    is selected in memory and is not in the document is still selected,
    with its snapshot, after the load. *)
Theorem restore_merges_selected_orders {py : PyLib} (p : planner)
    (d : document) (k : string) (order_info : gmap string value) :
  dict_get k (selected_orders p) = Some order_info ->
  k ∉ dict_keys (default [] (doc_selected_orders d)) ->
  let loaded := load_reservation_data p (Some (Document d)) in
  loaded.1.1 = true /\
  dict_get k (selected_orders loaded.1.2) = Some order_info /\
  reserved_materials loaded.1.2 = default ∅ (doc_reserved_materials d).
Proof.
  intros Hk Hfile. cbn. split; [reflexivity|]. split; [|reflexivity].
  rewrite (dict_get_fold_other decode_order) by exact Hfile. exact Hk.
Qed.

Section RoundTrip.
Context {py : PyLib} {laws : PyLibLaws py}.

Lemma isoformat_truthy (d : datetime) : truthy (VText (isoformat d)) = true.
Proof.
  cbn. destruct (String.eqb_spec (isoformat d) ""); [|reflexivity].
  pose proof (fromisoformat_isoformat d) as Hd.
  rewrite e, fromisoformat_empty in Hd. discriminate.
Qed.

Lemma serializable_order_lookup order_info key :
  serializable_order order_info !! key =
  if decide (key = SHIPMENT_DATE)
  then written_shipment_date <$> order_info !! key
  else order_info !! key.
Proof.
  unfold serializable_order, written_shipment_date.
  destruct (decide (key = SHIPMENT_DATE)) as [->|Hne].
  - destruct (order_info !! SHIPMENT_DATE) as [x|] eqn:Hx; cbn;
      [|now rewrite Hx].
    destruct (truthy x); [|now rewrite Hx].
    destruct x; try (now rewrite Hx). now rewrite lookup_insert_eq.
  - destruct (order_info !! SHIPMENT_DATE) as [x|]; [|reflexivity].
    destruct (truthy x); [|reflexivity].
    destruct x; try reflexivity. now rewrite lookup_insert_ne.
Qed.

Lemma written_shipment_date_serializable x :
  json_serializable (written_shipment_date x) = true.
Proof.
  unfold written_shipment_date.
  destruct x; cbn; try reflexivity; now destruct (negb _).
Qed.

Lemma encode_order_serializable order_info :
  snapshot_serializable order_info ->
  encode_order (serializable_order order_info)
  = Some (omap to_json (serializable_order order_info)).
Proof.
  intros Hok. unfold encode_order. rewrite bool_decide_eq_true_2; [reflexivity|].
  intros key x. rewrite serializable_order_lookup.
  destruct (decide (key = SHIPMENT_DATE)) as [->|Hne].
  - destruct (order_info !! SHIPMENT_DATE); cbn; [|discriminate].
    intros [= <-]. apply written_shipment_date_serializable.
  - intros Hx. exact (Hok key x Hx Hne).
Qed.

Lemma decode_order_lookup info key :
  decode_order info !! key =
  if decide (key = SHIPMENT_DATE)
  then (fun j => if json_truthy j then restore_date j else of_json j)
         <$> info !! key
  else of_json <$> info !! key.
Proof.
  unfold decode_order.
  destruct (decide (key = SHIPMENT_DATE)) as [->|Hne].
  - destruct (info !! SHIPMENT_DATE) as [j|] eqn:Hj; cbn.
    + destruct (json_truthy j).
      * now rewrite lookup_insert_eq.
      * now rewrite lookup_fmap, Hj.
    + now rewrite lookup_fmap, Hj.
  - destruct (info !! SHIPMENT_DATE) as [j|]; [|now rewrite lookup_fmap].
    destruct (json_truthy j); [|now rewrite lookup_fmap].
    rewrite lookup_insert_ne by congruence. now rewrite lookup_fmap.
Qed.

Lemma of_to_json x j : to_json x = Some j -> of_json j = x.
Proof. destruct x; cbn; intros [= <-]; reflexivity. Qed.

(** Writing and reading the shipment date. *)
Lemma restore_written_shipment_date x :
  (fun j => if json_truthy j then restore_date j else of_json j)
    <$> to_json (written_shipment_date x)
  = Some (restored_shipment_date x).
Proof.
  unfold written_shipment_date, restored_shipment_date, json_truthy.
  destruct x as [|f|s|d].
  - reflexivity.
  - cbn. destruct (negb (f =? F64.zero)%float) eqn:Hf; cbn; now rewrite Hf.
  - cbn. destruct (negb (String.eqb s "")) eqn:Hs; cbn; now rewrite Hs.
  - cbn [truthy to_json fmap option_fmap option_map of_json].
    pose proof (isoformat_truthy d) as Hd. cbn in Hd. rewrite Hd. cbn.
    now rewrite fromisoformat_isoformat.
Qed.

(** What a saved snapshot is after loading. *)
Lemma decode_encode_order order_info :
  snapshot_serializable order_info ->
  decode_order (omap to_json (serializable_order order_info))
  = alter restored_shipment_date SHIPMENT_DATE order_info.
Proof.
  intros Hok. apply map_eq. intros key.
  rewrite decode_order_lookup, lookup_omap, serializable_order_lookup.
  rewrite lookup_alter.
  destruct (decide (key = SHIPMENT_DATE)) as [->|Hne].
  - rewrite decide_True by reflexivity.
    destruct (order_info !! SHIPMENT_DATE) as [x|]; cbn; [|reflexivity].
    apply restore_written_shipment_date.
  - rewrite decide_False by congruence.
    destruct (order_info !! key) as [x|] eqn:Hx; cbn; [|reflexivity].
    specialize (Hok key x Hx Hne). unfold json_serializable in Hok.
    destruct (to_json x) as [j|] eqn:Hj; [|discriminate].
    cbn. f_equal. now apply of_to_json.
Qed.

Lemma restored_structured_shipment_date order_info :
  shipment_date_structured order_info ->
  alter restored_shipment_date SHIPMENT_DATE order_info = order_info.
Proof.
  intros Hdate. apply map_eq. intros key. rewrite lookup_alter.
  destruct (decide (SHIPMENT_DATE = key)) as [<-|]; [|reflexivity].
  destruct (order_info !! SHIPMENT_DATE) as [x|] eqn:Hx; [|reflexivity].
  cbn. f_equal. destruct (Hdate x Hx) as [->|[d ->]]; reflexivity.
Qed.

(** The document [save_reservation_data] writes. *)
Lemma ledger_document_serializable (p : planner) (now : datetime) :
  Forall (fun kv => snapshot_serializable kv.2) (selected_orders p) ->
  ledger_document p now =
  Some {| doc_reserved_materials := Some (reserved_materials p);
          doc_selected_orders :=
            Some (map (fun kv =>
                         (kv.1, omap to_json (serializable_order kv.2)))
                      (selected_orders p));
          doc_timestamp := Some (isoformat now) |}.
Proof.
  intros Hok. unfold ledger_document, json_dump.
  assert (E : mapM (fun kv => pair kv.1 <$> encode_order kv.2)
                (map (fun kv => (kv.1, serializable_order kv.2))
                     (selected_orders p))
              = Some (map (fun kv =>
                             (kv.1, omap to_json (serializable_order kv.2)))
                          (selected_orders p))).
  { induction Hok as [|[k info] l Hinfo _ IH]; [reflexivity|].
    cbn in *. rewrite encode_order_serializable by exact Hinfo.
    cbn. now rewrite IH. }
  now rewrite E.
Qed.

End RoundTrip.

Lemma dict_set_keys {A} k (v : A) (d : list (string * A)) :
  dict_keys (dict_set k v d)
  = if bool_decide (k ∈ dict_keys d) then dict_keys d
    else (dict_keys d ++ [k])%list.
Proof.
  unfold dict_keys.
  induction d as [|[k' v'] d IH]; cbn; [reflexivity|].
  destruct (decide (k' = k)) as [->|Hne]; cbn.
  - rewrite bool_decide_eq_true_2 by left. reflexivity.
  - rewrite IH. destruct (bool_decide (k ∈ map fst d)) eqn:Hk.
    + apply bool_decide_eq_true_1 in Hk.
      rewrite bool_decide_eq_true_2 by now right. reflexivity.
    + apply bool_decide_eq_false_1 in Hk.
      rewrite bool_decide_eq_false_2; [reflexivity|].
      rewrite elem_of_cons. intros [->|?]; contradiction.
Qed.

(** Storing a key keeps the keys distinct, so the selected orders of a
    planner that started with none are a dictionary. *)
Lemma dict_set_NoDup {A} k (v : A) (d : list (string * A)) :
  NoDup (dict_keys d) -> NoDup (dict_keys (dict_set k v d)).
Proof.
  intros Hd. rewrite dict_set_keys.
  destruct (bool_decide (k ∈ dict_keys d)) eqn:Hk; [exact Hd|].
  apply bool_decide_eq_false_1 in Hk.
  apply NoDup_app. split; [exact Hd|]. split.
  - intros x Hx Hx'. apply list_elem_of_singleton in Hx'. now subst.
  - apply NoDup_singleton.
Qed.

Lemma select_orders_NoDup {py : PyLib} p order_numbers dates :
  NoDup (dict_keys (selected_orders (select_orders p order_numbers dates).1)).
Proof.
  cbn. apply (fold_left_invariant (fun sel => NoDup (dict_keys sel))).
  - intros sel o Hsel. unfold select_step.
    destruct (find_order _ _); [|exact Hsel]. now apply dict_set_NoDup.
  - apply NoDup_nil_2.
Qed.

(** C6. For a ledger whose order snapshots can be encoded, saving and
    then loading into an instance with no selected orders gives back
    the reserved mapping as it was and the selected orders with their
    snapshots, where a shipment date that is a [datetime] is that
    [datetime] again ([None] stays [None]; a date that was kept as a
    string is parsed, and is [None] when it does not parse): when every
    shipment date is a [datetime] or [None] the selected orders are
    those of before. In any document, a stored shipment date that does
    not parse loads as [None], and the load succeeds. *)
Theorem persist_restore_roundtrip {py : PyLib} {laws : PyLibLaws py}
    (p fresh : planner) (disk : option stored) (now : datetime) :
  NoDup (dict_keys (selected_orders p)) ->
  Forall (fun kv => snapshot_serializable kv.2) (selected_orders p) ->
  selected_orders fresh = [] ->
  let saved := save_reservation_data p disk IoOk now in
  let loaded := load_reservation_data fresh saved.1 in
  saved.2 = [EvSaved] /\
  loaded.1.1 = true /\
  reserved_materials loaded.1.2 = reserved_materials p /\
  selected_orders loaded.1.2
  = map (fun kv =>
           (kv.1, alter restored_shipment_date SHIPMENT_DATE kv.2))
        (selected_orders p) /\
  (Forall (fun kv => shipment_date_structured kv.2) (selected_orders p) ->
   selected_orders loaded.1.2 = selected_orders p) /\
  (forall (q : planner) (d : document) (info : gmap string json) s,
     info !! SHIPMENT_DATE = Some (JText s) ->
     s <> "" -> fromisoformat s = None ->
     (load_reservation_data q (Some (Document d))).1.1 = true /\
     decode_order info !! SHIPMENT_DATE = Some VNone).
Proof.
  intros Hnd Hok Hfresh saved loaded. unfold loaded, saved.
  unfold save_reservation_data.
  rewrite ledger_document_serializable by exact Hok.
  cbn -[decode_order]. rewrite Hfresh.
  rewrite (dict_set_all_fresh decode_order).
  2:{ cbn. unfold dict_keys in *. rewrite map_map. cbn. exact Hnd. }
  cbn -[decode_order]. rewrite map_map. cbn -[decode_order].
  assert (Hmap :
    map (fun kv => (kv.1, decode_order
                            (omap to_json (serializable_order kv.2))))
        (selected_orders p)
    = map (fun kv =>
             (kv.1, alter restored_shipment_date SHIPMENT_DATE kv.2))
          (selected_orders p)).
  { clear Hnd. induction Hok as [|kv l Hkv _ IH]; [reflexivity|].
    cbn -[decode_order]. now rewrite decode_encode_order, IH. }
  rewrite Hmap.
  split; [reflexivity|]. split; [reflexivity|]. split; [reflexivity|].
  split; [reflexivity|]. split.
  - intros Hdates. clear Hmap Hnd Hok.
    induction Hdates as [|[k info] l Hinfo _ IH]; [reflexivity|].
    cbn in *. now rewrite restored_structured_shipment_date, IH.
  - intros q d info s Hs Hne Hparse. split; [reflexivity|].
    rewrite decode_order_lookup, decide_True by reflexivity.
    rewrite Hs. cbn. rewrite Hparse.
    destruct (String.eqb_spec s ""); [contradiction|reflexivity].
Qed.

#[export] Instance sample_py_laws : PyLibLaws Example.sample_py.
Proof.
  split.
  - intros []; reflexivity.
  - reflexivity.
Defined.

(** The busy ledger with order 101 and its shipment date, saved and
    loaded into a fresh planner. *)
Lemma persist_restore_roundtrip_dated :
  NoDup (dict_keys (selected_orders Example.dated_planner)) /\
  Forall (fun kv => snapshot_serializable kv.2)
         (selected_orders Example.dated_planner) /\
  selected_orders
    (load_reservation_data
       Example.fresh_planner
       (save_reservation_data Example.dated_planner None IoOk
                              Example.Jan15_2025).1).1.2
  = selected_orders Example.dated_planner /\
  reserved_materials
    (load_reservation_data
       Example.fresh_planner
       (save_reservation_data Example.dated_planner None IoOk
                              Example.Jan15_2025).1).1.2
  = {[ "glass" := 8%float ]}.
Proof.
  assert (Hnd : NoDup (dict_keys (selected_orders Example.dated_planner)))
    by apply select_orders_NoDup.
  assert (Hok : Forall (fun kv => snapshot_serializable kv.2)
                       (selected_orders Example.dated_planner)).
  { apply (bool_decide_eq_true_1
             (Forall (fun kv => map_Forall
                                  (fun key x => key <> SHIPMENT_DATE ->
                                                json_serializable x = true)
                                  kv.2)
                     (selected_orders Example.dated_planner))).
    vm_compute. reflexivity. }
  assert (Hdates : Forall (fun kv => shipment_date_structured kv.2)
                          (selected_orders Example.dated_planner)).
  { remember (selected_orders Example.dated_planner) as sel eqn:Hsel.
    vm_compute in Hsel. subst sel.
    apply Forall_cons. split; [|apply Forall_nil_2].
    intros x Hx. vm_compute in Hx.
    injection Hx as <-. right. now exists Example.Dec25_2024. }
  destruct (persist_restore_roundtrip Example.dated_planner
              Example.fresh_planner None Example.Jan15_2025
              Hnd Hok eq_refl)
    as (_ & _ & Hreserved & _ & Hselected & _).
  split; [exact Hnd|]. split; [exact Hok|]. split.
  - exact (Hselected Hdates).
  - exact Hreserved.
Defined.

(** Order 101 is selected in memory; the ledger file holds order 102. *)
Lemma restore_merges_selected_orders_101 :
  ("101" ∉ dict_keys (default [] (doc_selected_orders Example.stored_102))) /\
  dict_keys
    (selected_orders
       (load_reservation_data Example.dated_planner
                              (Some (Document Example.stored_102))).1.2)
  = ["101"; "102"] /\
  dict_get "101"
    (selected_orders
       (load_reservation_data Example.dated_planner
                              (Some (Document Example.stored_102))).1.2)
  = dict_get "101" (selected_orders Example.dated_planner) /\
  reserved_materials
    (load_reservation_data Example.dated_planner
                           (Some (Document Example.stored_102))).1.2
  = {[ "glass" := 5%float ]}.
Proof.
  assert (Hfile : "101" ∉ dict_keys (default [] (doc_selected_orders
                                                   Example.stored_102))).
  { apply (bool_decide_eq_true_1 _). vm_compute. reflexivity. }
  destruct (dict_get "101" (selected_orders Example.dated_planner))
    as [info|] eqn:Hmem; [|vm_compute in Hmem; discriminate].
  destruct (restore_merges_selected_orders Example.dated_planner
              Example.stored_102 "101" info Hmem Hfile)
    as (_ & Hkept & Hreserved).
  split; [exact Hfile|]. split; [vm_compute; reflexivity|].
  split; [exact Hkept|]. exact Hreserved.
Defined.

(** ** The stock index *)

Section StockIndex.
Context {py : PyLib}.

Lemma stock_rows_entries rs acc :
  Forall row_converts rs ->
  stock_rows true rs acc
  = inr (fold_left (fun a kv => <[kv.1 := kv.2]> a) (omap stock_entry rs) acc).
Proof.
  intros Hrs. revert acc.
  induction Hrs as [|row rs Hrow _ IH]; intros acc; [reflexivity|].
  cbn. unfold stock_entry, row_converts in *.
  destruct (notna (cell row MATERIAL)); [|apply IH].
  destruct Hrow as [f Hf]; [reflexivity|]. rewrite Hf. cbn. apply IH.
Qed.

Lemma stock_rows_rejected rs acc :
  Exists row_rejected rs -> exists e, stock_rows true rs acc = inl e.
Proof.
  intros Hrs. revert acc.
  induction Hrs as [row rs [Hm [e He]]|row rs _ IH]; intros acc; cbn.
  - rewrite Hm, He. now exists e.
  - destruct (notna (cell row MATERIAL)); [|apply IH].
    destruct (on_hand_float row) as [e|f]; [now exists e | apply IH].
Qed.

(** Later entries overwrite earlier ones. *)
Lemma fold_insert_list_to_map (l : list (string * float)) :
  fold_left (fun a kv => <[kv.1 := kv.2]> a) l (∅ : gmap string float)
  = list_to_map (reverse l).
Proof.
  induction l as [|kv l IH] using rev_ind; [reflexivity|].
  rewrite fold_left_app, reverse_snoc. cbn. now rewrite IH.
Qed.

End StockIndex.

(** The stock index, as the code builds it. On a sheet with the columns
    [Материал] and [На складе]: when every row with a material name has
    an on-hand cell that is blank or that [float] accepts, the stock
    index holds, for each such row, the float of its on-hand cell under
    the stripped name, 0.0 for a blank cell, a later row overwriting an
    earlier one of the same name; when some row with a material name has
    an on-hand cell that [float] rejects, the build raises and there is
    no index. *)
Lemma stock_index_build {py : PyLib} (df : dataframe) :
  ON_HAND ∈ columns df ->
  MATERIAL ∈ columns df ->
  (Forall row_converts (rows df) ->
   build_stock_data df
   = inr (list_to_map (reverse (omap stock_entry (rows df))))) /\
  (forall row, notna (cell row ON_HAND) = false ->
               on_hand_float row = inr F64.zero) /\
  (forall row s, cell row ON_HAND = VText s -> float_of_text s = None ->
                 on_hand_float row = inl ValueError) /\
  (Exists row_rejected (rows df) ->
   exists e, build_stock_data df = inl e /\
             forall orders, load_data orders df = inl e).
Proof.
  intros Hon Hmat. unfold load_data, build_stock_data.
  rewrite !bool_decide_eq_true_2 by assumption.
  cbn beta.
  split; [|split; [|split]].
  - intros Hrows. rewrite stock_rows_entries by exact Hrows.
    now rewrite fold_insert_list_to_map.
  - intros row Hblank. unfold on_hand_float. now rewrite Hblank.
  - intros row s Hs Hrej. unfold on_hand_float. rewrite Hs. cbn.
    now rewrite Hrej.
  - intros Hrows. destruct (stock_rows_rejected _ ∅ Hrows) as [e He].
    exists e. rewrite He. now split.
Qed.

(** The glass sheet: 10 on hand. *)
Lemma stock_index_build_glass :
  ON_HAND ∈ columns Example.glass_sheet /\
  MATERIAL ∈ columns Example.glass_sheet /\
  Forall row_converts (rows Example.glass_sheet) /\
  build_stock_data Example.glass_sheet = inr {[ "glass" := 10%float ]}.
Proof.
  assert (Hon : ON_HAND ∈ columns Example.glass_sheet)
    by (apply (bool_decide_eq_true_1 _); vm_compute; reflexivity).
  assert (Hmat : MATERIAL ∈ columns Example.glass_sheet)
    by (apply (bool_decide_eq_true_1 _); vm_compute; reflexivity).
  assert (Hrows : Forall row_converts (rows Example.glass_sheet)).
  { apply Forall_cons. split; [|apply Forall_nil_2].
    intros _. exists 10%float. vm_compute. reflexivity. }
  destruct (stock_index_build Example.glass_sheet Hon Hmat) as (Hbuild & _).
  split; [exact Hon|]. split; [exact Hmat|]. split; [exact Hrows|].
  rewrite (Hbuild Hrows). vm_compute. reflexivity.
Defined.

(** C7. The build of the stock index does fail on a malformed cell. A
    blank on-hand cell is read as 0.0, but a cell that [float] rejects,
    as a word is, raises [ValueError]: [load_data] has no handler around
    [float(stock)] and raises the exception again, so on a sheet with
    both columns that has such a cell in a row with a material name
    there is no index and no planner. The same cell in an order column
    is passed over by the resolver, whose [float(value)] has a handler.
    The sheet with 10 of glass on hand loads; with the word [abc] in
    that cell it does not. *)
Theorem non_numeric_on_hand_aborts_load :
  (forall (py : PyLib) (orders : list order_row) (df : dataframe),
     ON_HAND ∈ columns df -> MATERIAL ∈ columns df ->
     Exists row_rejected (rows df) ->
     exists e, build_stock_data df = inl e
               /\ load_data orders df = inl e) /\
  (forall (py : PyLib) (row : gmap string value) (s : string)
          (total : float),
     cell row ON_HAND = VText s -> float_of_text s = None ->
     on_hand_float row = inl ValueError
     /\ add_value total (VText s) = total) /\
  (forall (py : PyLib) (row : gmap string value),
     notna (cell row ON_HAND) = false ->
     on_hand_float row = inr F64.zero) /\
  Exists row_rejected (rows Example.worded_sheet) /\
  build_stock_data Example.worded_sheet = inl ValueError /\
  load_data Example.orders Example.worded_sheet = inl ValueError /\
  load_data Example.orders Example.glass_sheet
    = inr Example.fresh_planner.
Proof.
  split; [|split; [|split; [|split; [|split; [|split]]]]].
  - intros py orders df Hon Hmat Hrows.
    unfold load_data, build_stock_data.
    rewrite !bool_decide_eq_true_2 by assumption. cbn beta.
    destruct (stock_rows_rejected _ ∅ Hrows) as [e He].
    exists e. rewrite He. now split.
  - intros py row s total Hs Hrej. split.
    + unfold on_hand_float. rewrite Hs. cbn. now rewrite Hrej.
    + unfold add_value. destruct (notna (VText s) && ne_zero (VText s));
        [|reflexivity]. cbn. now rewrite Hrej.
  - intros py row Hblank. unfold on_hand_float. now rewrite Hblank.
  - apply Exists_cons. left. split; [vm_compute; reflexivity|].
    exists ValueError. vm_compute. reflexivity.
  - vm_compute. reflexivity.
  - vm_compute. reflexivity.
  - vm_compute. reflexivity.
Qed.

(** ** More on [select_orders] *)

Section SelectFacts.
Context {py : PyLib}.

Lemma dict_get_is_Some {A} k (d : list (string * A)) :
  is_Some (dict_get k d) <-> k ∈ dict_keys d.
Proof.
  unfold dict_keys. induction d as [|[k' v'] d IH]; cbn.
  - split; [intros [? ?]; discriminate | intros H; inversion H].
  - rewrite elem_of_cons. destruct (decide (k' = k)) as [->|Hne].
    + split; [now left | eauto].
    + rewrite IH. split; [now right | intros [->|?]; [contradiction|done]].
Qed.

Lemma dict_keys_set_elem {A} k k' (v : A) (d : list (string * A)) :
  k' ∈ dict_keys (dict_set k v d) <-> k' = k \/ k' ∈ dict_keys d.
Proof.
  rewrite dict_set_keys.
  destruct (bool_decide (k ∈ dict_keys d)) eqn:Hk.
  - apply bool_decide_eq_true_1 in Hk. split; [now right|].
    intros [->|?]; assumption.
  - rewrite elem_of_app, list_elem_of_singleton. tauto.
Qed.

(** [find_order] returns the first row whose order number has the key. *)
Lemma find_order_first orders k r :
  find_order orders k = Some r <->
  exists i, orders !! i = Some r /\ order_key (order_number r) = k /\
            forall j r', j < i -> orders !! j = Some r' ->
                         order_key (order_number r') <> k.
Proof.
  unfold find_order, order_key. induction orders as [|r0 orders IH]; cbn.
  - split; [discriminate | intros (i & Hi & _); discriminate].
  - destruct (bool_decide
                (PyStr.strip (py_str (order_number r0)) = k)) eqn:Hr0.
    + apply bool_decide_eq_true_1 in Hr0. cbn. split.
      * intros [= <-]. exists 0. split; [reflexivity|]. split; [exact Hr0|].
        intros j r' Hj. lia.
      * intros (i & Hi & Hk & Hfirst). destruct i as [|i].
        { now injection Hi as ->. }
        exfalso. apply (Hfirst 0 r0); [lia | reflexivity | exact Hr0].
    + apply bool_decide_eq_false_1 in Hr0. rewrite IH. split.
      * intros (i & Hi & Hk & Hfirst). exists (S i).
        split; [exact Hi|]. split; [exact Hk|].
        intros [|j] r' Hj Hr'.
        { injection Hr' as <-. exact Hr0. }
        apply (Hfirst j r'); [lia | exact Hr'].
      * intros (i & Hi & Hk & Hfirst). destruct i as [|i].
        { injection Hi as ->. contradiction. }
        exists i. split; [exact Hi|]. split; [exact Hk|].
        intros j r' Hj Hr'. apply (Hfirst (S j) r'); [lia | exact Hr'].
Qed.

Lemma select_fold_keys orders dates l sel k :
  k ∈ dict_keys (fold_left (select_step orders dates) l sel) <->
  k ∈ dict_keys sel \/
  exists o, o ∈ l /\ k = order_key o /\ is_Some (find_order orders k).
Proof.
  revert sel. induction l as [|o l IH]; intros sel; cbn [fold_left].
  - split; [now left|]. intros [?|(o & Ho & _)]; [done | inversion Ho].
  - rewrite IH. unfold select_step. fold (order_key o).
    destruct (find_order orders (order_key o)) as [r|] eqn:Hr.
    + rewrite dict_keys_set_elem. split.
      * intros [[->|Hk]|(o' & Ho' & Hk)].
        -- right. exists o. rewrite Hr. split; [left|]. now split.
        -- now left.
        -- right. exists o'. split; [now right | exact Hk].
      * intros [Hk|(o' & Ho' & -> & Hfound)]; [left; now right|].
        apply elem_of_cons in Ho' as [->|Ho'].
        -- left. now left.
        -- right. exists o'. now split.
    + split.
      * intros [Hk|(o' & Ho' & Hk)]; [now left|].
        right. exists o'. split; [now right | exact Hk].
      * intros [Hk|(o' & Ho' & -> & Hfound)]; [now left|].
        apply elem_of_cons in Ho' as [->|Ho'].
        -- rewrite Hr in Hfound. now destruct Hfound.
        -- right. exists o'. now split.
Qed.

Lemma select_fold_snapshots orders dates l sel :
  (forall k info, dict_get k sel = Some info ->
                  exists r, find_order orders k = Some r
                            /\ info = snapshot_of dates k r) ->
  forall k info,
    dict_get k (fold_left (select_step orders dates) l sel) = Some info ->
    exists r, find_order orders k = Some r /\ info = snapshot_of dates k r.
Proof.
  apply (fold_left_invariant
           (fun sel => forall k info, dict_get k sel = Some info ->
              exists r, find_order orders k = Some r
                        /\ info = snapshot_of dates k r)).
  intros sel' o Hsel k info. unfold select_step. fold (order_key o).
  destruct (find_order orders (order_key o)) as [r|] eqn:Hr; [|apply Hsel].
  destruct (decide (order_key o = k)) as [<-|Hne].
  - rewrite dict_get_set_eq. intros [= <-]. now exists r.
  - rewrite dict_get_set_ne by exact Hne. apply Hsel.
Qed.

Lemma select_orders_keys p order_numbers dates k :
  k ∈ dict_keys (selected_orders (select_orders p order_numbers dates).1) <->
  exists o, o ∈ order_numbers /\ k = order_key o
            /\ is_Some (find_order (orders_df p) k).
Proof.
  change (selected_orders (select_orders p order_numbers dates).1)
    with (fold_left (select_step (orders_df p) dates) order_numbers []).
  rewrite select_fold_keys. split.
  - intros [Hk|Hk]; [inversion Hk | exact Hk].
  - intros Hk. now right.
Qed.

Lemma select_orders_get p order_numbers dates k info :
  dict_get k (selected_orders (select_orders p order_numbers dates).1)
    = Some info <->
  k ∈ dict_keys (selected_orders (select_orders p order_numbers dates).1) /\
  exists r, find_order (orders_df p) k = Some r
            /\ info = snapshot_of dates k r.
Proof.
  assert (Hinv : forall k' info',
            dict_get k' (selected_orders
                           (select_orders p order_numbers dates).1)
              = Some info' ->
            exists r, find_order (orders_df p) k' = Some r
                      /\ info' = snapshot_of dates k' r).
  { change (selected_orders (select_orders p order_numbers dates).1)
      with (fold_left (select_step (orders_df p) dates) order_numbers []).
    apply select_fold_snapshots. intros k' info'. discriminate. }
  split.
  - intros Hget. split; [apply dict_get_is_Some; eauto | now apply Hinv].
  - intros [Hk (r & Hr & ->)].
    apply dict_get_is_Some in Hk as [info Hinfo]. rewrite Hinfo. f_equal.
    apply Hinv in Hinfo as (r' & Hr' & ->). congruence.
Qed.

(** X1. [select_orders] selects exactly the requested order numbers that
    the orders sheet holds, each once, under its stripped string: a key
    is selected when some requested number has it and some row has it;
    a requested number that no row has is left out without an error;
    the selection of before plays no part. The stored snapshot of a key
    is the dictionary of the first row with that key, with the shipment
    date given for the key, [None] when none is given. *)
Theorem select_orders_selection (p : planner) (order_numbers : list value)
    (dates : gmap string value) :
  let sel := selected_orders (select_orders p order_numbers dates).1 in
  NoDup (dict_keys sel) /\
  (forall k,
     k ∈ dict_keys sel <->
     exists o, o ∈ order_numbers /\ k = order_key o
               /\ is_Some (find_order (orders_df p) k)) /\
  (forall k info,
     dict_get k sel = Some info <->
     k ∈ dict_keys sel /\
     exists r, find_order (orders_df p) k = Some r
               /\ info = snapshot_of dates k r) /\
  (forall previous,
     select_orders (set_selected_orders p previous) order_numbers dates
     = select_orders p order_numbers dates).
Proof.
  intros sel. split; [apply select_orders_NoDup|].
  split; [apply select_orders_keys|].
  split; [apply select_orders_get | reflexivity].
Qed.

(** X2. The snapshot of a selected order holds the cells of its row
    unchanged, the order number under [Номер заказа] and the shipment
    date under [Дата отгрузки]; the row is the first of the sheet whose
    order number has the key, later rows with the same number are never
    used. *)
Theorem select_orders_snapshot (p : planner) (order_numbers : list value)
    (dates : gmap string value) (o : value) (i : nat) (r : order_row) :
  o ∈ order_numbers ->
  orders_df p !! i = Some r ->
  order_key (order_number r) = order_key o ->
  (forall j r', j < i -> orders_df p !! j = Some r' ->
                order_key (order_number r') <> order_key o) ->
  exists info,
    dict_get (order_key o)
             (selected_orders (select_orders p order_numbers dates).1)
      = Some info /\
    info !! SHIPMENT_DATE = Some (default VNone (dates !! order_key o)) /\
    info !! ORDERS_NUMBER = Some (order_number r) /\
    (forall field, field <> SHIPMENT_DATE -> field <> ORDERS_NUMBER ->
                   info !! field = order_fields r !! field).
Proof.
  intros Ho Hi Hkey Hfirst.
  assert (Hr : find_order (orders_df p) (order_key o) = Some r).
  { apply find_order_first. exists i. now split. }
  exists (snapshot_of dates (order_key o) r). split.
  - apply select_orders_get. split.
    + apply select_orders_keys.
      exists o. rewrite Hr. split; [exact Ho|]. now split.
    + now exists r.
  - unfold snapshot_of, to_dict. split; [apply lookup_insert_eq|]. split.
    + rewrite lookup_insert_ne by (vm_compute; discriminate).
      apply lookup_insert_eq.
    + intros field H1 H2. now rewrite !lookup_insert_ne by congruence.
Qed.

End SelectFacts.

(** ** More on the requirement report *)

Module F64Order.
Import F64.

Lemma ltb_zero_asym x : (zero <? x)%float = true -> (x <? zero)%float = false.
Proof.
  rewrite !ltb_spec, F64Facts.Prim2SF_zero.
  destruct (Prim2SF x) as [s|s| |s m e]; cbn; try discriminate;
    destruct s; cbn; try discriminate; reflexivity.
Qed.

Lemma max0_not_negative x : (max0 x <? zero)%float = false.
Proof.
  unfold max0. destruct (zero <? x)%float eqn:Hx.
  - now apply ltb_zero_asym.
  - reflexivity.
Qed.

Lemma abs_negative_positive x :
  (x <? zero)%float = true -> (zero <? abs x)%float = true.
Proof.
  rewrite !ltb_spec, abs_spec, F64Facts.Prim2SF_zero.
  destruct (Prim2SF x) as [s|s| |s m e]; cbn; try discriminate;
    destruct s; cbn; try discriminate; reflexivity.
Qed.

End F64Order.

Section ReportFacts.
Context {py : PyLib}.

Lemma fold_left_invariant_in {A B} (P : A -> Prop) (f : A -> B -> A) l a :
  (forall a b, b ∈ l -> P a -> P (f a b)) -> P a -> P (fold_left f l a).
Proof.
  revert a. induction l as [|b l IH]; intros a Hf Ha; cbn; [exact Ha|].
  apply IH.
  - intros a' b' Hb'. apply Hf. now right.
  - apply Hf; [left | exact Ha].
Qed.

Lemma elem_of_enumerate {A} (l : list A) i x :
  (i, x) ∈ enumerate l <-> l !! i = Some x.
Proof.
  unfold enumerate. rewrite elem_of_lookup_imap. split.
  - intros (j & y & [= -> ->] & Hj). exact Hj.
  - intros Hi. now exists i, x.
Qed.

Lemma material_step_consistent df keys order_num acc im :
  order_num ∈ keys ->
  order_columns df (PyStr.strip order_num) <> [] ->
  im ∈ enumerate (all_materials df) ->
  resolution_consistent df keys acc ->
  resolution_consistent df keys
    (material_step df order_num
                   (order_columns df (PyStr.strip order_num)) acc im).
Proof.
  intros Hkey Hcols Him [Hper Hreq]. destruct im as [i name].
  apply elem_of_enumerate in Him.
  assert (Hname : name ∈ all_materials df)
    by (apply list_elem_of_lookup; eauto).
  unfold material_step.
  destruct (F64.zero <? _)%float eqn:Hpos; [|now split].
  split; cbn [fst snd].
  - intros k per. destruct (decide (order_num = k)) as [<-|Hne].
    + rewrite lookup_insert_eq. intros [= <-].
      split; [exact Hkey|]. split; [exact Hcols|].
      intros m x. destruct (decide (name = m)) as [<-|Hm].
      * rewrite lookup_insert_eq. intros [= <-].
        split; [exact Hpos|]. split; [exact Hname|].
        rewrite lookup_insert_eq. eauto.
      * rewrite lookup_insert_ne by exact Hm. intros Hx.
        destruct (acc.2 !! order_num) as [per0|] eqn:Hper0;
          [|cbn in Hx; now rewrite lookup_empty in Hx].
        destruct (Hper _ _ Hper0) as (_ & _ & Hentries).
        destruct (Hentries m x Hx) as (H1 & H2 & H3).
        split; [exact H1|]. split; [exact H2|].
        now rewrite lookup_insert_ne by exact Hm.
    + rewrite lookup_insert_ne by exact Hne. intros Hk.
      destruct (Hper _ _ Hk) as (H1 & H2 & Hentries).
      split; [exact H1|]. split; [exact H2|].
      intros m x Hx. destruct (Hentries m x Hx) as (H3 & H4 & H5).
      split; [exact H3|]. split; [exact H4|].
      destruct (decide (name = m)) as [<-|Hm].
      * rewrite lookup_insert_eq. eauto.
      * now rewrite lookup_insert_ne by exact Hm.
  - intros m. destruct (decide (name = m)) as [<-|Hm].
    + intros _. exists order_num. eexists.
      rewrite lookup_insert_eq. split; [reflexivity|].
      rewrite lookup_insert_eq. eauto.
    + rewrite lookup_insert_ne by exact Hm. intros Hsome.
      destruct (Hreq m Hsome) as (k & per & Hk & Hin).
      destruct (decide (order_num = k)) as [<-|Hne].
      * eexists order_num, _. rewrite lookup_insert_eq.
        split; [reflexivity|]. rewrite Hk. cbn.
        now rewrite lookup_insert_ne by exact Hm.
      * exists k, per. now rewrite lookup_insert_ne by exact Hne.
Qed.

Lemma resolve_consistent df keys :
  resolution_consistent df keys (resolve df keys).
Proof.
  unfold resolve.
  apply (fold_left_invariant_in (resolution_consistent df keys)).
  - intros acc k Hk Hacc. unfold order_step.
    destruct (order_columns df (PyStr.strip k)) as [|c cols] eqn:Hcols;
      [exact Hacc|].
    rewrite <- Hcols.
    apply (fold_left_invariant_in (resolution_consistent df keys));
      [|exact Hacc].
    intros acc' im Him. apply material_step_consistent; try assumption.
    rewrite Hcols. discriminate.
  - split; cbn.
    + intros k per Hk. now rewrite lookup_empty in Hk.
    + intros m [x Hx]. now rewrite lookup_empty in Hx.
Qed.

End ReportFacts.

Section ReportClaims.
Context {py : PyLib}.

(** X3. In a requirement report the available-now figure of a material
    is never negative, and a purchase requirement is a strictly positive
    quantity. *)
Theorem report_quantities_signs (p : planner) (r : report) (m : string)
    (b : balance) :
  calculate_material_requirements p = CalcReport r ->
  material_balance r !! m = Some b ->
  (available_now b <? F64.zero)%float = false /\
  (forall x, purchase_requirements r !! m = Some x ->
             (F64.zero <? x)%float = true).
Proof.
  intros Hr Hb. apply calculate_report in Hr. subst r.
  rewrite material_balance_lookup in Hb.
  destruct (material_requirements (compute_report p) !! m) as [req|] eqn:Hreq;
    [|discriminate].
  cbn in Hb. injection Hb as <-. split.
  - cbn. apply F64Order.max0_not_negative.
  - intros x. rewrite purchase_requirements_lookup, Hreq. cbn.
    unfold purchase_of.
    destruct (_ <? _)%float eqn:Hneg; [|discriminate].
    intros [= <-]. now apply F64Order.abs_negative_positive.
Qed.

(** X4. An entry of [order_materials] belongs to a selected order that
    has a matching column, names a material of the material list, is a
    strictly positive quantity (a total that is zero or negative is not
    recorded), and its material has a required quantity and a balance in
    the same report. *)
Theorem order_materials_entries (p : planner) (r : report) (k m : string)
    (per : gmap string float) (x : float) :
  calculate_material_requirements p = CalcReport r ->
  order_materials r !! k = Some per ->
  per !! m = Some x ->
  k ∈ dict_keys (selected_orders p) /\
  order_columns (materials_df p) (PyStr.strip k) <> [] /\
  m ∈ all_materials (materials_df p) /\
  (F64.zero <? x)%float = true /\
  is_Some (material_requirements r !! m) /\
  is_Some (material_balance r !! m).
Proof.
  intros Hr Hk Hm. apply calculate_report in Hr. subst r.
  destruct (resolve_consistent (materials_df p)
              (dict_keys (selected_orders p))) as [Hper _].
  destruct (Hper k per Hk) as (H1 & H2 & Hentries).
  destruct (Hentries m x Hm) as (H3 & H4 & H5).
  split; [exact H1|]. split; [exact H2|]. split; [exact H4|].
  split; [exact H3|]. split; [exact H5|].
  rewrite material_balance_lookup. destruct H5 as [y Hy].
  cbn in Hy |- *. rewrite Hy. cbn. eauto.
Qed.

(** X5. The maps of a report agree on their materials: a material has a
    balance exactly when it has a required quantity, and it has a
    required quantity exactly when some order has an entry for it. *)
Theorem report_materials_agree (p : planner) (m : string) :
  let r := compute_report p in
  (is_Some (material_balance r !! m)
     <-> is_Some (material_requirements r !! m)) /\
  (is_Some (material_requirements r !! m)
     <-> exists k per, order_materials r !! k = Some per
                       /\ is_Some (per !! m)).
Proof.
  cbn zeta. split.
  - rewrite material_balance_lookup.
    destruct (material_requirements (compute_report p) !! m); cbn.
    + split; eauto.
    + split; intros [? ?]; discriminate.
  - destruct (resolve_consistent (materials_df p)
                (dict_keys (selected_orders p))) as [Hper Hreq].
    split; [apply Hreq|].
    intros (k & per & Hk & [x Hx]).
    destruct (Hper k per Hk) as (_ & _ & Hentries).
    destruct (Hentries m x Hx) as (_ & _ & H). exact H.
Qed.

Lemma resolve_nothing df keys :
  MATERIAL ∉ columns df
  \/ Forall (fun k => order_columns df (PyStr.strip k) = []) keys ->
  resolve df keys = (∅, ∅).
Proof.
  intros Hcase. unfold resolve.
  apply (fold_left_invariant_in (fun acc => acc = (∅, ∅))); [|reflexivity].
  intros acc k Hk ->. unfold order_step.
  destruct Hcase as [Hmat|Hcols].
  - unfold all_materials. rewrite bool_decide_eq_false_2 by exact Hmat.
    now destruct (order_columns df (PyStr.strip k)).
  - rewrite Forall_forall in Hcols. now rewrite (Hcols k Hk).
Qed.

(** X6. Selected orders that the materials sheet has no column for are
    no error: when no selected order has a matching column, or the sheet
    has no column [Материал], the calculation returns a report with no
    required quantity, no balance, no purchase requirement and no order
    entry. *)
Theorem report_without_columns (p : planner) :
  selected_orders p <> [] ->
  MATERIAL ∉ columns (materials_df p)
  \/ Forall (fun k => order_columns (materials_df p) (PyStr.strip k) = [])
            (dict_keys (selected_orders p)) ->
  calculate_material_requirements p
  = CalcReport {| material_requirements := ∅; material_balance := ∅;
                  purchase_requirements := ∅; order_materials := ∅ |}.
Proof.
  intros Hsel Hcase. unfold calculate_material_requirements.
  destruct (selected_orders p) eqn:E; [contradiction|].
  rewrite <- E in Hcase. unfold compute_report. rewrite (resolve_nothing _ _ Hcase). cbn.
  now rewrite !map_imap_empty.
Qed.

End ReportClaims.

Section ResolverSums.
Context {py : PyLib}.

Lemma material_step_required df k cols acc i n0 n :
  (material_step df k cols acc (i, n0)).1 !! n
  = if decide (n0 = n)
    then add_total (acc.1 !! n) (total_requirement df cols i)
    else acc.1 !! n.
Proof.
  unfold material_step, add_total.
  destruct (F64.zero <? total_requirement df cols i)%float; cbn.
  - destruct (decide (n0 = n)) as [->|Hne].
    + now rewrite lookup_insert_eq.
    + now rewrite lookup_insert_ne.
  - now destruct (decide (n0 = n)).
Qed.

Lemma material_step_entry df k cols acc i n0 n :
  order_entry (material_step df k cols acc (i, n0)).2 k n
  = if decide (n0 = n)
    then match positive_total (total_requirement df cols i) with
         | Some t => Some t
         | None => order_entry acc.2 k n
         end
    else order_entry acc.2 k n.
Proof.
  unfold material_step, positive_total, order_entry.
  destruct (F64.zero <? total_requirement df cols i)%float; cbn.
  - rewrite lookup_insert_eq. cbn.
    destruct (decide (n0 = n)) as [->|Hne].
    + now rewrite lookup_insert_eq.
    + rewrite lookup_insert_ne by exact Hne.
      destruct (acc.2 !! k); [reflexivity|]. cbn. apply lookup_empty.
  - now destruct (decide (n0 = n)).
Qed.

Lemma material_step_other df k cols acc im k' :
  k' <> k -> (material_step df k cols acc im).2 !! k' = acc.2 !! k'.
Proof.
  intros Hne. destruct im as [i n]. unfold material_step.
  destruct (F64.zero <? _)%float; cbn; [|reflexivity].
  now rewrite lookup_insert_ne by congruence.
Qed.

(** The loop over the material list, when no name occurs twice. *)
Lemma material_loop df k cols ims acc :
  NoDup ims.*2 ->
  let acc' := fold_left (material_step df k cols) ims acc in
  (forall i n, (i, n) ∈ ims ->
     acc'.1 !! n = add_total (acc.1 !! n) (total_requirement df cols i) /\
     order_entry acc'.2 k n
     = match positive_total (total_requirement df cols i) with
       | Some t => Some t
       | None => order_entry acc.2 k n
       end) /\
  (forall n, n ∉ ims.*2 ->
     acc'.1 !! n = acc.1 !! n /\
     order_entry acc'.2 k n = order_entry acc.2 k n).
Proof.
  revert acc. induction ims as [|[i0 n0] ims IH]; intros acc Hnd; cbn zeta.
  - split; [intros i n Hin; inversion Hin | now intros n _].
  - cbn [fold_left]. cbn in Hnd. apply NoDup_cons in Hnd as [Hn0 Hnd].
    destruct (IH (material_step df k cols acc (i0, n0)) Hnd)
      as [Hin Hout].
    split.
    + intros i n Hi. apply elem_of_cons in Hi as [[= -> ->]|Hi].
      * destruct (Hout n0 Hn0) as [-> ->].
        rewrite material_step_required, material_step_entry.
        now rewrite !decide_True by reflexivity.
      * destruct (Hin i n Hi) as [-> ->].
        rewrite material_step_required, material_step_entry.
        assert (n0 <> n).
        { intros ->. apply Hn0. apply list_elem_of_fmap.
          now exists (i, n). }
        now rewrite !decide_False by assumption.
    + intros n Hn. cbn in Hn. apply not_elem_of_cons in Hn as [Hne Hn].
      destruct (Hout n Hn) as [-> ->].
      rewrite material_step_required, material_step_entry.
      now rewrite !decide_False by congruence.
Qed.

Lemma enumerate_names {A} (l : list A) : (enumerate l).*2 = l.
Proof.
  unfold enumerate. rewrite fmap_imap.
  rewrite (imap_const id). apply list_fmap_id.
Qed.

(** One order's step. *)
Lemma order_step_lookup df acc k i n :
  NoDup (all_materials df) ->
  all_materials df !! i = Some n ->
  (order_step df acc k).1 !! n
    = add_total (acc.1 !! n) (order_total df k i) /\
  order_entry (order_step df acc k).2 k n
    = match positive_total (order_total df k i) with
      | Some t => Some t
      | None => order_entry acc.2 k n
      end.
Proof.
  intros Hnd Hi. unfold order_step, order_total.
  destruct (order_columns df (PyStr.strip k)) as [|c cols] eqn:Hcols.
  - now split.
  - apply material_loop.
    + now rewrite enumerate_names.
    + now apply elem_of_enumerate.
Qed.

Lemma order_step_other df acc k k' :
  k' <> k -> (order_step df acc k).2 !! k' = acc.2 !! k'.
Proof.
  intros Hne. unfold order_step.
  destruct (order_columns df (PyStr.strip k)); [reflexivity|].
  apply (fold_left_invariant
           (fun a => a.2 !! k' = acc.2 !! k')); [|reflexivity].
  intros a im Ha. now rewrite material_step_other.
Qed.

Lemma orders_loop_other df keys acc k :
  k ∉ keys -> (fold_left (order_step df) keys acc).2 !! k = acc.2 !! k.
Proof.
  revert acc. induction keys as [|k0 keys IH]; intros acc Hk; cbn;
    [reflexivity|].
  apply not_elem_of_cons in Hk as [Hne Hk].
  rewrite IH by exact Hk. now apply order_step_other.
Qed.

Lemma orders_loop_required df keys acc i n :
  NoDup (all_materials df) ->
  all_materials df !! i = Some n ->
  (fold_left (order_step df) keys acc).1 !! n
  = fold_left add_total (map (fun k => order_total df k i) keys)
              (acc.1 !! n).
Proof.
  intros Hnd Hi. revert acc.
  induction keys as [|k keys IH]; intros acc; cbn; [reflexivity|].
  rewrite IH. f_equal. now apply order_step_lookup.
Qed.

Lemma orders_loop_entry df keys acc k i n :
  NoDup (all_materials df) ->
  all_materials df !! i = Some n ->
  NoDup keys -> k ∈ keys ->
  order_entry (fold_left (order_step df) keys acc).2 k n
  = match positive_total (order_total df k i) with
    | Some t => Some t
    | None => order_entry acc.2 k n
    end.
Proof.
  intros Hnd Hi Hkeys. revert acc.
  induction Hkeys as [|k0 keys Hk0 Hkeys IH]; intros acc Hk;
    [inversion Hk|].
  cbn [fold_left]. apply elem_of_cons in Hk as [->|Hk].
  - unfold order_entry at 1. rewrite orders_loop_other by exact Hk0.
    now apply order_step_lookup.
  - rewrite IH by exact Hk. unfold order_entry.
    rewrite order_step_other; [reflexivity|].
    intros ->. contradiction.
Qed.

Lemma total_requirement_row df cols i row :
  rows df !! i = Some row -> total_requirement df cols i = row_total row cols.
Proof.
  intros Hi. unfold total_requirement, row_total, iloc. now rewrite Hi.
Qed.

End ResolverSums.

(** X7. On a materials sheet with a name in every row and no name twice,
    the resolver charges a material with the cells of its own row: the
    entry of a selected order for the material is the sum of the numeric
    cells the row has in the order's matching columns, recorded when it
    is strictly positive, and the required quantity of the material adds
    up these totals over the selected orders in their order. With one
    selected order the required quantity is that order's total. *)
Theorem resolver_row_sums {py : PyLib} (p : planner) (i : nat)
    (row : gmap string value) :
  let df := materials_df p in
  let keys := dict_keys (selected_orders p) in
  let name := PyStr.strip (py_str (cell row MATERIAL)) in
  let total k := row_total row (order_columns df (PyStr.strip k)) in
  MATERIAL ∈ columns df ->
  Forall (fun row => notna (cell row MATERIAL) = true) (rows df) ->
  NoDup (all_materials df) ->
  NoDup keys ->
  rows df !! i = Some row ->
  material_requirements (compute_report p) !! name
    = accumulate (map total keys) /\
  (forall k, k ∈ keys ->
     order_entry (order_materials (compute_report p)) k name
     = positive_total (total k)) /\
  (forall k, keys = [k] ->
     material_requirements (compute_report p) !! name
     = positive_total (total k)).
Proof.
  intros df keys name total Hmat Hnamed Hnames Hkeys Hrow.
  assert (Hi : all_materials df !! i = Some name).
  { rewrite (all_materials_aligned df Hmat Hnamed).
    rewrite list_lookup_fmap, Hrow. reflexivity. }
  assert (Htotal : forall k, order_total df k i = total k).
  { intros k. unfold order_total. now apply total_requirement_row. }
  assert (Hreq : material_requirements (compute_report p) !! name
                 = accumulate (map total keys)).
  { cbn. unfold resolve.
    rewrite (orders_loop_required df _ _ i name Hnames Hi).
    cbn. rewrite lookup_empty. unfold accumulate. f_equal.
    apply map_ext. exact Htotal. }
  split; [exact Hreq|]. split.
  - intros k Hk. cbn. unfold resolve.
    rewrite (orders_loop_entry df _ _ k i name Hnames Hi Hkeys Hk).
    rewrite Htotal. unfold order_entry. cbn. rewrite lookup_empty. cbn.
    now destruct (positive_total (total k)).
  - intros k Hone. rewrite Hreq, Hone. cbn.
    unfold add_total, positive_total.
    destruct (F64.zero <? total k)%float eqn:Hpos; [|reflexivity].
    cbn. f_equal. apply F64Facts.add_zero_l.
    now apply F64Facts.unsigned_positive.
Qed.

(** ** More on [reserve_materials] and the ledger file *)

Section LedgerMore.
Context {py : PyLib}.

(** X8. [reserve_materials] touches nothing but the selection, the
    reserved amounts of the materials its report requires, and the
    ledger file: the sheets and the stock index stay, the selection is
    the one [select_orders] made, the reserved amount of a material that
    the report does not require is the one of before, and no material
    loses its reservation. *)
Theorem reserve_frame (p : planner) (disk : option stored)
    (order_numbers : list value) (dates : gmap string value)
    (io : io_outcome) (now : datetime) (m : string) :
  let o := reserve_materials p disk order_numbers dates io now in
  orders_df (planner_after o) = orders_df p /\
  materials_df (planner_after o) = materials_df p /\
  stock_data (planner_after o) = stock_data p /\
  selected_orders (planner_after o)
    = selected_orders (select_orders p order_numbers dates).1 /\
  (requirements_for p order_numbers dates !! m = None ->
   reserved_materials (planner_after o) !! m = reserved_materials p !! m) /\
  (is_Some (reserved_materials p !! m) ->
   is_Some (reserved_materials (planner_after o) !! m)).
Proof.
  intros o.
  assert (Hres := reserve_materials_reserved p disk order_numbers dates
                    io now).
  fold o in Hres.
  assert (Hframe : orders_df (planner_after o) = orders_df p /\
                   materials_df (planner_after o) = materials_df p /\
                   stock_data (planner_after o) = stock_data p /\
                   selected_orders (planner_after o)
                   = selected_orders
                       (select_orders p order_numbers dates).1).
  { unfold o.
    destruct (selected_orders (select_orders p order_numbers dates).1)
      eqn:Hsel.
    - rewrite reserve_materials_error by exact Hsel.
      cbn [planner_after].
      split; [reflexivity|]. split; [reflexivity|].
      split; [reflexivity|]. exact Hsel.
    - rewrite reserve_materials_success by (rewrite Hsel; discriminate).
      cbn [planner_after].
      split; [reflexivity|]. split; [reflexivity|].
      split; [reflexivity|]. exact Hsel. }
  destruct Hframe as (H1 & H2 & H3 & H4).
  split; [exact H1|]. split; [exact H2|]. split; [exact H3|].
  split; [exact H4|]. rewrite Hres, add_reservations_lookup. split.
  - now intros ->.
  - intros [x Hx]. rewrite Hx.
    destruct (requirements_for p order_numbers dates !! m); eauto.
Qed.

(** X9. A write of the ledger file that fails can cost the ledger that
    was stored before. When [open] raises the file stays as it was. When
    the write raises after the file was opened, or a snapshot cannot be
    encoded, the file is left without a document: the next load, on any
    planner, returns [False], prints the failure and changes nothing. *)
Theorem reserve_failed_write_file (p : planner) (disk : option stored)
    (order_numbers : list value) (dates : gmap string value)
    (io : io_outcome) (now : datetime) :
  let o := reserve_materials p disk order_numbers dates io now in
  selected_orders (select_orders p order_numbers dates).1 <> [] ->
  (io = IoOpenFails -> disk_after o = disk) /\
  (io = IoWriteFails
   \/ (io = IoOk /\ ledger_document (planner_after o) now = None) ->
   disk_after o = Some Unreadable /\
   forall q, load_reservation_data q (disk_after o)
             = (false, q, [EvLoadFailed])).
Proof.
  intros o Hsel. unfold o.
  rewrite reserve_materials_success by exact Hsel.
  cbn [disk_after planner_after]. unfold save_reservation_data. split.
  - now intros ->.
  - intros [->|[-> Hdoc]].
    + now split.
    + rewrite Hdoc. now split.
Qed.

End LedgerMore.

Section RestoreFacts.
Context {py : PyLib}.

Lemma dict_set_same {A} k (v : A) (d : list (string * A)) :
  dict_get k d = Some v -> dict_set k v d = d.
Proof.
  induction d as [|[k' v'] d IH]; cbn; [discriminate|].
  destruct (decide (k' = k)) as [->|Hne].
  - now intros [= ->].
  - intros Hget. now rewrite IH.
Qed.

(** With distinct keys, each stored key holds its value afterwards. *)
Lemma dict_get_fold_in {A B} (f : B -> A) (l : list (string * B))
    (d : list (string * A)) k b :
  NoDup (dict_keys l) -> (k, b) ∈ l ->
  dict_get k (fold_left (fun sel kv => dict_set kv.1 (f kv.2) sel) l d)
  = Some (f b).
Proof.
  revert d. induction l as [|[k0 b0] l IH]; intros d Hnd Hin;
    [inversion Hin|].
  cbn in Hnd. apply NoDup_cons in Hnd as [Hk0 Hnd]. cbn [fold_left].
  apply elem_of_cons in Hin as [[= -> ->]|Hin].
  - rewrite (dict_get_fold_other f l) by exact Hk0. cbn.
    apply dict_get_set_eq.
  - now apply IH.
Qed.

Lemma dict_set_fold_same {A B} (f : B -> A) (l : list (string * B))
    (d : list (string * A)) :
  Forall (fun kv => dict_get kv.1 d = Some (f kv.2)) l ->
  fold_left (fun sel kv => dict_set kv.1 (f kv.2) sel) l d = d.
Proof.
  induction 1 as [|kv l Hkv _ IH]; cbn; [reflexivity|].
  now rewrite dict_set_same.
Qed.

Lemma dict_keys_fold {A B} (f : B -> A) (l : list (string * B))
    (d : list (string * A)) :
  NoDup (dict_keys d) ->
  exists new,
    dict_keys (fold_left (fun sel kv => dict_set kv.1 (f kv.2) sel) l d)
    = (dict_keys d ++ new)%list /\
    NoDup (dict_keys d ++ new) /\
    forall k, k ∈ new <-> k ∈ dict_keys l /\ k ∉ dict_keys d.
Proof.
  revert d. induction l as [|[k0 b0] l IH]; intros d Hnd; cbn [fold_left].
  - exists []. rewrite app_nil_r. split; [reflexivity|].
    split; [exact Hnd|]. intros k. split; [inversion 1|].
    intros [Hk _]. inversion Hk.
  - destruct (IH (dict_set k0 (f b0) d)) as (new & Hkeys & Hnd' & Hnew).
    { now apply dict_set_NoDup. }
    cbn [fst snd] in *. rewrite dict_set_keys in Hkeys, Hnd', Hnew.
    destruct (bool_decide (k0 ∈ dict_keys d)) eqn:Hk0.
    + apply bool_decide_eq_true_1 in Hk0.
      exists new. split; [exact Hkeys|]. split; [exact Hnd'|].
      intros k. rewrite Hnew. cbn. rewrite elem_of_cons. split.
      * intros [Hk Hd]. split; [now right | exact Hd].
      * intros [[->|Hk] Hd]; [contradiction | now split].
    + apply bool_decide_eq_false_1 in Hk0.
      exists (k0 :: new). rewrite <- app_assoc in Hkeys, Hnd'.
      split; [exact Hkeys|]. split; [exact Hnd'|].
      intros k. rewrite elem_of_cons, Hnew. cbn.
      rewrite elem_of_cons, elem_of_app, list_elem_of_singleton. split.
      * intros [->|[Hk Hd]]; [split; [now left | exact Hk0]|].
        split; [now right | tauto].
      * intros [[->|Hk] Hd]; [now left|].
        destruct (decide (k = k0)) as [->|Hne]; [now left|].
        right. split; [exact Hk | tauto].
Qed.

Lemma loaded_selected_orders (p : planner) (d : document) :
  selected_orders (loaded_planner p (Some (Document d)))
  = fold_left (fun sel kv => dict_set kv.1 (decode_order kv.2) sel)
              (default [] (doc_selected_orders d)) (selected_orders p).
Proof. reflexivity. Qed.

(** X10. A load stores every order of the document over the snapshot in
    memory (the file wins), keeps the selected orders of before in their
    places and appends the orders that are new, each once; the selected
    orders after the load are those of before and those of the
    document. *)
Theorem restore_file_wins (p : planner) (d : document) :
  let file := default [] (doc_selected_orders d) in
  let p' := loaded_planner p (Some (Document d)) in
  NoDup (dict_keys (selected_orders p)) ->
  NoDup (dict_keys file) ->
  NoDup (dict_keys (selected_orders p')) /\
  (forall k info, (k, info) ∈ file ->
     dict_get k (selected_orders p') = Some (decode_order info)) /\
  (exists new,
     dict_keys (selected_orders p')
     = (dict_keys (selected_orders p) ++ new)%list /\
     forall k, k ∈ new <->
               k ∈ dict_keys file /\ k ∉ dict_keys (selected_orders p)).
Proof.
  intros file p' Hp Hfile. unfold p'. rewrite loaded_selected_orders.
  fold file.
  destruct (dict_keys_fold decode_order file (selected_orders p) Hp)
    as (new & Hkeys & Hnd & Hnew).
  split; [now rewrite Hkeys|]. split.
  - intros k info Hin. now apply dict_get_fold_in.
  - exists new. now split.
Qed.

(** X11. Loading twice is loading once: a second load of the same file
    changes nothing and returns what the first returned. *)
Theorem restore_idempotent (p : planner) (disk : option stored) :
  (forall d, disk = Some (Document d) ->
             NoDup (dict_keys (default [] (doc_selected_orders d)))) ->
  load_reservation_data (loaded_planner p disk) disk
  = load_reservation_data p disk.
Proof.
  intros Hfile. unfold loaded_planner.
  destruct disk as [[|d]|]; [reflexivity| |reflexivity].
  specialize (Hfile d eq_refl). cbn -[decode_order].
  set (file := default [] (doc_selected_orders d)) in *.
  set (sel := fold_left (fun sel kv => dict_set kv.1 (decode_order kv.2) sel)
                        file (selected_orders p)).
  assert (Hsame : fold_left
                    (fun sel kv => dict_set kv.1 (decode_order kv.2) sel)
                    file sel = sel).
  { apply dict_set_fold_same. apply Forall_forall. intros [k info] Hin.
    cbn [fst snd]. unfold sel. now apply dict_get_fold_in. }
  now rewrite Hsame.
Qed.

End RestoreFacts.

Section ReserveRestore.
Context {py : PyLib} {laws : PyLibLaws py}.

(** A ledger with encodable snapshots and structured shipment dates,
    saved and loaded into a planner without selected orders. *)
Lemma save_load_fresh (p fresh : planner) (disk : option stored)
    (now : datetime) :
  NoDup (dict_keys (selected_orders p)) ->
  Forall (fun kv => snapshot_serializable kv.2) (selected_orders p) ->
  Forall (fun kv => shipment_date_structured kv.2) (selected_orders p) ->
  selected_orders fresh = [] ->
  let disk' := (save_reservation_data p disk IoOk now).1 in
  (load_reservation_data fresh disk').1.1 = true /\
  reserved_materials (loaded_planner fresh disk') = reserved_materials p /\
  selected_orders (loaded_planner fresh disk') = selected_orders p.
Proof.
  intros Hnd Hok Hdates Hfresh. cbn zeta. unfold save_reservation_data.
  rewrite ledger_document_serializable by exact Hok. cbn [fst].
  split; [reflexivity|]. split; [reflexivity|].
  rewrite loaded_selected_orders. cbn [doc_selected_orders default].
  rewrite Hfresh, (dict_set_all_fresh decode_order).
  2:{ cbn. unfold dict_keys in *. rewrite map_map. cbn. exact Hnd. }
  cbn [app]. unfold id. rewrite map_map. cbn [fst snd].
  clear Hnd. induction Hok as [|[k info] l Hinfo _ IH]; [reflexivity|].
  apply Forall_cons in Hdates as [Hdate Hdates].
  cbn [map fst snd] in *.
  rewrite decode_encode_order by exact Hinfo.
  rewrite restored_structured_shipment_date by exact Hdate.
  now rewrite IH.
Qed.

Lemma find_order_elem orders k r :
  find_order orders k = Some r -> r ∈ orders.
Proof.
  intros Hr. apply find_order_first in Hr as (i & Hi & _).
  apply list_elem_of_lookup. eauto.
Qed.

Lemma snapshot_of_serializable dates k r :
  order_row_serializable r -> snapshot_serializable (snapshot_of dates k r).
Proof.
  intros [Hnum Hfields] key x Hx Hkey. unfold snapshot_of, to_dict in Hx.
  rewrite lookup_insert_ne in Hx by congruence.
  destruct (decide (ORDERS_NUMBER = key)) as [<-|Hne].
  - rewrite lookup_insert_eq in Hx. now injection Hx as <-.
  - rewrite lookup_insert_ne in Hx by exact Hne. exact (Hfields key x Hx).
Qed.

Lemma snapshot_of_structured dates k r :
  dates_structured dates -> shipment_date_structured (snapshot_of dates k r).
Proof.
  intros Hdates x. unfold snapshot_of. rewrite lookup_insert_eq.
  intros [= <-]. destruct (dates !! k) as [y|] eqn:Hy; cbn.
  - exact (Hdates k y Hy).
  - now left.
Qed.

Lemma dict_get_elem {A} k (v : A) (d : list (string * A)) :
  NoDup (dict_keys d) -> (k, v) ∈ d -> dict_get k d = Some v.
Proof.
  induction d as [|[k' v'] d IH]; intros Hnd Hin; [inversion Hin|].
  cbn in Hnd. apply NoDup_cons in Hnd as [Hk' Hnd]. cbn.
  apply elem_of_cons in Hin as [[= -> ->]|Hin].
  - now rewrite decide_True.
  - rewrite decide_False; [now apply IH|].
    intros ->. apply Hk'. apply list_elem_of_fmap. now exists (k, v).
Qed.

(** The snapshots [select_orders] stores carry the given dates. *)
Lemma select_orders_structured p order_numbers dates :
  dates_structured dates ->
  Forall (fun kv => shipment_date_structured kv.2)
         (selected_orders (select_orders p order_numbers dates).1).
Proof.
  intros Hdates. apply Forall_forall. intros [k info] Hin.
  apply dict_get_elem in Hin; [|apply select_orders_NoDup].
  apply select_orders_get in Hin as (_ & r & _ & ->).
  now apply snapshot_of_structured.
Qed.

(** They can be encoded when the orders sheet holds no date cell. *)
Lemma select_orders_serializable p order_numbers dates :
  Forall order_row_serializable (orders_df p) ->
  Forall (fun kv => snapshot_serializable kv.2)
         (selected_orders (select_orders p order_numbers dates).1).
Proof.
  intros Hrows. apply Forall_forall. intros [k info] Hin.
  apply dict_get_elem in Hin; [|apply select_orders_NoDup].
  apply select_orders_get in Hin as (_ & r & Hr & ->).
  apply snapshot_of_serializable.
  rewrite Forall_forall in Hrows. apply Hrows.
  now apply find_order_elem in Hr.
Qed.

(** X12. What a successful reservation writes is what a fresh planner
    loads: when the orders sheet holds no date cell, the given shipment
    dates are [datetime] values or [None] and the write works, a planner
    without selected orders that loads the file has the reserved amounts
    and the selected orders, snapshots and shipment dates included, that
    the reserving planner is left with. *)
Theorem reserve_then_restore (p fresh : planner) (disk : option stored)
    (order_numbers : list value) (dates : gmap string value)
    (now : datetime) :
  let o := reserve_materials p disk order_numbers dates IoOk now in
  Forall order_row_serializable (orders_df p) ->
  dates_structured dates ->
  selected_orders (select_orders p order_numbers dates).1 <> [] ->
  selected_orders fresh = [] ->
  (load_reservation_data fresh (disk_after o)).1.1 = true /\
  reserved_materials (loaded_planner fresh (disk_after o))
    = reserved_materials (planner_after o) /\
  selected_orders (loaded_planner fresh (disk_after o))
    = selected_orders (planner_after o).
Proof.
  intros o Hrows Hdates Hsel Hfresh. unfold o.
  rewrite reserve_materials_success by exact Hsel.
  cbn [disk_after planner_after].
  apply save_load_fresh.
  - apply select_orders_NoDup.
  - now apply select_orders_serializable.
  - now apply select_orders_structured.
  - exact Hfresh.
Qed.

End ReserveRestore.

(** ** [clear_reservations] *)

(** X13. [clear_reservations] empties the reserved amounts and the
    selection whatever happens to the file, so a calculation right after
    it reports that no orders are selected. When there was no file or
    the removal works, no file is left, and the next load returns
    [False] and leaves the planner empty. When the removal fails the
    file stays, and the next load brings its ledger back: the reserved
    amounts and the orders of the document. *)
Theorem clear_reservations_then_load {py : PyLib} (p : planner)
    (disk : option stored) (remove_ok : bool) :
  let cleared := clear_reservations p disk remove_ok in
  let p' := cleared.1.1 in
  let disk' := cleared.1.2 in
  reserved_materials p' = ∅ /\
  selected_orders p' = [] /\
  stock_data p' = stock_data p /\
  calculate_material_requirements p' = CalcError NO_ORDERS_SELECTED /\
  (disk = None \/ remove_ok = true ->
   disk' = None /\ load_reservation_data p' disk' = (false, p', [])) /\
  (forall d, disk = Some (Document d) -> remove_ok = false ->
     NoDup (dict_keys (default [] (doc_selected_orders d))) ->
     disk' = disk /\
     (load_reservation_data p' disk').1.1 = true /\
     reserved_materials (loaded_planner p' disk')
       = default ∅ (doc_reserved_materials d) /\
     selected_orders (loaded_planner p' disk')
       = map (fun kv => (kv.1, decode_order kv.2))
             (default [] (doc_selected_orders d))).
Proof.
  cbn zeta. unfold clear_reservations.
  destruct disk as [st|]; [destruct remove_ok|]; cbn [fst snd].
  - repeat (split; [reflexivity|]). split; [now intros _|].
    intros d _ Hrm. discriminate.
  - repeat (split; [reflexivity|]). split.
    + intros [H|H]; discriminate.
    + intros d [= ->] _ Hfile. split; [reflexivity|].
      split; [reflexivity|]. split; [reflexivity|].
      rewrite loaded_selected_orders. cbn [selected_orders
        set_selected_orders set_reserved_materials].
      rewrite (dict_set_all_fresh decode_order); [reflexivity|].
      exact Hfile.
  - repeat (split; [reflexivity|]). split; [now intros _|].
    intros d Hd. discriminate.
Qed.

(** ** More on [load_data] *)

Section StockMore.
Context {py : PyLib}.

Lemma fold_insert_other (l : list (string * float))
    (acc : gmap string float) k :
  k ∉ l.*1 ->
  fold_left (fun a kv => <[kv.1 := kv.2]> a) l acc !! k = acc !! k.
Proof.
  revert acc. induction l as [|[k0 f0] l IH]; intros acc Hk; cbn;
    [reflexivity|].
  cbn in Hk. apply not_elem_of_cons in Hk as [Hne Hk].
  rewrite IH by exact Hk. now rewrite lookup_insert_ne by congruence.
Qed.

Lemma stock_entry_key row k f :
  stock_entry row = Some (k, f) ->
  notna (cell row MATERIAL) = true /\ k = material_name row
  /\ on_hand_float row = inr f.
Proof.
  unfold stock_entry, material_name.
  destruct (notna (cell row MATERIAL)); [|discriminate].
  destruct (on_hand_float row); [discriminate|].
  now intros [= <- <-].
Qed.

(** X14. The stock index holds for a material the on-hand figure of the
    last row that names it (0.0 when that cell is blank); rows above it
    with the same name are overwritten without notice, and a name that
    no row has is not in the index. *)
Theorem stock_index_last_row_wins (df : dataframe) (i : nat)
    (row : gmap string value) (f : float) :
  ON_HAND ∈ columns df ->
  MATERIAL ∈ columns df ->
  Forall row_converts (rows df) ->
  rows df !! i = Some row ->
  notna (cell row MATERIAL) = true ->
  on_hand_float row = inr f ->
  (forall j row', i < j -> rows df !! j = Some row' ->
                  notna (cell row' MATERIAL) = true ->
                  material_name row' <> material_name row) ->
  exists stock,
    build_stock_data df = inr stock /\
    stock !! material_name row = Some f /\
    forall m, is_Some (stock !! m) <->
              exists row', row' ∈ rows df
                           /\ notna (cell row' MATERIAL) = true
                           /\ material_name row' = m.
Proof.
  intros Hon Hmat Hrows Hi Hnamed Hf Hlast.
  unfold build_stock_data. rewrite !bool_decide_eq_true_2 by assumption.
  rewrite stock_rows_entries by exact Hrows. eexists. split; [reflexivity|].
  split.
  - rewrite <- (take_drop_middle (rows df) i row Hi).
    assert (He : stock_entry row = Some (material_name row, f)).
    { unfold stock_entry, material_name. now rewrite Hnamed, Hf. }
    rewrite omap_app, fold_left_app. cbn [omap list_omap].
    rewrite He. cbn [fold_left fst snd].
    rewrite fold_insert_other; [apply lookup_insert_eq|].
    intros Hin. apply list_elem_of_fmap in Hin as ([k g] & Hk & Hin).
    cbn in Hk. subst k.
    apply list_elem_of_omap in Hin as (row' & Hin' & He').
    apply stock_entry_key in He' as (Hn' & Hname & _).
    apply list_elem_of_lookup in Hin' as [j Hj].
    rewrite lookup_drop in Hj.
    apply (Hlast (S i + j) row'); [lia | exact Hj | exact Hn' | now symmetry].
  - intros m. rewrite fold_insert_list_to_map.
    rewrite <- elem_of_dom, dom_list_to_map_L, elem_of_list_to_set.
    rewrite fmap_reverse, elem_of_reverse, list_elem_of_fmap. split.
    + intros ([k g] & Hk & Hin). cbn in Hk. subst k.
      apply list_elem_of_omap in Hin as (row' & Hin' & He').
      apply stock_entry_key in He' as (Hn' & Hname & _).
      exists row'. now split.
    + intros (row' & Hin' & Hn' & <-).
      rewrite Forall_forall in Hrows.
      destruct (Hrows row' Hin' Hn') as [g Hg].
      exists (material_name row', g). split; [reflexivity|].
      apply list_elem_of_omap. exists row'. split; [exact Hin'|].
      unfold stock_entry, material_name. now rewrite Hn', Hg.
Qed.

(** X15. What [load_data] does about missing columns: without the
    column [На складе] the planner is built with an empty stock index;
    with it but without the column [Материал] the load raises
    [KeyError] as soon as the sheet has a row, and builds an empty index
    when it has none. The planner that is built has nothing reserved
    and nothing selected, so a calculation on it reports that no orders
    are selected. *)
Theorem load_data_missing_columns (orders : list order_row)
    (df : dataframe) :
  (ON_HAND ∉ columns df ->
   exists p, load_data orders df = inr p /\ stock_data p = ∅) /\
  (ON_HAND ∈ columns df -> MATERIAL ∉ columns df ->
   (rows df <> [] -> load_data orders df = inl KeyError) /\
   (rows df = [] ->
    exists p, load_data orders df = inr p /\ stock_data p = ∅)) /\
  (forall p, load_data orders df = inr p ->
     orders_df p = orders /\ materials_df p = df /\
     reserved_materials p = ∅ /\ selected_orders p = [] /\
     calculate_material_requirements p = CalcError NO_ORDERS_SELECTED).
Proof.
  unfold load_data, build_stock_data. split; [|split].
  - intros Hon. rewrite bool_decide_eq_false_2 by exact Hon.
    eexists. split; reflexivity.
  - intros Hon Hmat. rewrite bool_decide_eq_true_2 by exact Hon.
    rewrite bool_decide_eq_false_2 by exact Hmat. split.
    + intros Hrows. now destruct (rows df).
    + intros ->. eexists. split; reflexivity.
  - intros p. destruct (if bool_decide _ then _ else _); [discriminate|].
    intros [= <-]. repeat split.
Qed.

End StockMore.

(** ** [estimate_material_price] *)

Lemma starts_with_spec prefix s :
  starts_with prefix s = true <-> exists rest, s = (prefix ++ rest)%string.
Proof.
  revert s. induction prefix as [|a prefix IH]; intros s; cbn.
  - split; [intros _; now exists s | reflexivity].
  - destruct s as [|b s]; cbn.
    + split; [discriminate | intros [rest Hrest]; discriminate].
    + rewrite andb_true_iff, IH. split.
      * intros [Hab [rest ->]]. apply Ascii.eqb_eq in Hab as ->.
        now exists rest.
      * intros [rest [= -> ->]]. split; [apply Ascii.eqb_refl|].
        now exists rest.
Qed.

(** [py_in] is the substring test. *)
Lemma py_in_spec x s :
  py_in x s = true <->
  exists before after, s = (before ++ x ++ after)%string.
Proof.
  induction s as [|b s IH]; cbn; rewrite orb_true_iff, starts_with_spec.
  - split.
    + intros [[rest Hrest]|H]; [|discriminate]. now exists "", rest.
    + intros (before & after & Hs). left.
      destruct before; [now exists after | discriminate].
  - rewrite IH. split.
    + intros [[rest ->]|(before & after & ->)]; [now exists "", rest|].
      now exists (String b before), after.
    + intros (before & after & Hs). destruct before as [|a before].
      * left. now exists after.
      * right. injection Hs as -> ->. now exists before, after.
Qed.

Section PriceFacts.
Context {py : PyLib} {console : PyConsole py}.

Lemma any_in_spec keywords text :
  any_in keywords text = true <-> mentions keywords text.
Proof.
  unfold any_in, mentions. rewrite existsb_exists. split.
  - intros (x & Hx & Hin). apply py_in_spec in Hin as (b & a & ->).
    exists x, b, a. split; [now apply list_elem_of_In | reflexivity].
  - intros (x & b & a & Hx & ->). exists x.
    split; [now apply list_elem_of_In|]. apply py_in_spec. now exists b, a.
Qed.

(** X16. The estimated price of a material depends only on its
    lower-cased name and is one of 200, 300, 500, 800, 1000 and 1500. A
    name that mentions glass costs 1500 whatever else it mentions; the
    default 1000 is the price exactly of the names that mention none of
    the twelve keywords. *)
Theorem estimate_material_price_table (material : string) :
  let price := estimate_material_price material in
  let text := py_lower material in
  (forall other, py_lower other = text ->
                 estimate_material_price other = price) /\
  price ∈ [200; 300; 500; 800; 1000; 1500]%Z /\
  (mentions GLASS text -> price = 1500%Z) /\
  (price = 1000%Z <->
   ~ mentions (GLASS ++ PROFILE ++ ARGON ++ SEALANT ++ TAPE ++ CONNECTOR)
              text).
Proof.
  cbn zeta. split; [|split; [|split]].
  - intros other Hother. unfold estimate_material_price. now rewrite Hother.
  - unfold estimate_material_price.
    repeat (destruct (any_in _ _); [set_solver|]). set_solver.
  - intros Hglass. apply any_in_spec in Hglass.
    unfold estimate_material_price. now rewrite Hglass.
  - assert (Hsplit : forall l1 l2 text,
              mentions (l1 ++ l2) text
              <-> mentions l1 text \/ mentions l2 text).
    { intros l1 l2 text. unfold mentions. split.
      - intros (x & b & a & Hx & Ht). apply elem_of_app in Hx as [Hx|Hx];
          [left | right]; now exists x, b, a.
      - intros [(x & b & a & Hx & Ht)|(x & b & a & Hx & Ht)];
          exists x, b, a; (split; [|exact Ht]); apply elem_of_app; tauto. }
    rewrite !Hsplit, <- !any_in_spec. unfold estimate_material_price.
    repeat (destruct (any_in _ _); [split; [discriminate | tauto]|]).
    split; [|reflexivity]. intros _ H.
    repeat (destruct H as [H|H]; [discriminate|]). discriminate.
Qed.

End PriceFacts.

(** ** [select_orders_menu] *)

Section MenuFacts.
Context {py : PyLib} {console : PyConsole py}.

Lemma unique_go_elem seen l x : x ∈ unique_go seen l -> x ∈ l.
Proof.
  revert seen. induction l as [|y l IH]; intros seen; cbn; [done|].
  destruct (existsb (value_eqb y) seen).
  - intros Hx. right. now apply (IH seen).
  - intros Hx. apply elem_of_cons in Hx as [->|Hx]; [left|].
    right. now apply (IH (y :: seen)).
Qed.

Lemma find_order_is_Some orders k :
  (exists r, r ∈ orders /\ order_key (order_number r) = k) ->
  is_Some (find_order orders k).
Proof.
  unfold find_order, order_key. intros (r & Hr & Hk).
  induction orders as [|r0 orders IH]; [inversion Hr|]. cbn.
  destruct (bool_decide _) eqn:Hr0; [cbn; eauto|].
  apply bool_decide_eq_false_1 in Hr0.
  apply elem_of_cons in Hr as [->|Hr]; [contradiction | now apply IH].
Qed.

(** An order number the menu takes as valid is one [select_orders]
    finds. *)
Lemma is_valid_order_found p o :
  is_valid_order (all_orders p) o = true ->
  is_Some (find_order (orders_df p) o).
Proof.
  unfold is_valid_order, all_orders. rewrite existsb_exists.
  intros (s & Hs & Heq). apply bool_decide_eq_true_1 in Heq.
  apply in_map_iff in Hs as (x & <- & Hx).
  apply filter_In in Hx as [Hx _]. apply list_elem_of_In in Hx.
  apply unique_go_elem in Hx.
  apply list_elem_of_In, in_map_iff in Hx as (r & <- & Hr).
  apply find_order_is_Some. exists r.
  split; [now apply list_elem_of_In | exact Heq].
Qed.

Lemma parse_order_numbers_elem order_input t :
  t ∈ parse_order_numbers order_input <->
  exists piece, piece ∈ split_on "," order_input
                /\ t = PyStr.strip piece /\ t <> "".
Proof.
  unfold parse_order_numbers. rewrite list_elem_of_omap. split.
  - intros (piece & Hin & Ht). exists piece. split; [exact Hin|].
    destruct (String.eqb_spec (PyStr.strip piece) ""); [discriminate|].
    now injection Ht as <-.
  - intros (piece & Hin & -> & Hne). exists piece. split; [exact Hin|].
    now destruct (String.eqb_spec (PyStr.strip piece) "").
Qed.

Lemma parse_order_numbers_key order_input t :
  t ∈ parse_order_numbers order_input -> order_key (VText t) = t.
Proof.
  intros Ht. apply parse_order_numbers_elem in Ht as (piece & _ & -> & _).
  unfold order_key. cbn. apply PyStrFacts.strip_idem.
Qed.

(** The date loop of one order: it ends with [None] or with a date that
    [strptime] read from a typed line, it reads the typed lines in their
    order, and it prints one complaint for each line that is no date. *)
Lemma read_shipment_date_spec inputs x rest out :
  read_shipment_date inputs = (Some (x, rest), out) ->
  (x = VNone \/ exists d line, x = VDate d /\ line ∈ inputs
                               /\ strptime_dmy (PyStr.strip line) = Some d)
  /\ (exists used, used <> [] /\ inputs = (used ++ rest)%list)
  /\ Forall (fun ln => ln = LnBadDate) out.
Proof.
  remember (length inputs) as n eqn:Hn. revert inputs Hn x rest out.
  induction n as [n IH] using lt_wf_ind. intros inputs Hn x rest out.
  destruct inputs as [|line inputs]; [discriminate|]. cbn [read_shipment_date].
  destruct (String.eqb (PyStr.strip line) "").
  - destruct inputs as [|answer inputs]; [discriminate|].
    destruct (String.eqb (py_lower (PyStr.strip answer)) "y").
    + intros [= <- <- <-]. split; [now left|]. split; [|constructor].
      now exists [line; answer].
    + intros Hrec.
      apply (IH (length inputs)) in Hrec as (Hx & (used & _ & ->) & Hout);
        [|cbn in Hn; lia | reflexivity].
      split; [|split; [|exact Hout]].
      * destruct Hx as [->|(d & l & -> & Hl & Hd)]; [now left|].
        right. exists d, l. split; [reflexivity|].
        split; [|exact Hd]. right. now right.
      * now exists (line :: answer :: used).
  - destruct (strptime_dmy (PyStr.strip line)) as [d|] eqn:Hd.
    + intros [= <- <- <-]. split; [|split; [|constructor]].
      * right. exists d, line. split; [reflexivity|]. split; [left|exact Hd].
      * now exists [line].
    + destruct (read_shipment_date inputs) as [r out'] eqn:Hrec.
      intros [= -> <-].
      apply (IH (length inputs)) in Hrec as (Hx & (used & _ & ->) & Hout);
        [|cbn in Hn; lia | reflexivity].
      split; [|split; [|now constructor]].
      * destruct Hx as [->|(d & l & -> & Hl & Hd')]; [now left|].
        right. exists d, l. split; [reflexivity|]. split; [now right|exact Hd'].
      * now exists (line :: used).
Qed.

Lemma read_shipment_date_lines inputs r out :
  read_shipment_date inputs = (r, out) ->
  Forall (fun ln => ln = LnBadDate) out.
Proof.
  remember (length inputs) as n eqn:Hn. revert inputs Hn r out.
  induction n as [n IH] using lt_wf_ind. intros inputs Hn r out.
  destruct inputs as [|line inputs]; [intros [= <- <-]; constructor|].
  cbn [read_shipment_date].
  destruct (String.eqb (PyStr.strip line) "").
  - destruct inputs as [|answer inputs]; [intros [= <- <-]; constructor|].
    destruct (String.eqb (py_lower (PyStr.strip answer)) "y").
    + intros [= <- <-]. constructor.
    + apply (IH (length inputs)); [cbn in Hn; lia | reflexivity].
  - destruct (strptime_dmy (PyStr.strip line)).
    + intros [= <- <-]. constructor.
    + destruct (read_shipment_date inputs) as [r' out'] eqn:Hrec.
      intros [= <- <-]. constructor; [reflexivity|].
      apply (IH (length inputs)) in Hrec; [exact Hrec | cbn in Hn; lia | reflexivity].
Qed.

Lemma read_shipment_dates_lines valid dates inputs r out :
  read_shipment_dates valid dates inputs = (r, out) ->
  Forall (fun ln => ln = LnBadDate) out.
Proof.
  revert dates inputs r out.
  induction valid as [|o valid IH]; intros dates inputs r out; cbn.
  - intros [= <- <-]. constructor.
  - destruct (read_shipment_date inputs) as [[[x rest]|] out1] eqn:H1.
    + destruct (read_shipment_dates valid _ rest) as [r' out2] eqn:H2.
      intros [= <- <-]. apply Forall_app. split.
      * exact (read_shipment_date_lines _ _ _ H1).
      * exact (IH _ _ _ _ H2).
    + intros [= <- <-]. exact (read_shipment_date_lines _ _ _ H1).
Qed.

(** The dates the loop over the valid orders collects. *)
Lemma read_shipment_dates_spec valid dates inputs dates' rest out :
  read_shipment_dates valid dates inputs = (Some (dates', rest), out) ->
  dates_structured dates ->
  dates_structured dates' /\
  (forall o, o ∈ valid -> is_Some (dates' !! o)) /\
  (forall o, is_Some (dates !! o) -> is_Some (dates' !! o)) /\
  exists used, inputs = (used ++ rest)%list.
Proof.
  revert dates inputs dates' rest out.
  induction valid as [|o valid IH]; intros dates inputs dates' rest out; cbn.
  - intros [= <- <-] Hdates. split; [exact Hdates|].
    split; [intros o Ho; inversion Ho|]. split; [auto|]. now exists [].
  - destruct (read_shipment_date inputs) as [[[x rest1]|] out1] eqn:H1;
      [|discriminate].
    destruct (read_shipment_dates valid _ rest1) as [r' out2] eqn:H2.
    intros [= -> <-] Hdates.
    apply read_shipment_date_spec in H1 as (Hx & (used1 & _ & ->) & _).
    apply IH in H2 as (Hs & Hvalid & Hkeep & (used2 & ->)).
    + split; [exact Hs|]. split; [|split].
      * intros o' Ho'. apply elem_of_cons in Ho' as [->|Ho'].
        -- apply Hkeep. rewrite lookup_insert_eq. eauto.
        -- now apply Hvalid.
      * intros o' Ho'. apply Hkeep.
        destruct (decide (o = o')) as [->|Hne].
        -- rewrite lookup_insert_eq. eauto.
        -- now rewrite lookup_insert_ne.
      * exists (used1 ++ used2)%list. now rewrite app_assoc.
    + apply map_Forall_insert_2; [|exact Hdates].
      destruct Hx as [->|(d & _ & -> & _)]; [now left | right; eauto].
Qed.

End MenuFacts.

Section MenuClaims.
Context {py : PyLib} {console : PyConsole py}.

(** The two ways a run of the menu ends. Without a reservation: no
    line is typed, the typed line holds no order number of the sheet, or
    the lines run out while the dates are asked for. Or with the
    reservation of the valid orders among the typed ones. *)
Lemma select_orders_menu_cases p disk inputs io now :
  let res := select_orders_menu p disk inputs io now in
  (menu_planner res = p /\ menu_disk res = disk
   /\ Forall (fun ln => ln <> LnReserveError
                        /\ forall n, ln <> LnReserved n) (menu_lines res)
   /\ ((inputs = [] /\ menu_eof res = true)
       \/ exists line rest,
            inputs = line :: rest /\
            let valid := List.filter (is_valid_order (all_orders p))
                           (parse_order_numbers (PyStr.strip line)) in
            (valid = [] /\ menu_unread res = rest /\ menu_eof res = false)
            \/ (valid <> []
                /\ (read_shipment_dates valid ∅ rest).1 = None
                /\ menu_eof res = true))) \/
  (exists line rest valid dates rest' out,
     inputs = line :: rest /\
     valid = List.filter (is_valid_order (all_orders p))
                         (parse_order_numbers (PyStr.strip line)) /\
     valid <> [] /\
     read_shipment_dates valid ∅ rest = (Some (dates, rest'), out) /\
     let o := reserve_materials p disk (map VText valid) dates io now in
     res = {| menu_planner := planner_after o;
              menu_disk := disk_after o;
              menu_lines :=
                (menu_intro (all_orders p)
                 ++ match List.filter
                            (fun o => negb (is_valid_order (all_orders p) o))
                            (parse_order_numbers (PyStr.strip line)) with
                    | [] => []
                    | invalid => [LnNotFound (join ", " invalid)]
                    end
                 ++ [LnDatesTitle; LnDatesHint] ++ out
                 ++ map LnPlanner (printed o)
                 ++ match result o with
                    | ReserveSuccess _ reserved _ =>
                        [LnReserved (length valid);
                         LnReservedCount (size reserved)]
                    | ReserveError _ => [LnReserveError]
                    end)%list;
              menu_unread := rest'; menu_eof := false |}).
Proof.
  assert (Hintro : forall all,
            Forall (fun ln => ln <> LnReserveError
                              /\ forall n, ln <> LnReserved n)
                   (menu_intro all)).
  { intros all. unfold menu_intro. repeat apply Forall_app_2.
    - repeat constructor; discriminate.
    - apply Forall_forall. intros ln Hln.
      apply list_elem_of_fmap in Hln as (x & -> & _). split; discriminate.
    - destruct (Nat.ltb 10 (length all)); repeat constructor; discriminate. }
  assert (Hnotfound : forall invalid : list string,
            Forall (fun ln => ln <> LnReserveError
                              /\ forall n, ln <> LnReserved n)
                   match invalid with
                   | [] => []
                   | _ => [LnNotFound (join ", " invalid)]
                   end).
  { intros [|? ?]; repeat constructor; discriminate. }
  cbn zeta. unfold select_orders_menu.
  destruct inputs as [|line rest].
  { left. cbn [menu_planner menu_disk menu_lines menu_eof].
    split; [reflexivity|]. split; [reflexivity|]. split; [apply Hintro|].
    left. now split. }
  destruct (String.eqb_spec (PyStr.strip line) "") as [Hblank|Hblank].
  { left. cbn [menu_planner menu_disk menu_lines menu_eof menu_unread].
    split; [reflexivity|]. split; [reflexivity|]. split.
    - apply Forall_app_2; [apply Hintro|].
      repeat constructor; discriminate.
    - right. exists line, rest. split; [reflexivity|]. left.
      rewrite Hblank. now split. }
  destruct (List.filter (is_valid_order (all_orders p)) _)
    as [|o valid] eqn:Hvalid.
  { left. cbn [menu_planner menu_disk menu_lines menu_eof menu_unread].
    split; [reflexivity|]. split; [reflexivity|]. split.
    - apply Forall_app_2;
        [apply Forall_app_2; [apply Hintro|apply Hnotfound]|].
      repeat constructor; discriminate.
    - right. exists line, rest. split; [reflexivity|]. left.
      rewrite Hvalid. now split. }
  destruct (read_shipment_dates (o :: valid) ∅ rest)
    as [[[dates rest']|] out] eqn:Hread.
  - right. exists line, rest, (o :: valid), dates, rest', out.
    split; [reflexivity|]. split; [now rewrite Hvalid|].
    split; [discriminate|]. split; [exact Hread|].
    cbn zeta. f_equal. rewrite <- !app_assoc.
    destruct (List.filter (fun o0 => negb (is_valid_order (all_orders p) o0)) _);
      reflexivity.
  - left. cbn [menu_planner menu_disk menu_lines menu_eof menu_unread].
    split; [reflexivity|]. split; [reflexivity|]. split.
    + apply Forall_app_2;
        [apply Forall_app_2; [apply Hintro|apply Hnotfound]|].
      constructor; [split; discriminate|].
      constructor; [split; discriminate|].
      apply read_shipment_dates_lines in Hread.
      eapply Forall_impl; [exact Hread|]. intros ln ->. split; discriminate.
    + right. exists line, rest. split; [reflexivity|]. right.
      rewrite Hvalid, Hread. split; [discriminate|]. now split.
Qed.

(** The valid orders of the menu are the keys [select_orders] stores
    for them. *)
Lemma menu_valid_orders_selected p order_input dates :
  let valid := List.filter (is_valid_order (all_orders p))
                           (parse_order_numbers order_input) in
  forall k,
    k ∈ dict_keys (selected_orders
                     (select_orders p (map VText valid) dates).1)
    <-> k ∈ valid.
Proof.
  intros valid k. rewrite select_orders_keys. split.
  - intros (o & Ho & -> & _).
    apply list_elem_of_fmap in Ho as (t & -> & Ht).
    assert (Hkey : order_key (VText t) = t).
    { apply (parse_order_numbers_key order_input).
      apply list_elem_of_In, filter_In in Ht as [Ht _].
      now apply list_elem_of_In. }
    now rewrite Hkey.
  - intros Hk. pose proof Hk as Hk'.
    apply list_elem_of_In, filter_In in Hk' as [Hparse Hvalid].
    apply list_elem_of_In in Hparse.
    assert (Hkey : order_key (VText k) = k)
      by now apply (parse_order_numbers_key order_input).
    exists (VText k). split; [now apply list_elem_of_fmap_2|].
    split; [now symmetry|]. now apply is_valid_order_found.
Qed.

(** X17. What the menu does, case by case; it never reports a failed
    reservation. When no line is typed, when the typed line holds no
    order number of the orders sheet (a blank line is such a line), and
    when the typed lines run out while the dates are asked for, the
    planner and the ledger file stay as they are and no reservation is
    reported. In the one case left, valid numbers and a date or a
    refusal for each, the menu calls [reserve_materials] for the valid
    numbers with the dates read: the call succeeds, the planner and the
    file are those of the call, the reservation of that many orders is
    reported, and the selected orders are exactly the typed numbers
    (stripped, empty ones dropped) that the orders sheet holds. *)
Theorem select_orders_menu_reserves (p : planner) (disk : option stored)
    (inputs : list string) (io : io_outcome) (now : datetime) :
  let res := select_orders_menu p disk inputs io now in
  let untouched :=
    menu_planner res = p /\ menu_disk res = disk
    /\ forall n, LnReserved n ∉ menu_lines res in
  (LnReserveError ∉ menu_lines res) /\
  (inputs = [] -> untouched /\ menu_eof res = true) /\
  (forall line rest,
     inputs = line :: rest ->
     let valid := List.filter (is_valid_order (all_orders p))
                              (parse_order_numbers (PyStr.strip line)) in
     (PyStr.strip line = "" -> valid = []) /\
     (valid = [] ->
      untouched /\ menu_unread res = rest /\ menu_eof res = false) /\
     (valid <> [] -> (read_shipment_dates valid ∅ rest).1 = None ->
      untouched /\ menu_eof res = true) /\
     (forall dates rest' out,
        valid <> [] ->
        read_shipment_dates valid ∅ rest = (Some (dates, rest'), out) ->
        let o := reserve_materials p disk (map VText valid) dates io now in
        menu_planner res = planner_after o /\
        menu_disk res = disk_after o /\
        (exists reserved r,
           result o = ReserveSuccess (dict_keys (selected_orders
                                                   (planner_after o)))
                                     reserved r) /\
        LnReserved (length valid) ∈ menu_lines res /\
        menu_unread res = rest' /\ menu_eof res = false /\
        (forall k, k ∈ dict_keys (selected_orders (menu_planner res))
                   <-> k ∈ valid) /\
        dates_structured dates)).
Proof.
  cbn zeta.
  pose proof (select_orders_menu_cases p disk inputs io now) as Hcases.
  cbn zeta in Hcases.
  assert (Hreserve : forall line rest valid dates rest' out,
            inputs = line :: rest ->
            valid = List.filter (is_valid_order (all_orders p))
                                (parse_order_numbers (PyStr.strip line)) ->
            valid <> [] ->
            read_shipment_dates valid ∅ rest = (Some (dates, rest'), out) ->
            let o := reserve_materials p disk (map VText valid) dates io now in
            (exists reserved r,
               result o = ReserveSuccess (dict_keys (selected_orders
                                                       (planner_after o)))
                                         reserved r) /\
            dates_structured dates /\
            (forall k, k ∈ dict_keys (selected_orders (planner_after o))
                       <-> k ∈ valid)).
  { intros line rest valid dates rest' out _ Hvalid Hne Hread. cbn zeta.
    assert (Hkeys := menu_valid_orders_selected p (PyStr.strip line) dates).
    cbn zeta in Hkeys. rewrite <- Hvalid in Hkeys.
    assert (Hsel : selected_orders
                     (select_orders p (map VText valid) dates).1 <> []).
    { destruct valid as [|o valid]; [contradiction|].
      intros Hnil. specialize (Hkeys o). rewrite Hnil in Hkeys.
      destruct Hkeys as [_ Hkeys]. specialize (Hkeys ltac:(left)).
      inversion Hkeys. }
    rewrite reserve_materials_success by exact Hsel.
    cbn [result planner_after].
    split; [eauto|]. split; [|exact Hkeys].
    apply read_shipment_dates_spec in Hread as [H _]; [exact H|].
    apply map_Forall_empty. }
  destruct Hcases
    as [(Hp & Hd & Hlines & Hwhy)|
        (line & rest & valid & dates & rest' & out & Hin & Hvalid & Hne
         & Hread & Hres)].
  - rewrite Forall_forall in Hlines.
    assert (Hquiet : forall n,
              LnReserved n ∉ menu_lines (select_orders_menu p disk inputs
                                                            io now)).
    { intros n Hn. destruct (Hlines _ Hn) as [_ H]. now apply (H n). }
    split; [intros Hn; now destruct (Hlines _ Hn) as [H _]|].
    split.
    { intros Hnil. split; [now repeat split|].
      destruct Hwhy as [[_ Heof]|(line & rest & Hin & _)];
        [exact Heof | rewrite Hnil in Hin; discriminate]. }
    intros line rest ->.
    destruct Hwhy as [[Hnil _]|(line' & rest' & [= <- <-] & Hwhy)];
      [discriminate|].
    cbn zeta in Hwhy. split; [|split; [|split]].
    + intros ->. reflexivity.
    + intros Hvalid. split; [now repeat split|].
      destruct Hwhy as [(_ & Hunread & Heof)|(Hne & _)];
        [now split | contradiction].
    + intros Hne Hread. split; [now repeat split|].
      destruct Hwhy as [(Hvalid & _)|(_ & _ & Heof)];
        [contradiction | exact Heof].
    + intros dates rest' out Hne Hread. exfalso.
      destruct Hwhy as [(Hvalid & _)|(_ & Hnone & _)];
        [contradiction|]. rewrite Hread in Hnone. discriminate.
  - cbn zeta in Hres.
    destruct (Hreserve line rest valid dates rest' out Hin Hvalid Hne Hread)
      as ((reserved & r & Hresult) & Hdates & Hkeys).
    split.
    { rewrite Hres. cbn [menu_lines]. rewrite Hresult.
      rewrite !elem_of_app. intros [Hn|[Hn|[Hn|[Hn|[Hn|Hn]]]]].
      - unfold menu_intro in Hn. rewrite !elem_of_app in Hn.
        destruct Hn as [Hn|[Hn|Hn]].
        + repeat (apply elem_of_cons in Hn as [Hn|Hn]; [discriminate|]).
          inversion Hn.
        + apply list_elem_of_fmap in Hn as (x & Hx & _). discriminate.
        + revert Hn. destruct (Nat.ltb 10 _); intros Hn;
            [apply list_elem_of_singleton in Hn; discriminate
            |inversion Hn].
      - revert Hn.
        destruct (List.filter
                    (fun o0 => negb (is_valid_order (all_orders p) o0))
                    (parse_order_numbers (PyStr.strip line))); intros Hn;
          [inversion Hn
          |apply list_elem_of_singleton in Hn; discriminate].
      - repeat (apply elem_of_cons in Hn as [Hn|Hn]; [discriminate|]).
        inversion Hn.
      - apply read_shipment_dates_lines in Hread.
        rewrite Forall_forall in Hread. specialize (Hread _ Hn).
        discriminate.
      - apply list_elem_of_fmap in Hn as (x & Hx & _). discriminate.
      - repeat (apply elem_of_cons in Hn as [Hn|Hn]; [discriminate|]).
        inversion Hn. }
    split; [intros ->; discriminate|].
    intros line0 rest0 Hin0. rewrite Hin in Hin0.
    injection Hin0 as <- <-. rewrite <- Hvalid.
    split; [|split; [|split]].
    + intros Hblank. exfalso. apply Hne. rewrite Hvalid, Hblank.
      reflexivity.
    + intros Hnil. contradiction.
    + intros _ Hnone. rewrite Hread in Hnone. discriminate.
    + intros dates0 rest0 out0 _ Hread0. rewrite Hread in Hread0.
      injection Hread0 as <- <- <-.
      rewrite Hres. cbn [menu_planner menu_disk menu_lines menu_unread
                         menu_eof].
      split; [reflexivity|]. split; [reflexivity|].
      split; [now exists reserved, r|]. split.
      { rewrite Hresult, !elem_of_app. do 5 right. left. }
      split; [reflexivity|]. split; [reflexivity|].
      split; [exact Hkeys | exact Hdates].
Qed.

End MenuClaims.

Section MenuRestore.
Context {py : PyLib} {laws : PyLibLaws py} {console : PyConsole py}.

(** X18. What the menu reserves is what the next start finds. On an
    orders sheet without date cells and with a ledger file that can be
    written, a run of the menu that reports a reservation leaves a file
    from which a fresh planner loads the reserved quantities and the
    selected orders of the menu's planner; the shipment date of every
    selected order is [None] or a [datetime]. *)
Theorem select_orders_menu_persists (p fresh : planner)
    (disk : option stored) (inputs : list string) (now : datetime)
    (n : nat) :
  let res := select_orders_menu p disk inputs IoOk now in
  Forall order_row_serializable (orders_df p) ->
  selected_orders fresh = [] ->
  LnReserved n ∈ menu_lines res ->
  (load_reservation_data fresh (menu_disk res)).1.1 = true /\
  reserved_materials (loaded_planner fresh (menu_disk res))
    = reserved_materials (menu_planner res) /\
  selected_orders (loaded_planner fresh (menu_disk res))
    = selected_orders (menu_planner res) /\
  Forall (fun kv => shipment_date_structured kv.2)
         (selected_orders (menu_planner res)).
Proof.
  intros res Hrows Hfresh Hline. unfold res in *. clear res.
  destruct (select_orders_menu_cases p disk inputs IoOk now)
    as [(_ & _ & Hlines & _)|
        (line & rest & valid & dates & rest' & out & -> & Hvalid & Hne
         & Hread & Hres)].
  - rewrite Forall_forall in Hlines.
    destruct (Hlines _ Hline) as [_ Hno]. now destruct (Hno n).
  - clear Hline. cbn zeta in Hres. rewrite Hres. clear Hres.
    cbn [menu_planner menu_disk].
    assert (Hdates : dates_structured dates).
    { apply read_shipment_dates_spec in Hread as [H _]; [exact H|].
      apply map_Forall_empty. }
    assert (Hkeys := menu_valid_orders_selected p (PyStr.strip line) dates).
    cbn zeta in Hkeys. rewrite <- Hvalid in Hkeys.
    assert (Hsel : selected_orders
                     (select_orders p (map VText valid) dates).1 <> []).
    { destruct valid as [|o valid]; [contradiction|].
      intros Hnil. specialize (Hkeys o). rewrite Hnil in Hkeys.
      destruct Hkeys as [_ Hkeys]. specialize (Hkeys ltac:(left)).
      inversion Hkeys. }
    rewrite reserve_materials_success by exact Hsel.
    cbn [disk_after planner_after].
    set (p2 := set_reserved_materials _ _).
    assert (Hstruct : Forall (fun kv => shipment_date_structured kv.2)
                             (selected_orders p2))
      by now apply select_orders_structured.
    destruct (save_load_fresh p2 fresh disk now) as (Hok & Hres & Hselected);
      [apply select_orders_NoDup
      |now apply select_orders_serializable
      |exact Hstruct
      |exact Hfresh|].
    split; [exact Hok|]. split; [exact Hres|]. split; [exact Hselected|].
    exact Hstruct.
Qed.

(** X19. A restart resumes the reservation. When the workbook loads and
    its orders sheet holds no date cell, a reservation that succeeds,
    with a ledger file that can be written, leaves a file from which
    the next start of the program, on the same workbook, builds the very
    planner the reservation left, and reports its selected orders. *)
Theorem reservation_survives_restart (orders : list order_row)
    (df : dataframe) (p0 : planner) (reserved : gmap string float)
    (selected : list (string * gmap string value)) (disk : option stored)
    (order_numbers : list value) (dates : gmap string value)
    (now : datetime) :
  let p := set_selected_orders (set_reserved_materials p0 reserved)
                               selected in
  let o := reserve_materials p disk order_numbers dates IoOk now in
  load_data orders df = inr p0 ->
  Forall order_row_serializable orders ->
  dates_structured dates ->
  selected_orders (select_orders p order_numbers dates).1 <> [] ->
  start_session orders df (disk_after o)
    = inr (planner_after o,
           [EvLoaded (length (selected_orders (planner_after o)))]).
Proof.
  intros p o Hload Hrows Hdates Hsel. unfold start_session. rewrite Hload.
  assert (Hp0 : orders_df p0 = orders /\ materials_df p0 = df
                /\ reserved_materials p0 = ∅ /\ selected_orders p0 = []).
  { unfold load_data in Hload.
    destruct (build_stock_data df); [discriminate|].
    now injection Hload as <-. }
  destruct Hp0 as (Horders & Hdf & Hres0 & Hsel0).
  unfold o. rewrite reserve_materials_success by exact Hsel.
  cbn [disk_after planner_after].
  set (p2 := set_reserved_materials _ _).
  destruct (save_load_fresh p2 p0 disk now) as (Hok & Hres & Hselected).
  - apply select_orders_NoDup.
  - apply select_orders_serializable. cbn. now rewrite Horders.
  - now apply select_orders_structured.
  - exact Hsel0.
  - cbn zeta in Hok, Hres, Hselected.
    unfold loaded_planner in Hres, Hselected.
    destruct (load_reservation_data p0 _) as [[ok p'] out] eqn:Hloaded.
    cbn [fst snd] in *.
    assert (Hframe : orders_df p' = orders_df p0
                     /\ materials_df p' = materials_df p0
                     /\ stock_data p' = stock_data p0
                     /\ out = [EvLoaded (length (selected_orders p'))]).
    { unfold load_reservation_data in Hloaded.
      destruct (save_reservation_data p2 disk IoOk now).1 as [[|d]|];
        injection Hloaded as <- <- <-; try discriminate.
      now cbn. }
    destruct Hframe as (Ho & Hm & Hs & ->).
    rewrite Hselected. do 2 f_equal.
    destruct p' as [o' m' s' r' sel']. cbn in *. subst.
    reflexivity.
Qed.

End MenuRestore.

(** ** The properties on the sample data *)

#[local] Existing Instance Example.sample_py.
#[local] Existing Instance Example.sample_console.

Lemma sample_orders_serializable :
  Forall (order_row_serializable (py := Example.sample_py)) Example.orders.
Proof.
  unfold order_row_serializable.
  apply (bool_decide_eq_true_1 _). vm_compute. reflexivity.
Qed.

Lemma sample_selection_nonempty {py : PyLib} (p : planner) o dates :
  find_order (orders_df p) (order_key o) <> None ->
  selected_orders (select_orders p [o] dates).1 <> [].
Proof.
  intros Hfound Hnil.
  assert (Hk : order_key o
               ∈ dict_keys (selected_orders (select_orders p [o] dates).1)).
  { apply select_orders_keys. exists o. split; [left|].
    split; [reflexivity|]. now destruct (find_order _ _). }
  rewrite Hnil in Hk. inversion Hk.
Qed.

Lemma select_orders_snapshot_102 :
  exists info,
    dict_get "102"
      (selected_orders
         (select_orders Example.busy_planner [VText "101"; VText "102"]
                        Example.ship_102).1)
      = Some info /\
    info !! SHIPMENT_DATE = Some (VDate Example.Jan15_2025) /\
    info !! ORDERS_NUMBER = Some (VText "102") /\
    info !! "Клиент" = Some (VText "Bolt").
Proof.
  destruct (select_orders_snapshot Example.busy_planner
              [VText "101"; VText "102"]
              Example.ship_102 (VText "102") 1
              Example.row_102)
    as (info & Hget & Hdate & Hnumber & Hfields).
  - right. left.
  - reflexivity.
  - reflexivity.
  - intros j r' Hj Hr'. destruct j as [|j]; [|lia].
    injection Hr' as <-. vm_compute. discriminate.
  - exists info. split; [exact Hget|]. split; [exact Hdate|].
    split; [exact Hnumber|].
    rewrite Hfields by (vm_compute; discriminate).
    vm_compute. reflexivity.
Defined.

Lemma report_quantities_signs_scenario2 :
  calculate_material_requirements Example.scenario2
    = CalcReport (compute_report Example.scenario2) /\
  material_balance (compute_report Example.scenario2) !! "glass"
    = Some Example.scenario2_balance /\
  (available_now Example.scenario2_balance <? F64.zero)%float = false /\
  purchase_requirements (compute_report Example.scenario2) !! "glass"
    = Some 3%float /\
  (F64.zero <? 3)%float = true.
Proof.
  assert (H1 : calculate_material_requirements Example.scenario2
               = CalcReport (compute_report Example.scenario2))
    by (vm_compute; reflexivity).
  assert (H2 : material_balance (compute_report Example.scenario2) !! "glass"
               = Some Example.scenario2_balance)
    by (vm_compute; reflexivity).
  assert (H3 : purchase_requirements (compute_report Example.scenario2)
                 !! "glass" = Some 3%float)
    by (vm_compute; reflexivity).
  destruct (report_quantities_signs Example.scenario2 _ "glass"
              Example.scenario2_balance H1 H2) as [Havailable Hpurchase].
  split; [exact H1|]. split; [exact H2|]. split; [exact Havailable|].
  split; [exact H3|]. exact (Hpurchase _ H3).
Defined.

Lemma order_materials_entries_scenario2 :
  order_materials (compute_report Example.scenario2) !! "102"
    = Some {[ "glass" := 5%float ]} /\
  "102" ∈ dict_keys (selected_orders Example.scenario2) /\
  "glass" ∈ all_materials (materials_df Example.scenario2) /\
  (F64.zero <? 5)%float = true /\
  is_Some (material_balance (compute_report Example.scenario2) !! "glass").
Proof.
  assert (H1 : calculate_material_requirements Example.scenario2
               = CalcReport (compute_report Example.scenario2))
    by (vm_compute; reflexivity).
  assert (H2 : order_materials (compute_report Example.scenario2) !! "102"
               = Some {[ "glass" := 5%float ]})
    by (vm_compute; reflexivity).
  assert (H3 : ({[ "glass" := 5%float ]} : gmap string float) !! "glass"
               = Some 5%float)
    by (vm_compute; reflexivity).
  destruct (order_materials_entries Example.scenario2 _ "102" "glass"
              _ _ H1 H2 H3)
    as (Hkey & _ & Hlisted & Hpositive & _ & Hbalance).
  split; [exact H2|]. split; [exact Hkey|]. split; [exact Hlisted|].
  split; [exact Hpositive|]. exact Hbalance.
Defined.

Lemma report_without_columns_unlisted :
  load_data Example.orders Example.restocked_sheet
    = inr (set_selected_orders Example.unlisted_selected []) /\
  dict_keys (selected_orders Example.unlisted_selected) = ["102"] /\
  order_columns (materials_df Example.unlisted_selected) "102" = [] /\
  calculate_material_requirements Example.unlisted_selected
  = CalcReport {| material_requirements := ∅; material_balance := ∅;
                  purchase_requirements := ∅; order_materials := ∅ |}.
Proof.
  split; [vm_compute; reflexivity|].
  split; [vm_compute; reflexivity|]. split; [vm_compute; reflexivity|].
  apply report_without_columns.
  - vm_compute. discriminate.
  - right. apply Forall_cons. split; [|apply Forall_nil_2].
    vm_compute. reflexivity.
Defined.

Lemma resolver_row_sums_scenario2 :
  MATERIAL ∈ columns (materials_df Example.scenario2) /\
  NoDup (all_materials (materials_df Example.scenario2)) /\
  material_requirements (compute_report Example.scenario2) !! "glass"
    = Some 5%float /\
  order_entry (order_materials (compute_report Example.scenario2))
              "102" "glass"
    = Some 5%float.
Proof.
  assert (Hcol : MATERIAL ∈ columns (materials_df Example.scenario2))
    by (apply (bool_decide_eq_true_1 _); vm_compute; reflexivity).
  assert (Hnames : Forall (fun row => notna (cell row MATERIAL) = true)
                          (rows (materials_df Example.scenario2))).
  { apply Forall_cons. split; [vm_compute; reflexivity | apply Forall_nil_2]. }
  assert (Hnd : NoDup (all_materials (materials_df Example.scenario2)))
    by (apply (bool_decide_eq_true_1 _); vm_compute; reflexivity).
  assert (Hkeys : NoDup (dict_keys (selected_orders Example.scenario2)))
    by apply select_orders_NoDup.
  destruct (resolver_row_sums Example.scenario2 0 _ Hcol Hnames Hnd Hkeys
              eq_refl) as (Hsum & Hentry & Hsingle).
  split; [exact Hcol|]. split; [exact Hnd|]. split.
  - etransitivity; [exact (Hsingle "102" eq_refl)|].
    vm_compute. reflexivity.
  - etransitivity; [apply (Hentry "102"); left|].
    vm_compute. reflexivity.
Defined.

Lemma reserve_failed_write_file_glass :
  disk_after (reserve_materials Example.fresh_planner Example.busy_disk
                [VText "101"] Example.no_dates IoWriteFails
                Example.Dec25_2024)
    = Some Unreadable /\
  load_reservation_data Example.fresh_planner
    (disk_after (reserve_materials Example.fresh_planner Example.busy_disk
                   [VText "101"] Example.no_dates IoWriteFails
                   Example.Dec25_2024))
    = (false, Example.fresh_planner, [EvLoadFailed]) /\
  disk_after (reserve_materials Example.fresh_planner Example.busy_disk
                [VText "101"] Example.no_dates IoOpenFails
                Example.Dec25_2024)
    = Example.busy_disk.
Proof.
  assert (Hsel : selected_orders
                   (select_orders Example.fresh_planner [VText "101"]
                                  Example.no_dates).1 <> []).
  { apply sample_selection_nonempty. vm_compute. discriminate. }
  destruct (reserve_failed_write_file Example.fresh_planner
              Example.busy_disk [VText "101"] Example.no_dates IoWriteFails
              Example.Dec25_2024 Hsel) as [_ Hlost].
  destruct (Hlost (or_introl eq_refl)) as [Hdisk Hload].
  destruct (reserve_failed_write_file Example.fresh_planner
              Example.busy_disk [VText "101"] Example.no_dates IoOpenFails
              Example.Dec25_2024 Hsel) as [Hkept _].
  split; [exact Hdisk|]. split; [apply Hload|]. exact (Hkept eq_refl).
Defined.

Lemma reserve_then_restore_dated :
  (load_reservation_data Example.fresh_planner
     (disk_after (reserve_materials Example.busy_planner None
                    [VText "101"] Example.ship_101 IoOk Example.Jan15_2025))).1.1
    = true /\
  reserved_materials
    (loaded_planner Example.fresh_planner
       (disk_after (reserve_materials Example.busy_planner None
                      [VText "101"] Example.ship_101 IoOk Example.Jan15_2025)))
    = {[ "glass" := 12%float ]} /\
  selected_orders
    (loaded_planner Example.fresh_planner
       (disk_after (reserve_materials Example.busy_planner None
                      [VText "101"] Example.ship_101 IoOk Example.Jan15_2025)))
    = selected_orders Example.dated_planner.
Proof.
  assert (Hsel : selected_orders
                   (select_orders Example.busy_planner [VText "101"]
                                  Example.ship_101).1 <> []).
  { apply sample_selection_nonempty. vm_compute. discriminate. }
  assert (Hdates : dates_structured Example.ship_101).
  { apply map_Forall_singleton. right. now exists Example.Dec25_2024. }
  destruct (reserve_then_restore Example.busy_planner Example.fresh_planner
              None [VText "101"] Example.ship_101 Example.Jan15_2025
              sample_orders_serializable Hdates Hsel eq_refl)
    as (Hok & Hreserved & Hselected).
  split; [exact Hok|]. split.
  - rewrite Hreserved. vm_compute. reflexivity.
  - rewrite Hselected. reflexivity.
Defined.

Lemma restore_file_wins_102 :
  NoDup (dict_keys (selected_orders Example.dated_planner)) /\
  dict_keys
    (selected_orders
       (loaded_planner Example.dated_planner
                       (Some (Document Example.stored_102))))
    = ["101"; "102"] /\
  dict_get "102"
    (selected_orders
       (loaded_planner Example.dated_planner
                       (Some (Document Example.stored_102))))
    = Some (list_to_map [(ORDERS_NUMBER, VText "102");
                         (SHIPMENT_DATE, VNone)]).
Proof.
  assert (Hmem : NoDup (dict_keys (selected_orders Example.dated_planner)))
    by apply select_orders_NoDup.
  assert (Hfile : NoDup (dict_keys (default [] (doc_selected_orders
                                                  Example.stored_102))))
    by (apply (bool_decide_eq_true_1 _); vm_compute; reflexivity).
  destruct (restore_file_wins Example.dated_planner Example.stored_102
              Hmem Hfile) as (_ & Hget & _).
  split; [exact Hmem|]. split; [vm_compute; reflexivity|].
  rewrite (Hget "102" _ ltac:(left)). vm_compute. reflexivity.
Defined.

Lemma restore_idempotent_102 :
  load_reservation_data
    (loaded_planner Example.dated_planner
                    (Some (Document Example.stored_102)))
    (Some (Document Example.stored_102))
  = load_reservation_data Example.dated_planner
                          (Some (Document Example.stored_102)).
Proof.
  apply restore_idempotent. intros d [= <-].
  apply (bool_decide_eq_true_1 _). vm_compute. reflexivity.
Defined.

Lemma stock_index_last_row_wins_restocked :
  rows Example.restocked_sheet !! 1 = Some Example.restocked_row /\
  on_hand_float Example.restocked_row = inr 7%float /\
  exists stock,
    build_stock_data Example.restocked_sheet = inr stock /\
    stock !! "glass" = Some 7%float /\
    is_Some (stock !! "argon").
Proof.
  assert (Hon : ON_HAND ∈ columns Example.restocked_sheet)
    by (apply (bool_decide_eq_true_1 _); vm_compute; reflexivity).
  assert (Hmat : MATERIAL ∈ columns Example.restocked_sheet)
    by (apply (bool_decide_eq_true_1 _); vm_compute; reflexivity).
  assert (Hrows : Forall row_converts (rows Example.restocked_sheet)).
  { repeat (apply Forall_cons; split;
            [intros _; eexists; vm_compute; reflexivity|]).
    apply Forall_nil_2. }
  destruct (stock_index_last_row_wins Example.restocked_sheet 1
              Example.restocked_row 7%float Hon Hmat Hrows eq_refl)
    as (stock & Hbuild & Hlast & Hdom).
  - vm_compute. reflexivity.
  - vm_compute. reflexivity.
  - intros j row' Hj Hrow' _.
    destruct j as [|[|[|j]]]; [lia | lia | | discriminate].
    injection Hrow' as <-. vm_compute. discriminate.
  - split; [reflexivity|]. split; [vm_compute; reflexivity|].
    exists stock. split; [exact Hbuild|]. split; [exact Hlast|].
    apply Hdom. eexists. split; [right; right; left|].
    split; vm_compute; reflexivity.
Defined.

Lemma select_orders_menu_reserves_typed :
  List.filter (is_valid_order (all_orders Example.busy_planner))
              (parse_order_numbers (PyStr.strip " 101, 102 ,555"))
    = ["101"; "102"] /\
  read_shipment_dates ["101"; "102"] ∅ ["tomorrow"; "25.12.2024"; ""; "Y"]
    = (Some (<["102" := VNone]> Example.ship_101, []), [LnBadDate]) /\
  menu_planner (select_orders_menu Example.busy_planner None
                  Example.typed_lines IoOk Example.Jan15_2025)
    = planner_after
        (reserve_materials Example.busy_planner None
           [VText "101"; VText "102"] (<["102" := VNone]> Example.ship_101)
           IoOk Example.Jan15_2025) /\
  (LnReserved 2
   ∈ menu_lines (select_orders_menu Example.busy_planner None
                   Example.typed_lines IoOk Example.Jan15_2025)) /\
  menu_planner (select_orders_menu Example.busy_planner None ["555"] IoOk
                  Example.Jan15_2025)
    = Example.busy_planner.
Proof.
  assert (Hvalid : List.filter
                     (is_valid_order (all_orders Example.busy_planner))
                     (parse_order_numbers (PyStr.strip " 101, 102 ,555"))
                   = ["101"; "102"])
    by (vm_compute; reflexivity).
  assert (Hread : read_shipment_dates ["101"; "102"] ∅
                    ["tomorrow"; "25.12.2024"; ""; "Y"]
                  = (Some (<["102" := VNone]> Example.ship_101, []),
                     [LnBadDate]))
    by (vm_compute; reflexivity).
  destruct (select_orders_menu_reserves Example.busy_planner None
              Example.typed_lines IoOk Example.Jan15_2025)
    as (_ & _ & Htyped).
  destruct (Htyped _ _ eq_refl) as (_ & _ & _ & Hreserve).
  rewrite Hvalid in Hreserve.
  destruct (Hreserve _ _ _ ltac:(discriminate) Hread)
    as (Hplanner & _ & _ & Hline & _).
  destruct (select_orders_menu_reserves Example.busy_planner None
              ["555"] IoOk Example.Jan15_2025)
    as (_ & _ & Hunknown).
  destruct (Hunknown _ _ eq_refl) as (_ & Hnone & _).
  destruct (Hnone ltac:(vm_compute; reflexivity)) as ((Hsame & _) & _).
  split; [exact Hvalid|]. split; [exact Hread|]. split; [exact Hplanner|].
  split; [exact Hline | exact Hsame].
Defined.

Lemma select_orders_menu_persists_typed :
  menu_lines
    (select_orders_menu Example.busy_planner None Example.typed_lines
                        IoOk Example.Jan15_2025)
    = [LnTitle; LnTotal 2; LnExamples; LnExample "101"; LnExample "102";
       LnNotFound "555"; LnDatesTitle; LnDatesHint; LnBadDate;
       LnPlanner (EvSelected 2); LnPlanner EvSaved;
       LnReserved 2; LnReservedCount 1] /\
  (load_reservation_data Example.fresh_planner
     (menu_disk
        (select_orders_menu Example.busy_planner None Example.typed_lines
                            IoOk Example.Jan15_2025))).1.1 = true /\
  reserved_materials
    (loaded_planner Example.fresh_planner
       (menu_disk
          (select_orders_menu Example.busy_planner None Example.typed_lines
                              IoOk Example.Jan15_2025)))
    = {[ "glass" := 17%float ]} /\
  dict_keys
    (selected_orders
       (loaded_planner Example.fresh_planner
          (menu_disk
             (select_orders_menu Example.busy_planner None
                                 Example.typed_lines IoOk
                                 Example.Jan15_2025))))
    = ["101"; "102"].
Proof.
  assert (Hlines : menu_lines
                     (select_orders_menu Example.busy_planner None
                        Example.typed_lines IoOk Example.Jan15_2025)
                   = [LnTitle; LnTotal 2; LnExamples; LnExample "101";
                      LnExample "102"; LnNotFound "555"; LnDatesTitle;
                      LnDatesHint; LnBadDate; LnPlanner (EvSelected 2);
                      LnPlanner EvSaved; LnReserved 2; LnReservedCount 1])
    by (vm_compute; reflexivity).
  assert (Hline : LnReserved 2
                  ∈ menu_lines
                      (select_orders_menu Example.busy_planner None
                         Example.typed_lines IoOk Example.Jan15_2025)).
  { rewrite Hlines. do 11 right. left. }
  assert (Hmenu : reserved_materials
                    (menu_planner
                       (select_orders_menu Example.busy_planner None
                          Example.typed_lines IoOk Example.Jan15_2025))
                  = {[ "glass" := 17%float ]})
    by (vm_compute; reflexivity).
  assert (Hkeys : dict_keys
                    (selected_orders
                       (menu_planner
                          (select_orders_menu Example.busy_planner None
                             Example.typed_lines IoOk Example.Jan15_2025)))
                  = ["101"; "102"])
    by (vm_compute; reflexivity).
  destruct (select_orders_menu_persists Example.busy_planner
              Example.fresh_planner None Example.typed_lines
              Example.Jan15_2025 2 sample_orders_serializable eq_refl Hline)
    as (Hok & Hreserved & Hselected & _).
  split; [exact Hlines|]. split; [exact Hok|].
  split; [exact (eq_trans Hreserved Hmenu)|].
  exact (eq_trans (f_equal dict_keys Hselected) Hkeys).
Defined.

Lemma reservation_survives_restart_glass :
  load_data Example.orders Example.glass_sheet = inr Example.fresh_planner /\
  start_session Example.orders Example.glass_sheet
    (disk_after (reserve_materials Example.busy_planner None
                   [VText "101"] Example.ship_101 IoOk Example.Jan15_2025))
  = inr (planner_after
           (reserve_materials Example.busy_planner None
              [VText "101"] Example.ship_101 IoOk Example.Jan15_2025),
         [EvLoaded 1]).
Proof.
  assert (Hload : load_data Example.orders Example.glass_sheet
                  = inr Example.fresh_planner)
    by (vm_compute; reflexivity).
  assert (Hsel : selected_orders
                   (select_orders Example.busy_planner [VText "101"]
                                  Example.ship_101).1 <> []).
  { apply sample_selection_nonempty. vm_compute. discriminate. }
  assert (Hdates : dates_structured Example.ship_101).
  { apply map_Forall_singleton. right. now exists Example.Dec25_2024. }
  split; [exact Hload|].
  exact (reservation_survives_restart Example.orders Example.glass_sheet
           Example.fresh_planner {[ "glass" := 8%float ]} [] None
           [VText "101"] Example.ship_101 Example.Jan15_2025 Hload
           sample_orders_serializable Hdates Hsel).
Defined.
